(** * Gateway operator: control-plane and Konnect-extension reconciler helpers

    A shallow embedding of
      - controller/konnect/konnectextension_controller_utils.go
      - controller/controlplane/controller_reconciler_utils.go
    together with the properties of these helpers that the design document
    states.

    Conventions.
      - Go strings are byte sequences: [string].
      - A Go [error] value is a term of [error]; the nil error is [None].
      - A Go pointer that is only tested against nil and dereferenced is an
        [option].
      - A Go slice is a [list].  [cmp.Equal] tells a nil slice from an empty
        one: where a statement below depends on that comparison (the status of
        a KonnectExtension) or on the nil result itself (the watch
        namespaces), the slice is an [option (list _)] and [None] is the nil
        slice; elsewhere a nil slice is the empty list.
      - Calls that reach the cluster API (the controller-runtime client and the
        helper packages that take it) are events of a small free monad; a
        handler gives their answers and the interpreter records every call. *)

From Stdlib Require Import String Ascii List Bool Arith ZArith Lia.
From Stdlib Require Import Sorting.Sorted Sorting.Permutation.
Import ListNotations.

Set Implicit Arguments.

Local Open Scope string_scope.
Local Open Scope list_scope.

(* ------------------------------------------------------------------------- *)
(** ** Go's [strings] package: the three functions the code uses *)
(* ------------------------------------------------------------------------- *)

Module GoStrings.
Local Open Scope string_scope.

Definition LF : ascii := "010"%char.
Definition CR : ascii := "013"%char.

(** The one-byte strings ["\n"] and ["\r"]. *)
Definition LFs : string := String LF EmptyString.
Definition CRs : string := String CR EmptyString.

(** [strings.HasSuffix]:
    [len(s) >= len(suffix) && s[len(s)-len(suffix):] == suffix]. *)
Definition HasSuffix (s suffix : string) : bool :=
  Nat.leb (String.length suffix) (String.length s) &&
  String.eqb
    (substring (String.length s - String.length suffix) (String.length suffix) s)
    suffix.

(** [strings.TrimSuffix]: [s[:len(s)-len(suffix)]] when [s] has the suffix,
    [s] itself otherwise. *)
Definition TrimSuffix (s suffix : string) : string :=
  if HasSuffix s suffix
  then substring 0 (String.length s - String.length suffix) s
  else s.

(** [strings.HasPrefix]: [len(s) >= len(prefix) && s[:len(prefix)] == prefix]. *)
Definition HasPrefix (s prefix : string) : bool :=
  Nat.leb (String.length prefix) (String.length s) &&
  String.eqb (substring 0 (String.length prefix) s) prefix.

(** [strings.ReplaceAll s old new] for a non-empty [old]: the occurrences of
    [old] are found left to right and do not overlap.  [skip] counts the
    bytes of an occurrence that has just been replaced and are still to be
    passed over. *)
Fixpoint replaceFrom (skip : nat) (s old new : string) : string :=
  match s with
  | EmptyString => EmptyString
  | String c s' =>
      match skip with
      | S k => replaceFrom k s' old new
      | O =>
          if HasPrefix s old
          then new ++ replaceFrom (String.length old - 1) s' old new
          else String c (replaceFrom 0 s' old new)
      end
  end.

Definition ReplaceAll (s old new : string) : string := replaceFrom 0 s old new.

(** The string of the bytes of [s] that satisfy [keep]. *)
Fixpoint filterBytes (keep : ascii -> bool) (s : string) : string :=
  match s with
  | EmptyString => EmptyString
  | String c s' =>
      if keep c then String c (filterBytes keep s') else filterBytes keep s'
  end.

Definition notCR (c : ascii) : bool := negb (Ascii.eqb c CR).

(** [bytes s]: the bytes of [s], in order. *)
Definition bytes (s : string) : list ascii := list_ascii_of_string s.

(** [strconv.Quote]: the string in double quotes, with a backslash before a
    double quote and before a backslash, the printable bytes of ASCII as they
    are, the escapes [\a], [\b], [\f], [\n], [\r], [\t] and [\v], and [\x]
    with two hexadecimal digits for the other control bytes.  A byte from 128
    on is part of a rune outside ASCII, which is kept when it is printable;
    it is kept here, and the escapes of the other such runes and of invalid
    bytes are not modelled. *)
Definition hexDigit (n : nat) : ascii :=
  match String.get n "0123456789abcdef" with
  | Some c => c
  | None => "0"%char
  end.

Definition quoteByte (c : ascii) : string :=
  let n := nat_of_ascii c in
  if Ascii.eqb c "034"%char then String "\"%char (String "034"%char EmptyString)
  else if Ascii.eqb c "\"%char then "\\"
  else if Nat.leb 32 n && Nat.ltb n 127 then String c EmptyString
  else if Nat.eqb n 7 then "\a"
  else if Nat.eqb n 8 then "\b"
  else if Nat.eqb n 12 then "\f"
  else if Nat.eqb n 10 then "\n"
  else if Nat.eqb n 13 then "\r"
  else if Nat.eqb n 9 then "\t"
  else if Nat.eqb n 11 then "\v"
  else if Nat.ltb n 128
  then "\x" ++ String (hexDigit (Nat.div n 16)) (String (hexDigit (Nat.modulo n 16)) EmptyString)
  else String c EmptyString.

Fixpoint quoteBytes (s : string) : string :=
  match s with
  | EmptyString => EmptyString
  | String c s' => quoteByte c ++ quoteBytes s'
  end.

Definition Quote (s : string) : string :=
  String "034"%char (quoteBytes s ++ String "034"%char EmptyString).

End GoStrings.

(* ------------------------------------------------------------------------- *)
(** ** Go values shared by both packages *)
(* ------------------------------------------------------------------------- *)

Module Go.
Local Open Scope string_scope.

(** The reason carried by a Kubernetes API status error
    ([k8s.io/apimachinery/pkg/api/errors]). *)
Inductive StatusReason : Type :=
| StatusReasonNotFound
| StatusReasonConflict
| StatusReasonOther.

(** Go [error] values, as the two files build and inspect them.
    - [APIStatusError]: an error answered by the API server.
    - [ErrorString]: [errors.New msg], and [fmt.Errorf] without [%w].
    - [WrapError prefix err]: [fmt.Errorf(prefix + "%w", err)].
    - [Sentinel name]: a package-level error variable, compared by identity;
      its text is declared outside these two files, so [name] is the name of
      the variable. *)
Inductive error : Type :=
| APIStatusError (reason : StatusReason) (msg : string)
| ErrorString (msg : string)
| WrapError (prefix : string) (err : error)
| Sentinel (name : string).

(** [err.Error()]. *)
Fixpoint Error (e : error) : string :=
  match e with
  | APIStatusError _ msg => msg
  | ErrorString msg => msg
  | WrapError prefix err => prefix ++ Error err
  | Sentinel name => name
  end.

(** [k8serrors.ReasonForError]: the reason of the first API status error in
    the chain of wrapped errors. *)
Fixpoint ReasonForError (e : error) : option StatusReason :=
  match e with
  | APIStatusError reason _ => Some reason
  | WrapError _ err => ReasonForError err
  | ErrorString _ | Sentinel _ => None
  end.

Definition IsNotFound (e : error) : bool :=
  match ReasonForError e with Some StatusReasonNotFound => true | _ => false end.

Definition IsConflict (e : error) : bool :=
  match ReasonForError e with Some StatusReasonConflict => true | _ => false end.

(** [k8serrors.NewNotFound(qualifiedResource, name)], whose text is
    [fmt.Sprintf("%s %q not found", qualifiedResource.String(), name)];
    [qualifiedResource] is given as that string, the resource followed by a
    dot and its group. *)
Definition NewNotFound (qualifiedResource name : string) : error :=
  APIStatusError StatusReasonNotFound
    (qualifiedResource ++ " " ++ GoStrings.Quote name ++ " not found").

(** A Go call returning [(T, error)]. *)
Inductive result (T : Type) : Type :=
| Ok (v : T)
| Err (e : error).
Arguments Err {T} e.

(** [ctrl.Result]. *)
Record Result : Type := mkResult { Requeue : bool; RequeueAfter : Z }.

Definition ResultZero : Result := mkResult false 0.
Definition ResultRequeue : Result := mkResult true 0.

Definition IsZero (r : Result) : bool :=
  negb (Requeue r) && Z.eqb (RequeueAfter r) 0.

(** [op.Result]. *)
Inductive opResult : Type := Noop | Created | Updated | Deleted.

(** A Go slice whose nil-ness is observable. *)
Definition slice (A : Type) : Type := option (list A).

(** [append(s, x)]. *)
Definition append_slice {A : Type} (s : slice A) (x : A) : slice A :=
  match s with
  | None => Some [x]
  | Some l => Some (l ++ [x])%list
  end.

(** The elements of a slice; a nil slice has none. *)
Definition elements {A : Type} (s : slice A) : list A :=
  match s with None => [] | Some l => l end.

End Go.

(* ------------------------------------------------------------------------- *)
(** ** Programs that call the cluster API *)
(* ------------------------------------------------------------------------- *)

Module Prog.

Section WithEvents.
(** [E X]: the calls whose answer has type [X]. *)
Variable E : Type -> Type.

Inductive Prog (R : Type) : Type :=
| Ret (r : R)
| Vis (X : Type) (e : E X) (k : X -> Prog R).

Arguments Ret {R} r.
Arguments Vis {R X} e k.

Fixpoint bind {A B : Type} (m : Prog A) (f : A -> Prog B) : Prog B :=
  match m with
  | Ret a => f a
  | Vis e k => Vis e (fun x => bind (k x) f)
  end.

Definition call {X : Type} (e : E X) : Prog X := Vis e (fun x => Ret x).

(** A recorded call. *)
Inductive Call : Type :=
| MkCall (X : Type) (e : E X).

(** The environment: every call is answered from a state [W], which the
    call may change. *)
Definition Handler (W : Type) : Type := forall X : Type, E X -> W -> X * W.

(** [run h p w]: the value [p] returns, the final state and the calls made,
    in order. *)
Fixpoint run {W R : Type} (h : Handler W) (p : Prog R) (w : W)
  : R * W * list Call :=
  match p with
  | Ret r => (r, w, [])
  | Vis e k =>
      let (x, w1) := h _ e w in
      let '(r, w2, t) := run h (k x) w1 in
      (r, w2, MkCall e :: t)
  end.

Definition value {W R : Type} (h : Handler W) (p : Prog R) (w : W) : R :=
  fst (fst (run h p w)).

Definition calls {W R : Type} (h : Handler W) (p : Prog R) (w : W) : list Call :=
  snd (run h p w).

End WithEvents.

Arguments Ret {E R} r.
Arguments Vis {E R X} e k.
Arguments MkCall {E X} e.
Arguments bind {E A B} m f.
Arguments call {E X} e.
Arguments run {E W R} h p w.
Arguments value {E W R} h p w.
Arguments calls {E W R} h p w.

End Prog.

Declare Scope prog_scope.
Delimit Scope prog_scope with prog.
Notation "x <- m ;; k" := (Prog.bind m (fun x => k))
(at level 61, m at next level, right associativity) : prog_scope.
Notation "' p <- m ;; k" := (Prog.bind m (fun x => let p := x in k))
(at level 61, p pattern, m at next level, right associativity) : prog_scope.

(* ------------------------------------------------------------------------- *)
(** ** Kubernetes API types, reduced to the fields the two files use *)
(* ------------------------------------------------------------------------- *)

Module K8s.
Local Open Scope string_scope.

(** [metav1.ConditionStatus] is a string type with these three values. *)
Definition ConditionTrue : string := "True".
Definition ConditionFalse : string := "False".
Definition ConditionUnknown : string := "Unknown".

(** [metav1.Condition]. *)
Module Condition.
Record t : Type := mk { Type_ : string; Status : string; Reason : string; Message : string }.
End Condition.

(** [commonv1alpha1.NamespacedRef]; [Namespace] is a [*string]. *)
Module NamespacedRef.
Record t : Type := mk { Name : string; Namespace : option string }.
End NamespacedRef.

(** [client.ObjectKey], [types.NamespacedName]. *)
Module ObjectKey.
Record t : Type := mk { Namespace : string; Name : string }.
End ObjectKey.

Definition Labels : Type := list (string * string).

(** [metav1.ObjectMeta]. *)
Module ObjectMeta.
Record t : Type := mk {
  Name : string;
  Namespace : string;
  UID : string;
  Labels_ : Labels;
  Annotations : Labels
}.
End ObjectMeta.

End K8s.

(* ------------------------------------------------------------------------- *)
(** ** Package konnect: konnectextension_controller_utils.go *)
(* ------------------------------------------------------------------------- *)

Module Konnect.
Import Go K8s Prog.
Local Open Scope string_scope.
Local Open Scope prog_scope.

(** Condition vocabulary of the Konnect API types
    (kubernetes-configuration, api/konnect). *)
Definition ControlPlaneRefValidConditionType : string := "ControlPlaneRefValid".
Definition ControlPlaneRefReasonValid : string := "Valid".
Definition ControlPlaneRefReasonInvalid : string := "Invalid".
Definition KonnectEntityProgrammedConditionType : string := "Programmed".
Definition KonnectExtensionAppliedType : string := "KonnectExtensionApplied".

(** [konnectv1alpha1.Resource("KonnectGatewayControlPlane").String()]: the
    resource in the group of the Konnect API types. *)
Definition KonnectGatewayControlPlaneResource : string :=
  "KonnectGatewayControlPlane.konnect.konghq.com".

(** [extensionserrors.ErrKonnectGatewayControlPlaneNotProgrammed]. *)
Definition ErrKonnectGatewayControlPlaneNotProgrammed : error :=
  Sentinel "extensionserrors.ErrKonnectGatewayControlPlaneNotProgrammed".

(** [konnectv1alpha1.KonnectGatewayControlPlane]. *)
Module KonnectGatewayControlPlane.
Record t : Type := mk { Name : string; Namespace : string; Conditions : list Condition.t }.
End KonnectGatewayControlPlane.

(** [ext.Spec.Konnect.ControlPlane.Ref]: the [Type] field together with the
    pointer field that the API validation requires for that type.  The
    function below switches on these two types only. *)
Inductive ControlPlaneRef : Type :=
| KonnectNamespacedRef (Name : string)
| KonnectID (id : string).

(** [konnectv1alpha1.KonnectExtensionStatus]. *)
Module KonnectExtensionStatus.
Record t : Type := mk {
  Conditions : list Condition.t;
  DataPlaneRefs : slice NamespacedRef.t;
  ControlPlaneRefs : slice NamespacedRef.t;
  DataPlaneClientAuth : option string
}.
End KonnectExtensionStatus.

(** [konnectv1alpha1.KonnectExtension]. *)
Module KonnectExtension.
Record t : Type := mk {
  Name : string;
  Namespace : string;
  Ref : ControlPlaneRef;
  Status : KonnectExtensionStatus.t
}.
End KonnectExtension.

(** An item of [operatorv1beta1.DataPlaneList] or
    [operatorv1beta1.ControlPlaneList]: the fields read here are the same. *)
Module Extendable.
Record t : Type := mk { Name : string; Namespace : string; Conditions : list Condition.t }.
End Extendable.

(** The calls this file makes through [r.Client] and package [patch]. *)
Inductive KonnectE : Type -> Type :=
| Get (key : ObjectKey.t) : KonnectE (result KonnectGatewayControlPlane.t)
| ListByKonnectID (ns indexField value : string)
    : KonnectE (result (list KonnectGatewayControlPlane.t))
| StatusWithConditions (ext : KonnectExtension.t) (conds : list Condition.t)
    : KonnectE (Result * opResult * option error)
| StatusUpdate (ext : KonnectExtension.t) : KonnectE (option error).

(** What the two files take from packages of this repository that are not
    part of them. *)
Class Deps : Type := {
  (** [k8sutils.HasConditionTrue condType obj]. *)
  HasConditionTrue : string -> KonnectGatewayControlPlane.t -> bool;
  (** [index.IndexFieldKonnectGatewayControlPlaneOnKonnectID]. *)
  IndexFieldKonnectGatewayControlPlaneOnKonnectID : string
}.

Section WithDeps.
Context {deps : Deps}.

(** The state after the [switch] of [getGatewayKonnectControlPlane]: the
    function has returned, or [cp] is set and [errGetFromK8s] is nil, or
    [errGetFromK8s] is set. *)
Inductive lookup : Type :=
| Returned (err : error)
| Found (cp : KonnectGatewayControlPlane.t)
| Missing (errGetFromK8s : error).

Definition lookupControlPlane (ext : KonnectExtension.t) : Prog KonnectE lookup :=
  match KonnectExtension.Ref ext with
  | KonnectNamespacedRef name =>
      let cpNN := ObjectKey.mk (KonnectExtension.Namespace ext) name in
      r <- call (Get cpNN) ;;
      match r with
      | Err err => if IsNotFound err then Ret (Missing err) else Ret (Returned err)
      | Ok kgcp => Ret (Found kgcp)
      end
  | KonnectID id =>
      r <- call (ListByKonnectID (KonnectExtension.Namespace ext)
                   IndexFieldKonnectGatewayControlPlaneOnKonnectID id) ;;
      match r with
      | Err err => Ret (Returned err)
      | Ok kgcps =>
          match kgcps with
          | [] =>
              Ret (Missing
                     (NewNotFound KonnectGatewayControlPlaneResource
                        ("with KonnectID " ++ id ++ " in namespace "
                           ++ KonnectExtension.Namespace ext)))
          | cp :: _ => Ret (Found cp)
          end
      end
  end.

(** [if res, _, errPatch := patch.StatusWithConditions(...);
     errPatch != nil || !res.IsZero() { return nil, res, errPatch }], followed
    by [otherwise]. *)
Definition patchThen (ext : KonnectExtension.t) (conds : list Condition.t)
    (otherwise : option KonnectGatewayControlPlane.t * Result * option error)
  : Prog KonnectE (option KonnectGatewayControlPlane.t * Result * option error) :=
  r <- call (StatusWithConditions ext conds) ;;
  let '(res, _, errPatch) := r in
  match errPatch with
  | Some _ => Ret (None, res, errPatch)
  | None => if negb (IsZero res) then Ret (None, res, errPatch) else Ret otherwise
  end.

(** [getGatewayKonnectControlPlane],
    konnectextension_controller_utils.go:42. *)
Definition getGatewayKonnectControlPlane
    (ext : KonnectExtension.t) (dependingConditions : list Condition.t)
  : Prog KonnectE (option KonnectGatewayControlPlane.t * Result * option error) :=
  l <- lookupControlPlane ext ;;
  let controlPlaneRefValidCond :=
    Condition.mk ControlPlaneRefValidConditionType ConditionTrue
      ControlPlaneRefReasonValid "ControlPlaneRef is valid" in
  match l with
  | Returned err => Ret (None, ResultZero, Some err)
  | Missing errGetFromK8s =>
      let controlPlaneRefValidCond :=
        Condition.mk ControlPlaneRefValidConditionType ConditionFalse
          ControlPlaneRefReasonInvalid (Error errGetFromK8s) in
      patchThen ext (dependingConditions ++ [controlPlaneRefValidCond])%list
        (None, ResultZero, Some errGetFromK8s)
  | Found cp =>
      if negb (HasConditionTrue KonnectEntityProgrammedConditionType cp) then
        let controlPlaneRefValidCond :=
          Condition.mk ControlPlaneRefValidConditionType ConditionFalse
            ControlPlaneRefReasonInvalid
            ("Konnect control plane " ++ KonnectGatewayControlPlane.Name cp ++ "/"
               ++ KonnectGatewayControlPlane.Namespace cp ++ " not programmed yet") in
        patchThen ext (dependingConditions ++ [controlPlaneRefValidCond])%list
          (None, ResultZero, Some ErrKonnectGatewayControlPlaneNotProgrammed)
      else
        patchThen ext [controlPlaneRefValidCond] (Some cp, ResultZero, None)
  end.

End WithDeps.

(** [refToStr] of [ensureExtendablesReferencesInStatus].  The code dereferences
    [ref.Namespace]; every reference the function builds has it set, and a nil
    one is rendered here with an empty namespace. *)
Definition refToStr (ref : NamespacedRef.t) : string :=
  match NamespacedRef.Namespace ref with
  | Some ns => ns ++ "/" ++ NamespacedRef.Name ref
  | None => "/" ++ NamespacedRef.Name ref
  end.

(** The [less] function handed to [sort.Slice]. *)
Definition less (a b : NamespacedRef.t) : bool := String.ltb (refToStr a) (refToStr b).

(** [sort.Slice] promises a permutation in which no element is [less] than
    one before it; the order of elements that are not [less] than each other
    is left open.  The model sorts by insertion, as [sort.Slice] does on a
    short slice: the elements are taken in the order of the slice, and each
    one moves in front of the elements before it that it is [less] than, so
    that elements that are not [less] than each other keep their order. *)
Fixpoint insertRef (x : NamespacedRef.t) (l : list NamespacedRef.t) : list NamespacedRef.t :=
  match l with
  | [] => [x]
  | y :: l' => if less x y then x :: y :: l' else y :: insertRef x l'
  end.

Definition sortList (l : list NamespacedRef.t) : list NamespacedRef.t :=
  fold_left (fun sorted x => insertRef x sorted) l [].

Definition sortRefs (refs : slice NamespacedRef.t) : slice NamespacedRef.t :=
  option_map sortList refs.

(** [hasExtensionAppliedCondition]; [lo.ContainsBy] is [existsb]. *)
Definition hasExtensionAppliedCondition (conditions : list Condition.t) : bool :=
  existsb
    (fun cond =>
       String.eqb (Condition.Type_ cond) KonnectExtensionAppliedType &&
       String.eqb (Condition.Status cond) ConditionTrue)
    conditions.

(** One of the two loops over [dps.Items] and [cps.Items]: starting from the
    nil slice, the reference of every item that has the condition is
    appended. *)
Definition collectRefs (items : list Extendable.t) : slice NamespacedRef.t :=
  fold_left
    (fun refs item =>
       if negb (hasExtensionAppliedCondition (Extendable.Conditions item))
       then refs
       else append_slice refs
              (NamespacedRef.mk (Extendable.Name item) (Some (Extendable.Namespace item))))
    items None.

(** [cmp.Equal] on two statuses: structural equality. *)
Definition Condition_eq_dec (a b : Condition.t) : {a = b} + {a <> b}.
Proof. decide equality; apply string_dec. Defined.

Definition NamespacedRef_eq_dec (a b : NamespacedRef.t) : {a = b} + {a <> b}.
Proof. decide equality; [decide equality; apply string_dec | apply string_dec]. Defined.

Definition Status_eq_dec (a b : KonnectExtensionStatus.t) : {a = b} + {a <> b}.
Proof.
  decide equality.
  - decide equality; apply string_dec.
  - decide equality; apply (list_eq_dec NamespacedRef_eq_dec).
  - decide equality; apply (list_eq_dec NamespacedRef_eq_dec).
  - apply (list_eq_dec Condition_eq_dec).
Defined.

Definition cmpEqual (a b : KonnectExtensionStatus.t) : bool :=
  if Status_eq_dec a b then true else false.

(** [ext] after the two assignments to [ext.Status]. *)
Definition withRefs (ext : KonnectExtension.t) (dpRefs cpRefs : slice NamespacedRef.t)
  : KonnectExtension.t :=
  let st := KonnectExtension.Status ext in
  KonnectExtension.mk (KonnectExtension.Name ext) (KonnectExtension.Namespace ext)
    (KonnectExtension.Ref ext)
    (KonnectExtensionStatus.mk (KonnectExtensionStatus.Conditions st) dpRefs cpRefs
       (KonnectExtensionStatus.DataPlaneClientAuth st)).

(** [ensureExtendablesReferencesInStatus],
    konnectextension_controller_utils.go:141.  [ext] is a pointer in the code;
    the updated extension is returned first. *)
Definition ensureExtendablesReferencesInStatus
    (ext : KonnectExtension.t) (dps cps : list Extendable.t)
  : Prog KonnectE (KonnectExtension.t * Result * option error) :=
  let extOld := ext in
  let dpRefs := sortRefs (collectRefs dps) in
  let cpRefs := sortRefs (collectRefs cps) in
  let ext := withRefs ext dpRefs cpRefs in
  let shouldUpdate :=
    negb (cmpEqual (KonnectExtension.Status ext) (KonnectExtension.Status extOld)) in
  if negb shouldUpdate then Ret (ext, ResultZero, None)
  else
    r <- call (StatusUpdate ext) ;;
    match r with
    | Some err =>
        if IsConflict err then Ret (ext, ResultRequeue, None)
        else Ret (ext, ResultZero,
                  Some (WrapError
                          "failed to update KonnectExtension ControlPlane and DataPlane references in status: "
                          err))
    | None => Ret (ext, ResultRequeue, None)
    end.

(** [sanitizeCert], konnectextension_controller_utils.go:302. *)
Definition sanitizeCert (cert : string) : string :=
  let newCert := GoStrings.TrimSuffix cert GoStrings.LFs in
  let newCert := GoStrings.ReplaceAll newCert GoStrings.CRs EmptyString in
  newCert.

(** *** Notions used to state what the function computes *)

(** The reference the loops build for an item. *)
Definition refOf (item : Extendable.t) : NamespacedRef.t :=
  NamespacedRef.mk (Extendable.Name item) (Some (Extendable.Namespace item)).

(** The item carries a condition [KonnectExtensionApplied] with status
    [True]. *)
Definition AppliedTrue (item : Extendable.t) : Prop :=
  exists cond,
    In cond (Extendable.Conditions item) /\
    Condition.Type_ cond = KonnectExtensionAppliedType /\
    Condition.Status cond = ConditionTrue.

(** The string [namespace/name] of a reference, written out from the words
    of the specification; a reference without namespace has the empty one. *)
Definition namespaceSlashName (ref : NamespacedRef.t) : string :=
  match NamespacedRef.Namespace ref with
  | Some ns => ns
  | None => EmptyString
  end ++ "/" ++ NamespacedRef.Name ref.

(** [a] comes no later than [b] in the ascending order of the strings
    [namespace/name], compared byte by byte. *)
Definition refLe (a b : NamespacedRef.t) : Prop :=
  String.leb (namespaceSlashName a) (namespaceSlashName b) = true.

(** [refs] holds the references of exactly the applied items of [items], each
    as often as its item occurs, in ascending order. *)
Definition RefsOf (items : list Extendable.t) (refs : slice NamespacedRef.t) : Prop :=
  Permutation (elements refs)
    (map refOf (filter (fun i => hasExtensionAppliedCondition (Extendable.Conditions i)) items)) /\
  (forall ref, In ref (elements refs) <->
               exists item, In item items /\ AppliedTrue item /\ ref = refOf item) /\
  StronglySorted refLe (elements refs).

(** The condition [ControlPlaneRefValid] with status [False] and reason
    [Invalid]. *)
Definition invalidCond (message : string) : Condition.t :=
  Condition.mk ControlPlaneRefValidConditionType ConditionFalse
    ControlPlaneRefReasonInvalid message.

Definition notProgrammedMessage (cp : KonnectGatewayControlPlane.t) : string :=
  "Konnect control plane " ++ KonnectGatewayControlPlane.Name cp ++ "/"
    ++ KonnectGatewayControlPlane.Namespace cp ++ " not programmed yet".

(** A status patch went through without asking for a requeue. *)
Definition patchSettled (res : Result) (errPatch : option error) : bool :=
  match errPatch with
  | Some _ => false
  | None => IsZero res
  end.

(** The extension handed to the status update. *)
Definition recomputed (ext : KonnectExtension.t) (dps cps : list Extendable.t)
  : KonnectExtension.t :=
  withRefs ext (sortRefs (collectRefs dps)) (sortRefs (collectRefs cps)).

End Konnect.

(* ------------------------------------------------------------------------- *)
(** ** Package controlplane: controller_reconciler_utils.go *)
(* ------------------------------------------------------------------------- *)

Module ControlPlane.
Import Go K8s Prog.
Local Open Scope string_scope.
Local Open Scope prog_scope.

(** [numReplicasWhenNoDataPlane]: the desired number of replicas of the
    controlplane deployment when no dataplane is set. *)
Definition numReplicasWhenNoDataPlane : Z := 0.

(** *** Types *)

(** [corev1.Container]. *)
Module Container.
Record t : Type := mk { Name : string; Image : string; Env : list (string * string) }.
End Container.

(** [corev1.PodTemplateSpec]. *)
Module PodTemplateSpec.
Record t : Type := mk { Labels_ : Labels; Containers : list Container.t }.
End PodTemplateSpec.

(** [appsv1.Deployment]; [Replicas] is [Spec.Replicas], an [*int32], and
    [Template] is [Spec.Template]. *)
Module Deployment.
Record t : Type := mk {
  Meta : ObjectMeta.t;
  Replicas : option Z;
  Template : PodTemplateSpec.t
}.
End Deployment.

Module ServiceAccount.
Record t : Type := mk { Meta : ObjectMeta.t }.
End ServiceAccount.

(** [rbacv1.PolicyRule]. *)
Module PolicyRule.
Record t : Type := mk {
  Verbs : list string;
  APIGroups : list string;
  Resources : list string;
  ResourceNames : list string;
  NonResourceURLs : list string
}.
End PolicyRule.

(** [rbacv1.ClusterRole]; the aggregation rule is its list of label
    selectors. *)
Module ClusterRole.
Record t : Type := mk {
  Meta : ObjectMeta.t;
  Rules : list PolicyRule.t;
  AggregationRule : option (list Labels)
}.
End ClusterRole.

Module Subject.
Record t : Type := mk { Kind : string; Name : string; Namespace : string }.
End Subject.

Module RoleRef.
Record t : Type := mk { APIGroup : string; Kind : string; Name : string }.
End RoleRef.

(** [rbacv1.RoleBinding] and [rbacv1.ClusterRoleBinding] have the same
    fields. *)
Module RoleBinding.
Record t : Type := mk { Meta : ObjectMeta.t; Subjects : list Subject.t; RoleRef_ : RoleRef.t }.
End RoleBinding.

Module ClusterRoleBinding.
Record t : Type := mk { Meta : ObjectMeta.t; Subjects : list Subject.t; RoleRef_ : RoleRef.t }.
End ClusterRoleBinding.

Module ServicePort.
Record t : Type := mk { Name : string; Protocol : string; Port : Z; TargetPort : string }.
End ServicePort.

(** [corev1.Service]; [Selector] and [Ports] are fields of [Spec]. *)
Module Service.
Record t : Type := mk { Meta : ObjectMeta.t; Selector : Labels; Ports : list ServicePort.t }.
End Service.

(** [operatorv1beta1.WatchNamespaces]; the type is a string type. *)
Module WatchNamespaces.
Record t : Type := mk { Type_ : string; List_ : list string }.
End WatchNamespaces.

Definition WatchNamespacesTypeAll : string := "all".
Definition WatchNamespacesTypeOwn : string := "own".
Definition WatchNamespacesTypeList : string := "list".

(** [operatorv1beta1.ControlPlaneSpec] with its embedded
    [ControlPlaneOptions]; [Replicas] and [PodTemplateSpec_] are fields of
    [Deployment]. *)
Module ControlPlaneSpec.
Record t : Type := mk {
  Replicas : option Z;
  PodTemplateSpec_ : option PodTemplateSpec.t;
  DataPlane : option string;
  WatchNamespaces_ : option WatchNamespaces.t
}.
End ControlPlaneSpec.

(** [operatorv1beta1.ControlPlane]. *)
Module CP.
Record t : Type := mk { Meta : ObjectMeta.t; Spec : ControlPlaneSpec.t }.
Definition Name (cp : t) : string := ObjectMeta.Name (Meta cp).
Definition Namespace (cp : t) : string := ObjectMeta.Namespace (Meta cp).
Definition UID (cp : t) : string := ObjectMeta.UID (Meta cp).
End CP.

(** [operatorv1alpha1.WatchNamespaceGrant]. *)
Module WatchNamespaceGrantFrom.
Record t : Type := mk { Group : string; Kind : string; Namespace : string }.
End WatchNamespaceGrantFrom.

Module WatchNamespaceGrant.
Record t : Type := mk { Name : string; From : list WatchNamespaceGrantFrom.t }.
End WatchNamespaceGrant.

(** [operatorv1beta1.SchemeGroupVersion.Group]. *)
Definition SchemeGroup : string := "gateway-operator.konghq.com".

(** [schema.GroupVersion], [metav1.APIResource]. *)
Module GroupVersion.
Record t : Type := mk { Group : string; Version : string }.
End GroupVersion.

Module APIResource.
Record t : Type := mk { Name : string; Namespaced : bool; Group : string; Kind : string }.
End APIResource.

(** The objects handed to [Create], [Update], [Patch] and [Delete]. *)
Inductive Object : Type :=
| DeploymentObj (d : Deployment.t)
| ServiceAccountObj (sa : ServiceAccount.t)
| ClusterRoleObj (cr : ClusterRole.t)
| RoleBindingObj (rb : RoleBinding.t)
| ClusterRoleBindingObj (crb : ClusterRoleBinding.t)
| ServiceObj (svc : Service.t).

(** [versions.VersionValidationOption]: the one option the file passes. *)
Inductive VersionValidationOption : Type :=
| IsControlPlaneImageVersionSupported.

(** [k8sresources.GenerateNewDeploymentForControlPlaneParams]. *)
Module GenerateNewDeploymentForControlPlaneParams.
Record t : Type := mk {
  ControlPlane : CP.t;
  ControlPlaneImage : string;
  ServiceAccountName : string;
  AdminMTLSCertSecretName : string;
  AdmissionWebhookCertSecretName : string;
  WatchNamespaces_ : list string
}.
End GenerateNewDeploymentForControlPlaneParams.

(** [ensureDeploymentParams]. *)
Module ensureDeploymentParams.
Record t : Type := mk {
  ControlPlane : CP.t;
  ServiceAccountName : string;
  AdminMTLSCertSecretName : string;
  AdmissionWebhookCertSecretName : string;
  EnforceConfig : bool;
  WatchNamespaces_ : list string
}.
End ensureDeploymentParams.

(** The receiver: the one field of [Reconciler] that these functions read
    besides the client. *)
Module Reconciler.
Record t : Type := mk { ValidateControlPlaneImage : bool }.
End Reconciler.

(** *** Calls to the cluster *)

(** The calls made through [r.Client] and through the helper packages that
    are handed the client ([k8sutils], [k8sreduce], [patch], [clientops]). *)
Inductive ClientE : Type -> Type :=
| ListDeploymentsForOwner (ns uid : string) (labels : Labels)
    : ClientE (result (list Deployment.t))
| ListServiceAccountsForOwner (ns uid : string) (labels : Labels)
    : ClientE (result (list ServiceAccount.t))
| ListClusterRoles (labels : Labels) : ClientE (result (list ClusterRole.t))
| ListRoleBindings (labels : Labels) (ns : string)
    : ClientE (result (list RoleBinding.t))
| ListClusterRoleBindings (labels : Labels)
    : ClientE (result (list ClusterRoleBinding.t))
| ListServicesForOwner (ns uid : string) (labels : Labels)
    : ClientE (result (list Service.t))
| ListWatchNamespaceGrants (ns : string)
    : ClientE (result (list WatchNamespaceGrant.t))
| ReduceDeployments (ds : list Deployment.t) : ClientE (option error)
| ReduceServiceAccounts (sas : list ServiceAccount.t) : ClientE (option error)
| ReduceClusterRoles (crs : list ClusterRole.t) : ClientE (option error)
| ReduceRoleBindings (rbs : list RoleBinding.t) : ClientE (option error)
| ReduceClusterRoleBindings (crbs : list ClusterRoleBinding.t) : ClientE (option error)
| ReduceServices (svcs : list Service.t) : ClientE (option error)
| Create (obj : Object) : ClientE (option error)
| Update (obj : Object) : ClientE (option error)
| Patch (obj old : Object) : ClientE (option error)
| Delete (obj : Object) : ClientE (option error)
| DeleteAll (objs : list Object) : ClientE (option error)
| ApplyPatchIfNotEmpty (existing old : Deployment.t) (updated : bool)
    : ClientE (opResult * option Deployment.t * option error)
| IsAdmissionWebhookEnabled (cp : CP.t) : ClientE bool.

(** *** Helpers of this repository that the file calls and that do not reach
    the cluster *)

Class Deps : Type := {
  (** package [consts] *)
  GatewayOperatorManagedByLabel : string;
  ControlPlaneManagedLabelValue : string;
  ControlPlaneServiceLabel : string;
  ControlPlaneServiceKindWebhook : string;
  (** package [controlplane] *)
  GenerateImage : ControlPlaneSpec.t -> list VersionValidationOption -> result string;
  (** package [k8sresources] *)
  GenerateNewDeploymentForControlPlane :
    GenerateNewDeploymentForControlPlaneParams.t -> result Deployment.t;
  SpecHashMatchesAnnotation : ControlPlaneSpec.t -> Deployment.t -> result bool;
  (** [cmp.Equal] on two pod templates with the comparer
      [k8sresources.ResourceRequirementsEqual] *)
  ResourceRequirementsEqualTemplates : PodTemplateSpec.t -> PodTemplateSpec.t -> bool;
  GenerateNewServiceAccountForControlPlane : string -> string -> ServiceAccount.t;
  GenerateNewRoleBindingForControlPlane : CP.t -> string -> ObjectKey.t -> RoleBinding.t;
  GenerateNewClusterRoleBindingForControlPlane :
    string -> string -> string -> string -> ClusterRoleBinding.t;
  GenerateNewAdmissionWebhookServiceForControlPlane : CP.t -> result Service.t;
  CompareRoleName : RoleBinding.t -> string -> bool;
  CompareClusterRoleName : ClusterRoleBinding.t -> string -> bool;
  RoleBindingContainsServiceAccount : RoleBinding.t -> string -> string -> bool;
  ClusterRoleBindingContainsServiceAccount : ClusterRoleBinding.t -> string -> string -> bool;
  GetManagedLabelForOwner : CP.t -> Labels;
  (** package [k8sutils] *)
  EnsureObjectMetaIsUpdated : ObjectMeta.t -> ObjectMeta.t -> bool * ObjectMeta.t;
  SetOwnerForObject : ObjectMeta.t -> CP.t -> ObjectMeta.t;
  SetOwnerForObjectThroughLabels : ObjectMeta.t -> CP.t -> ObjectMeta.t;
  GetManagedByLabelSet : CP.t -> Labels
}.

(** *** Equality of values, as [cmp.Equal] decides it on these types

    The records keep a slice as the list of its elements and a map as the
    list of its entries, so a nil and an empty slice, or map, are one value
    here, while [cmp.Equal] tells them apart.  Two values that differ here
    differ for [cmp.Equal]; two values that are equal here are equal for
    [cmp.Equal] unless a slice or a map is nil in one and empty in the
    other. *)

Definition Labels_eq_dec (a b : Labels) : {a = b} + {a <> b}.
Proof. apply list_eq_dec. decide equality; apply string_dec. Defined.

Definition PolicyRule_eq_dec (a b : PolicyRule.t) : {a = b} + {a <> b}.
Proof. decide equality; apply (list_eq_dec string_dec). Defined.

Definition ServicePort_eq_dec (a b : ServicePort.t) : {a = b} + {a <> b}.
Proof. decide equality; try apply string_dec. apply Z.eq_dec. Defined.

Definition optionZ_eqb (a b : option Z) : bool :=
  match a, b with
  | None, None => true
  | Some x, Some y => Z.eqb x y
  | _, _ => false
  end.

Definition Rules_eqb (a b : list PolicyRule.t) : bool :=
  if list_eq_dec PolicyRule_eq_dec a b then true else false.

Definition AggregationRule_eqb (a b : option (list Labels)) : bool :=
  match a, b with
  | None, None => true
  | Some x, Some y => if list_eq_dec Labels_eq_dec x y then true else false
  | _, _ => false
  end.

(** Selectors are Go maps: equal when every key has the same value in both. *)
Definition lookupLabel (m : Labels) (k : string) : option string :=
  option_map snd (find (fun kv => String.eqb (fst kv) k) m).

Definition Selector_eqb (a b : Labels) : bool :=
  let agree m1 m2 :=
    forallb (fun kv => match lookupLabel m2 (fst kv), lookupLabel m1 (fst kv) with
                       | Some v2, Some v1 => String.eqb v1 v2
                       | _, _ => false
                       end) m1 in
  agree a b && agree b a.

Definition Ports_eqb (a b : list ServicePort.t) : bool :=
  if list_eq_dec ServicePort_eq_dec a b then true else false.

(** *** Field updates *)

Definition Deployment_withMeta (d : Deployment.t) (m : ObjectMeta.t) : Deployment.t :=
  Deployment.mk m (Deployment.Replicas d) (Deployment.Template d).
Definition Deployment_withReplicas (d : Deployment.t) (n : option Z) : Deployment.t :=
  Deployment.mk (Deployment.Meta d) n (Deployment.Template d).
Definition Deployment_withTemplate (d : Deployment.t) (t : PodTemplateSpec.t) : Deployment.t :=
  Deployment.mk (Deployment.Meta d) (Deployment.Replicas d) t.

Definition PolicyRule_withResources (rule : PolicyRule.t) (rs : list string) : PolicyRule.t :=
  PolicyRule.mk (PolicyRule.Verbs rule) (PolicyRule.APIGroups rule) rs
    (PolicyRule.ResourceNames rule) (PolicyRule.NonResourceURLs rule).

(** [m[k] = v] on a Go map of labels. *)
Definition setLabel (m : Labels) (k v : string) : Labels :=
  (k, v) :: filter (fun kv => negb (String.eqb (fst kv) k)) m.

Section WithDeps.
Context {deps : Deps}.

(** *** [ensureDeployment] *)

(** The [switch] on the replication strategy, lines 251 to 267;
    [replicas] is [params.ControlPlane.Spec.Deployment.Replicas]. *)
Definition ensureReplicas (dataplaneIsSet : bool) (replicas : option Z)
    (existingDeployment : Deployment.t) (updated : bool) : Deployment.t * bool :=
  let isNil := match replicas with None => true | Some _ => false end in
  let differsFromZero :=
    match replicas with
    | Some n => negb (Z.eqb n numReplicasWhenNoDataPlane)
    | None => false
    end in
  if negb dataplaneIsSet && (isNil || differsFromZero) then
    if negb (optionZ_eqb (Deployment.Replicas existingDeployment)
               (Some numReplicasWhenNoDataPlane))
    then (Deployment_withReplicas existingDeployment (Some numReplicasWhenNoDataPlane), true)
    else (existingDeployment, updated)
  else if dataplaneIsSet && (negb isNil && differsFromZero) then
    if negb (optionZ_eqb (Deployment.Replicas existingDeployment) replicas)
    then (Deployment_withReplicas existingDeployment replicas, true)
    else (existingDeployment, updated)
  else (existingDeployment, updated).

(** The [count == 1] branch after the spec-hash test, lines 232 to 267: the
    Deployment to submit and the flag [updated]. *)
Definition reconcileDeployment (dataplaneIsSet : bool) (replicas : option Z)
    (generatedDeployment existingDeployment : Deployment.t) : Deployment.t * bool :=
  let '(updated, meta) :=
    EnsureObjectMetaIsUpdated (Deployment.Meta existingDeployment)
      (Deployment.Meta generatedDeployment) in
  let existingDeployment := Deployment_withMeta existingDeployment meta in
  let '(existingDeployment, updated) :=
    if negb (ResourceRequirementsEqualTemplates
               (Deployment.Template existingDeployment)
               (Deployment.Template generatedDeployment))
    then (Deployment_withTemplate existingDeployment
            (Deployment.Template generatedDeployment), true)
    else (existingDeployment, updated) in
  ensureReplicas dataplaneIsSet replicas existingDeployment updated.

(** The same branch with its last statement, line 269. *)
Definition updateDeployment (dataplaneIsSet : bool) (replicas : option Z)
    (generatedDeployment existingDeployment : Deployment.t)
  : Prog ClientE (opResult * option Deployment.t * option error) :=
  let oldExistingDeployment := existingDeployment in
  let '(existingDeployment, updated) :=
    reconcileDeployment dataplaneIsSet replicas generatedDeployment existingDeployment in
  call (ApplyPatchIfNotEmpty existingDeployment oldExistingDeployment updated).

(** Line 171: [spec.DataPlane] is not nil and does not point to the empty
    string. *)
Definition dataplaneIsSet (spec : ControlPlaneSpec.t) : bool :=
  match ControlPlaneSpec.DataPlane spec with
  | Some dp => negb (String.eqb dp EmptyString)
  | None => false
  end.

(** The options handed to [GenerateImage], lines 193 to 196. *)
Definition versionValidationOptions (r : Reconciler.t) : list VersionValidationOption :=
  if Reconciler.ValidateControlPlaneImage r
  then [IsControlPlaneImageVersionSupported] else [].

(** The parameters handed to [GenerateNewDeploymentForControlPlane], lines 201
    to 208. *)
Definition generateParams (params : ensureDeploymentParams.t) (controlplaneImage : string)
  : GenerateNewDeploymentForControlPlaneParams.t :=
  GenerateNewDeploymentForControlPlaneParams.mk
    (ensureDeploymentParams.ControlPlane params) controlplaneImage
    (ensureDeploymentParams.ServiceAccountName params)
    (ensureDeploymentParams.AdminMTLSCertSecretName params)
    (ensureDeploymentParams.AdmissionWebhookCertSecretName params)
    (ensureDeploymentParams.WatchNamespaces_ params).

(** The selector of the owned Deployments and ServiceAccounts. *)
Definition managedByControlPlane : Labels :=
  [(GatewayOperatorManagedByLabel, ControlPlaneManagedLabelValue)].

(** [ensureDeployment], controller_reconciler_utils.go:166. *)
Definition ensureDeployment (r : Reconciler.t) (params : ensureDeploymentParams.t)
  : Prog ClientE (opResult * option Deployment.t * option error) :=
  let cp := ensureDeploymentParams.ControlPlane params in
  let dataplaneIsSet := dataplaneIsSet (CP.Spec cp) in
  l <- call (ListDeploymentsForOwner (CP.Namespace cp) (CP.UID cp) managedByControlPlane) ;;
  match l with
  | Err err => Ret (Noop, None, Some err)
  | Ok deployments =>
      let count := List.length deployments in
      if Nat.ltb 1 count then
        e <- call (ReduceDeployments deployments) ;;
        match e with
        | Some err => Ret (Noop, None, Some err)
        | None => Ret (Noop, None, Some (ErrorString "number of deployments reduced"))
        end
      else
        match GenerateImage (CP.Spec cp) (versionValidationOptions r) with
        | Err err => Ret (Noop, None, Some err)
        | Ok controlplaneImage =>
            match GenerateNewDeploymentForControlPlane
                    (generateParams params controlplaneImage) with
            | Err err => Ret (Noop, None, Some err)
            | Ok generatedDeployment =>
                match Nat.eqb count 1, deployments with
                | true, existingDeployment :: _ =>
                    let update :=
                      updateDeployment dataplaneIsSet
                        (ControlPlaneSpec.Replicas (CP.Spec cp))
                        generatedDeployment existingDeployment in
                    if negb (ensureDeploymentParams.EnforceConfig params) then
                      match SpecHashMatchesAnnotation (CP.Spec cp) existingDeployment with
                      | Err err => Ret (Noop, None, Some err)
                      | Ok true => Ret (Noop, Some existingDeployment, None)
                      | Ok false => update
                      end
                    else update
                | _, _ =>
                    let generatedDeployment :=
                      if negb dataplaneIsSet
                      then Deployment_withReplicas generatedDeployment
                             (Some numReplicasWhenNoDataPlane)
                      else generatedDeployment in
                    e <- call (Create (DeploymentObj generatedDeployment)) ;;
                    match e with
                    | Some err =>
                        Ret (Noop, None,
                             Some (WrapError
                                     ("failed creating ControlPlane Deployment "
                                        ++ ObjectMeta.Name (Deployment.Meta generatedDeployment)
                                        ++ ": ") err))
                    | None => Ret (Created, Some generatedDeployment, None)
                    end
                end
            end
        end
  end.

(** *** [ensureServiceAccount] *)

(** controller_reconciler_utils.go:283. *)
Definition ensureServiceAccount (cp : CP.t)
  : Prog ClientE (bool * option ServiceAccount.t * option error) :=
  l <- call (ListServiceAccountsForOwner (CP.Namespace cp) (CP.UID cp)
               managedByControlPlane) ;;
  match l with
  | Err err => Ret (false, None, Some err)
  | Ok serviceAccounts =>
      let count := List.length serviceAccounts in
      if Nat.ltb 1 count then
        e <- call (ReduceServiceAccounts serviceAccounts) ;;
        match e with
        | Some err => Ret (false, None, Some err)
        | None => Ret (false, None, Some (ErrorString "number of serviceAccounts reduced"))
        end
      else
        let generatedServiceAccount :=
          GenerateNewServiceAccountForControlPlane (CP.Namespace cp) (CP.Name cp) in
        let generatedServiceAccount :=
          ServiceAccount.mk
            (SetOwnerForObject (ServiceAccount.Meta generatedServiceAccount) cp) in
        match Nat.eqb count 1, serviceAccounts with
        | true, existingServiceAccount :: _ =>
            let '(updated, meta) :=
              EnsureObjectMetaIsUpdated (ServiceAccount.Meta existingServiceAccount)
                (ServiceAccount.Meta generatedServiceAccount) in
            let existingServiceAccount := ServiceAccount.mk meta in
            if updated then
              e <- call (Update (ServiceAccountObj existingServiceAccount)) ;;
              match e with
              | Some err =>
                  Ret (false, Some existingServiceAccount,
                       Some (WrapError
                               ("failed updating ControlPlane's ServiceAccount "
                                  ++ ObjectMeta.Name meta ++ ": ") err))
              | None => Ret (true, Some existingServiceAccount, None)
              end
            else Ret (false, Some existingServiceAccount, None)
        | _, _ =>
            e <- call (Create (ServiceAccountObj generatedServiceAccount)) ;;
            Ret (true, Some generatedServiceAccount, e)
        end
  end.

(** *** [ensureClusterRole] *)

(** controller_reconciler_utils.go:655. *)
Definition ensureClusterRole (cp : CP.t) (generatedClusterRole : ClusterRole.t)
  : Prog ClientE (bool * option ClusterRole.t * option error) :=
  l <- call (ListClusterRoles (GetManagedByLabelSet cp)) ;;
  match l with
  | Err err => Ret (false, None, Some err)
  | Ok clusterRoles =>
      let count := List.length clusterRoles in
      if Nat.ltb 1 count then
        e <- call (ReduceClusterRoles clusterRoles) ;;
        match e with
        | Some err => Ret (false, None, Some err)
        | None => Ret (false, None, Some (ErrorString "number of clusterRoles reduced"))
        end
      else
        match Nat.eqb count 1, clusterRoles with
        | true, existing :: _ =>
            let old := existing in
            let '(updated, meta) :=
              EnsureObjectMetaIsUpdated (ClusterRole.Meta existing)
                (ClusterRole.Meta generatedClusterRole) in
            let existing :=
              ClusterRole.mk meta (ClusterRole.Rules existing)
                (ClusterRole.AggregationRule existing) in
            if updated
               || negb (Rules_eqb (ClusterRole.Rules existing)
                          (ClusterRole.Rules generatedClusterRole))
               || negb (AggregationRule_eqb (ClusterRole.AggregationRule existing)
                          (ClusterRole.AggregationRule generatedClusterRole))
            then
              let existing :=
                ClusterRole.mk meta (ClusterRole.Rules generatedClusterRole)
                  (ClusterRole.AggregationRule generatedClusterRole) in
              e <- call (Patch (ClusterRoleObj existing) (ClusterRoleObj old)) ;;
              match e with
              | Some err =>
                  Ret (false, Some existing,
                       Some (WrapError
                               ("failed patching ControlPlane's ClusterRole "
                                  ++ ObjectMeta.Name meta ++ ": ") err))
              | None => Ret (true, Some existing, None)
              end
            else Ret (false, Some existing, None)
        | _, _ =>
            e <- call (Create (ClusterRoleObj generatedClusterRole)) ;;
            Ret (true, Some generatedClusterRole, e)
        end
  end.

(** *** [ensureRoleBinding] and [ensureClusterRoleBinding] *)

(** controller_reconciler_utils.go:555. *)
Definition ensureRoleBinding (cp : CP.t) (serviceAccountName : string) (roleNN : ObjectKey.t)
  : Prog ClientE (opResult * option RoleBinding.t * option error) :=
  l <- call (ListRoleBindings (GetManagedByLabelSet cp) (ObjectKey.Namespace roleNN)) ;;
  match l with
  | Err err => Ret (Noop, None, Some err)
  | Ok roleBindings =>
      let count := List.length roleBindings in
      if Nat.ltb 1 count then
        e <- call (ReduceRoleBindings roleBindings) ;;
        match e with
        | Some err => Ret (Noop, None, Some err)
        | None => Ret (Noop, None, Some (ErrorString "number of roleBindings reduced"))
        end
      else
        let generated := GenerateNewRoleBindingForControlPlane cp serviceAccountName roleNN in
        let generated :=
          RoleBinding.mk (SetOwnerForObjectThroughLabels (RoleBinding.Meta generated) cp)
            (RoleBinding.Subjects generated) (RoleBinding.RoleRef_ generated) in
        match Nat.eqb count 1, roleBindings with
        | true, existing :: _ =>
            if negb (CompareRoleName existing (ObjectKey.Name roleNN)) then
              e <- call (Delete (RoleBindingObj existing)) ;;
              match e with
              | Some err => Ret (Noop, None, Some err)
              | None =>
                  Ret (Noop, None,
                       Some (ErrorString "name of Role changed, out of date RoleBinding deleted"))
              end
            else
              let old := existing in
              let '(updated, meta) :=
                EnsureObjectMetaIsUpdated (RoleBinding.Meta existing)
                  (RoleBinding.Meta generated) in
              let existing :=
                RoleBinding.mk meta (RoleBinding.Subjects existing)
                  (RoleBinding.RoleRef_ existing) in
              let '(existing, updatedServiceAccount) :=
                if negb (RoleBindingContainsServiceAccount existing (CP.Namespace cp)
                           serviceAccountName)
                then (RoleBinding.mk meta (RoleBinding.Subjects generated)
                        (RoleBinding.RoleRef_ existing), true)
                else (existing, false) in
              if updated || updatedServiceAccount then
                e <- call (Patch (RoleBindingObj existing) (RoleBindingObj old)) ;;
                match e with
                | Some err =>
                    Ret (Noop, Some existing,
                         Some (WrapError
                                 ("failed patching ControlPlane's RoleBinding "
                                    ++ ObjectMeta.Name meta ++ ": ") err))
                | None => Ret (Updated, Some existing, None)
                end
              else Ret (Noop, Some existing, None)
        | _, _ =>
            e <- call (Create (RoleBindingObj generated)) ;;
            Ret (Created, Some generated, e)
        end
  end.

(** controller_reconciler_utils.go:772. *)
Definition ensureClusterRoleBinding (cp : CP.t) (serviceAccountName clusterRoleName : string)
  : Prog ClientE (bool * option ClusterRoleBinding.t * option error) :=
  l <- call (ListClusterRoleBindings (GetManagedByLabelSet cp)) ;;
  match l with
  | Err err => Ret (false, None, Some err)
  | Ok clusterRoleBindings =>
      let count := List.length clusterRoleBindings in
      if Nat.ltb 1 count then
        e <- call (ReduceClusterRoleBindings clusterRoleBindings) ;;
        match e with
        | Some err => Ret (false, None, Some err)
        | None =>
            Ret (false, None, Some (ErrorString "number of clusterRoleBindings reduced"))
        end
      else
        let generated :=
          GenerateNewClusterRoleBindingForControlPlane (CP.Namespace cp) (CP.Name cp)
            serviceAccountName clusterRoleName in
        let generated :=
          ClusterRoleBinding.mk
            (SetOwnerForObjectThroughLabels (ClusterRoleBinding.Meta generated) cp)
            (ClusterRoleBinding.Subjects generated) (ClusterRoleBinding.RoleRef_ generated) in
        match Nat.eqb count 1, clusterRoleBindings with
        | true, existing :: _ =>
            if negb (CompareClusterRoleName existing clusterRoleName) then
              e <- call (Delete (ClusterRoleBindingObj existing)) ;;
              match e with
              | Some err => Ret (false, None, Some err)
              | None =>
                  Ret (false, None,
                       Some (ErrorString
                               "name of ClusterRole changed, out of date ClusterRoleBinding deleted"))
              end
            else
              let old := existing in
              let '(updated, meta) :=
                EnsureObjectMetaIsUpdated (ClusterRoleBinding.Meta existing)
                  (ClusterRoleBinding.Meta generated) in
              let existing :=
                ClusterRoleBinding.mk meta (ClusterRoleBinding.Subjects existing)
                  (ClusterRoleBinding.RoleRef_ existing) in
              let '(existing, updatedServiceAccount) :=
                if negb (ClusterRoleBindingContainsServiceAccount existing (CP.Namespace cp)
                           serviceAccountName)
                then (ClusterRoleBinding.mk meta (ClusterRoleBinding.Subjects generated)
                        (ClusterRoleBinding.RoleRef_ existing), true)
                else (existing, false) in
              if updated || updatedServiceAccount then
                e <- call (Patch (ClusterRoleBindingObj existing) (ClusterRoleBindingObj old)) ;;
                match e with
                | Some err =>
                    Ret (false, Some existing,
                         Some (WrapError
                                 ("failed patching ControlPlane's ClusterRoleBinding "
                                    ++ ObjectMeta.Name meta ++ ": ") err))
                | None => Ret (true, Some existing, None)
                end
              else Ret (false, Some existing, None)
        | _, _ =>
            e <- call (Create (ClusterRoleBindingObj generated)) ;;
            Ret (true, Some generated, e)
        end
  end.

(** *** [ensureAdmissionWebhookService] *)

(** [matchingLabels], lines 1017 and 1018. *)
Definition webhookServiceLabels (cp : CP.t) : Labels :=
  setLabel (GetManagedLabelForOwner cp) ControlPlaneServiceLabel
    ControlPlaneServiceKindWebhook.

(** controller_reconciler_utils.go:1011. *)
Definition ensureAdmissionWebhookService (cp : CP.t)
  : Prog ClientE (opResult * option Service.t * option error) :=
  let matchingLabels := webhookServiceLabels cp in
  l <- call (ListServicesForOwner (CP.Namespace cp) (CP.UID cp) matchingLabels) ;;
  match l with
  | Err err =>
      Ret (Noop, None,
           Some (WrapError
                   ("failed listing admission webhook Services for ControlPlane "
                      ++ CP.Namespace cp ++ "/" ++ CP.Name cp ++ ": ") err))
  | Ok services =>
      enabled <- call (IsAdmissionWebhookEnabled cp) ;;
      if negb enabled then
        match services with
        | [] => Ret (Noop, None, None)
        | _ :: _ =>
            e <- call (DeleteAll (map ServiceObj services)) ;;
            match e with
            | Some err =>
                Ret (Noop, None,
                     Some (WrapError
                             "failed deleting ControlPlane admission webhook Service: " err))
            | None => Ret (Deleted, None, None)
            end
        end
      else
        let count := List.length services in
        if Nat.ltb 1 count then
          e <- call (ReduceServices services) ;;
          match e with
          | Some err => Ret (Noop, None, Some err)
          | None =>
              Ret (Noop, None,
                   Some (ErrorString
                           "number of ControlPlane admission webhook Services reduced"))
          end
        else
          match GenerateNewAdmissionWebhookServiceForControlPlane cp with
          | Err err => Ret (Noop, None, Some err)
          | Ok generatedService =>
              match Nat.eqb count 1, services with
              | true, existingService :: _ =>
                  let '(updated, meta) :=
                    EnsureObjectMetaIsUpdated (Service.Meta existingService)
                      (Service.Meta generatedService) in
                  let '(selector, updated) :=
                    if negb (Selector_eqb (Service.Selector existingService)
                               (Service.Selector generatedService))
                    then (Service.Selector generatedService, true)
                    else (Service.Selector existingService, updated) in
                  let '(ports, updated) :=
                    if negb (Ports_eqb (Service.Ports existingService)
                               (Service.Ports generatedService))
                    then (Service.Ports generatedService, true)
                    else (Service.Ports existingService, updated) in
                  let existingService := Service.mk meta selector ports in
                  if updated then
                    e <- call (Update (ServiceObj existingService)) ;;
                    match e with
                    | Some err =>
                        Ret (Noop, Some existingService,
                             Some (WrapError
                                     ("failed updating ControlPlane admission webhook Service "
                                        ++ ObjectMeta.Name meta ++ ": ") err))
                    | None => Ret (Updated, Some existingService, None)
                    end
                  else Ret (Noop, Some existingService, None)
              | _, _ =>
                  e <- call (Create (ServiceObj generatedService)) ;;
                  match e with
                  | Some err =>
                      Ret (Noop, None,
                           Some (WrapError
                                   "failed creating ControlPlane admission webhook Service: "
                                   err))
                  | None => Ret (Created, Some generatedService, None)
                  end
              end
          end
  end.

(** *** [validateWatchNamespaceGrants] *)

(** The predicate handed to [lo.ContainsBy] in
    [ensureWatchNamespaceGrantsForNamespace]. *)
Definition fromMatches (cp : CP.t) (from : WatchNamespaceGrantFrom.t) : bool :=
  String.eqb (WatchNamespaceGrantFrom.Group from) SchemeGroup &&
  String.eqb (WatchNamespaceGrantFrom.Kind from) "ControlPlane" &&
  String.eqb (WatchNamespaceGrantFrom.Namespace from) (CP.Namespace cp).

(** The loop over [grants.Items]: [true] when it reaches [return nil]. *)
Definition hasMatchingGrant (cp : CP.t) (items : list WatchNamespaceGrant.t) : bool :=
  existsb (fun refGrant => existsb (fromMatches cp) (WatchNamespaceGrant.From refGrant)) items.

Definition errGrantNotFound (ns cpNamespace : string) : error :=
  ErrorString ("WatchNamespaceGrant in Namespace " ++ ns
                 ++ " to ControlPlane in Namespace " ++ cpNamespace ++ " not found").

Definition errListingGrants (ns : string) (err : error) : error :=
  WrapError ("failed listing WatchNamespaceGrants in namespace " ++ ns ++ ": ") err.

(** [ensureWatchNamespaceGrantsForNamespace],
    controller_reconciler_utils.go:1232. *)
Definition ensureWatchNamespaceGrantsForNamespace (cp : CP.t) (ns : string)
  : Prog ClientE (option error) :=
  l <- call (ListWatchNamespaceGrants ns) ;;
  match l with
  | Err err => Ret (Some (errListingGrants ns err))
  | Ok items =>
      if hasMatchingGrant cp items then Ret None
      else Ret (Some (errGrantNotFound ns (CP.Namespace cp)))
  end.

(** The [for] loop of the [List] case with the statements that follow it:
    [nsList] holds the namespaces validated so far. *)
Fixpoint validateList (cp : CP.t) (list_ : list string) (nsList : slice string)
  : Prog ClientE (slice string * option error) :=
  match list_ with
  | [] => Ret (append_slice nsList (CP.Namespace cp), None)
  | ns :: rest =>
      e <- ensureWatchNamespaceGrantsForNamespace cp ns ;;
      match e with
      | Some err => Ret (nsList, Some err)
      | None => validateList cp rest (append_slice nsList ns)
      end
  end.

(** [%q] of [fmt] on a string is [strconv.Quote]. *)
Definition quoted (s : string) : string := GoStrings.Quote s.

(** [validateWatchNamespaceGrants], controller_reconciler_utils.go:1191. *)
Definition validateWatchNamespaceGrants (cp : CP.t)
  : Prog ClientE (slice string * option error) :=
  match ControlPlaneSpec.WatchNamespaces_ (CP.Spec cp) with
  | None => Ret (None, Some (ErrorString "spec.watchNamespaces cannot be empty"))
  | Some wn =>
      let type := WatchNamespaces.Type_ wn in
      if String.eqb type WatchNamespacesTypeAll then Ret (None, None)
      else if String.eqb type WatchNamespacesTypeOwn then Ret (Some [CP.Namespace cp], None)
      else if String.eqb type WatchNamespacesTypeList then
        validateList cp (WatchNamespaces.List_ wn) None
      else Ret (None, Some (ErrorString ("unexpected watchNamespaces.type: " ++ quoted type)))
  end.

End WithDeps.

(** *** [processClusterRole] *)

(** The discovery mapping [map[schema.GroupVersion]*metav1.APIResourceList] is
    the list of its entries in the order in which [range] visits them; Go
    leaves that order open, and so does every statement below. *)
Definition APIResourceListMapping : Type := list (GroupVersion.t * list APIResource.t).

(** The loop over [gvl] for one [apiGroup] and one [resource]: the resource
    found ([found = true] and the loop left by [break]), or [None]. *)
Fixpoint findAPIResource (gvl : APIResourceListMapping) (apiGroup resource : string)
  : option APIResource.t :=
  match gvl with
  | [] => None
  | (gv, apiresl) :: rest =>
      if negb (String.eqb (GroupVersion.Group gv) apiGroup)
      then findAPIResource rest apiGroup resource
      else
        match find (fun apires =>
                      String.eqb (APIResource.Group apires) apiGroup &&
                      String.eqb (APIResource.Name apires) resource) apiresl with
        | None => findAPIResource rest apiGroup resource
        | Some apires => Some apires
        end
  end.

(** The variables the loops update: the loop variable [rule], a copy of the
    element of [generated.Rules], and the two results. *)
Module Split.
Record t : Type := mk {
  rule : PolicyRule.t;
  rolePolicyRules : list PolicyRule.t;
  clusterRolePolicyRules : list PolicyRule.t
}.
End Split.

(** The body of [for _, resource := range rule.Resources]. *)
Definition resourceStep (gvl : APIResourceListMapping) (apiGroup : string)
    (st : Split.t) (resource : string) : Split.t :=
  match findAPIResource gvl apiGroup resource with
  | Some apires =>
      let rule := PolicyRule_withResources (Split.rule st) [resource] in
      if APIResource.Namespaced apires
      then Split.mk rule (Split.rolePolicyRules st ++ [rule])%list
             (Split.clusterRolePolicyRules st)
      else Split.mk rule (Split.rolePolicyRules st)
             (Split.clusterRolePolicyRules st ++ [rule])%list
  | None =>
      Split.mk (Split.rule st) (Split.rolePolicyRules st)
        (Split.clusterRolePolicyRules st ++ [Split.rule st])%list
  end.

(** The body of [for _, apiGroup := range rule.APIGroups]: [range] reads
    [rule.Resources] when the inner loop starts. *)
Definition apiGroupStep (gvl : APIResourceListMapping) (st : Split.t) (apiGroup : string)
  : Split.t :=
  fold_left (resourceStep gvl apiGroup) (PolicyRule.Resources (Split.rule st)) st.

(** The body of [for _, rule := range generated.Rules]. *)
Definition ruleStep (gvl : APIResourceListMapping)
    (acc : list PolicyRule.t * list PolicyRule.t) (rule : PolicyRule.t)
  : list PolicyRule.t * list PolicyRule.t :=
  let st :=
    fold_left (apiGroupStep gvl) (PolicyRule.APIGroups rule)
      (Split.mk rule (fst acc) (snd acc)) in
  (Split.rolePolicyRules st, Split.clusterRolePolicyRules st).

(** [processClusterRole], controller_reconciler_utils.go:722: the rules for
    the Role and the rules for the ClusterRole. *)
Definition processClusterRole (generated : ClusterRole.t) (gvl : APIResourceListMapping)
  : list PolicyRule.t * list PolicyRule.t :=
  fold_left (ruleStep gvl) (ClusterRole.Rules generated) ([], []).

(** *** Notions used to state what the functions compute *)

(** Some grant of [items] has a [from] entry for the group, the kind and the
    namespace of [cp]. *)
Definition Granted (cp : CP.t) (items : list WatchNamespaceGrant.t) : Prop :=
  exists grant from,
    In grant items /\ In from (WatchNamespaceGrant.From grant) /\
    WatchNamespaceGrantFrom.Group from = SchemeGroup /\
    WatchNamespaceGrantFrom.Kind from = "ControlPlane" /\
    WatchNamespaceGrantFrom.Namespace from = CP.Namespace cp.

(** The cluster answers the listing of the grants of a namespace by
    [answer], whatever else has happened. *)
Definition Answers {W : Type} (h : Handler ClientE W)
    (answer : string -> result (list WatchNamespaceGrant.t)) : Prop :=
  forall ns w, fst (h _ (ListWatchNamespaceGrants ns) w) = answer ns.

(** Namespace [ns] holds a matching grant. *)
Definition GrantedIn (cp : CP.t) (answer : string -> result (list WatchNamespaceGrant.t))
    (ns : string) : Prop :=
  exists items, answer ns = Ok items /\ Granted cp items.

(** Namespace [ns] holds no matching grant. *)
Definition Ungranted (cp : CP.t) (answer : string -> result (list WatchNamespaceGrant.t))
    (ns : string) : Prop :=
  exists items, answer ns = Ok items /\ ~ Granted cp items.

(** The Deployment that [ensureDeployment] creates when none exists. *)
Definition created (spec : ControlPlaneSpec.t) (generated : Deployment.t) : Deployment.t :=
  if negb (dataplaneIsSet spec)
  then Deployment_withReplicas generated (Some numReplicasWhenNoDataPlane)
  else generated.

(** The error of a pass that met more than one object of a kind: the error
    of the reduction when it failed, the request to run again otherwise. *)
Definition reducedError (kinds : string) (e : option error) : error :=
  match e with
  | Some err => err
  | None => ErrorString ("number of " ++ kinds ++ " reduced")
  end.

(** The slice built by appending the elements of [l] to the nil slice. *)
Definition sliceOf {A : Type} (l : list A) : slice A := fold_left append_slice l None.

(** The resources named by a list of rules. *)
Definition resourcesOf (rules : list PolicyRule.t) : list string :=
  flat_map PolicyRule.Resources rules.

(** Discovery knows [resource] of [apiGroup] and marks it namespaced
    ([scope = true]) or cluster-scoped ([scope = false]). *)
Definition hasScope (gvl : APIResourceListMapping) (apiGroup : string) (scope : bool)
    (resource : string) : bool :=
  match findAPIResource gvl apiGroup resource with
  | Some apires => Bool.eqb (APIResource.Namespaced apires) scope
  | None => false
  end.

(** The single-resource copies of [rule] for its resources of the given
    scope, for a rule with one API group. *)
Definition singles (gvl : APIResourceListMapping) (scope : bool) (rule : PolicyRule.t)
  : list PolicyRule.t :=
  match PolicyRule.APIGroups rule with
  | [apiGroup] =>
      map (fun resource => PolicyRule_withResources rule [resource])
        (filter (hasScope gvl apiGroup scope) (PolicyRule.Resources rule))
  | _ => []
  end.

(** Two rules agree on every field but [Resources]. *)
Definition sameButResources (a b : PolicyRule.t) : Prop :=
  forall rs, PolicyRule_withResources a rs = PolicyRule_withResources b rs.

(** The rule has one API group and discovery knows each of its resources. *)
Definition KnownRule (gvl : APIResourceListMapping) (rule : PolicyRule.t) : Prop :=
  exists apiGroup,
    PolicyRule.APIGroups rule = [apiGroup] /\
    forall resource, In resource (PolicyRule.Resources rule) ->
                     findAPIResource gvl apiGroup resource <> None.

End ControlPlane.

(* ------------------------------------------------------------------------- *)
(** ** Concrete clusters, used to run the functions *)
(* ------------------------------------------------------------------------- *)

Module KonnectExamples.
Import Go K8s Prog Konnect.
Local Open Scope string_scope.

(** [HasConditionTrue] as a scan of the object's conditions. *)
Definition hasConditionTrue (condType : string) (cp : KonnectGatewayControlPlane.t) : bool :=
  existsb
    (fun c => String.eqb (Condition.Type_ c) condType &&
              String.eqb (Condition.Status c) ConditionTrue)
    (KonnectGatewayControlPlane.Conditions cp).

#[export] Instance deps : Deps := {|
  HasConditionTrue := hasConditionTrue;
  IndexFieldKonnectGatewayControlPlaneOnKonnectID := "KonnectGatewayControlPlaneOnKonnectID"
|}.

(** A cluster for the Konnect reconciler: the control planes it stores, how
    the next status patch and the next status update are answered, and the
    extension last written. *)
Module Cluster.
Record t : Type := mk {
  controlPlanes : list KonnectGatewayControlPlane.t;
  patchAnswer : Result * opResult * option error;
  updateAnswer : option error;
  written : option KonnectExtension.t
}.
End Cluster.

Definition getControlPlane (c : Cluster.t) (key : ObjectKey.t)
  : result KonnectGatewayControlPlane.t :=
  match find (fun cp =>
                String.eqb (KonnectGatewayControlPlane.Name cp) (ObjectKey.Name key) &&
                String.eqb (KonnectGatewayControlPlane.Namespace cp) (ObjectKey.Namespace key))
          (Cluster.controlPlanes c) with
  | Some cp => Ok cp
  | None =>
      Err (NewNotFound "konnectgatewaycontrolplanes.konnect.konghq.com" (ObjectKey.Name key))
  end.

Definition handler : Handler KonnectE Cluster.t :=
  fun X e c =>
    match e in KonnectE X return X * Cluster.t with
    | Get key => (getControlPlane c key, c)
    | ListByKonnectID ns _ _ =>
        (Ok (filter (fun cp => String.eqb (KonnectGatewayControlPlane.Namespace cp) ns)
               (Cluster.controlPlanes c)), c)
    | StatusWithConditions ext _ => (Cluster.patchAnswer c, c)
    | StatusUpdate ext =>
        match Cluster.updateAnswer c with
        | Some err => (Some err, c)
        | None =>
            (None,
             Cluster.mk (Cluster.controlPlanes c) (Cluster.patchAnswer c)
               (Cluster.updateAnswer c) (Some ext))
        end
    end.

Definition emptyStatus : KonnectExtensionStatus.t :=
  KonnectExtensionStatus.mk [] None None None.

Definition ext1 : KonnectExtension.t :=
  KonnectExtension.mk "ext" "default" (KonnectNamespacedRef "cp") emptyStatus.

(** A control plane that exists and is not programmed. *)
Definition cpPending : KonnectGatewayControlPlane.t :=
  KonnectGatewayControlPlane.mk "cp" "default"
    [Condition.mk "Programmed" ConditionFalse "Pending" EmptyString].

(** The status patch meets a conflict and asks for a requeue. *)
Definition clusterPatchRequeues : Cluster.t :=
  Cluster.mk [cpPending] (ResultRequeue, Noop, None) None None.

(** The status patch goes through. *)
Definition clusterPatchOk : Cluster.t :=
  Cluster.mk [cpPending] (ResultZero, Updated, None) None None.

Definition applied : list Condition.t :=
  [Condition.mk "KonnectExtensionApplied" ConditionTrue "Applied" EmptyString].
Definition notApplied : list Condition.t :=
  [Condition.mk "KonnectExtensionApplied" ConditionFalse "Pending" EmptyString].

Definition d1 : Extendable.t := Extendable.mk "d1" "ns-b" applied.
Definition d2 : Extendable.t := Extendable.mk "d2" "ns-a" notApplied.
Definition d3 : Extendable.t := Extendable.mk "d3" "ns-a" applied.

Definition clusterConflict : Cluster.t :=
  Cluster.mk [] (ResultZero, Noop, None)
    (Some (APIStatusError StatusReasonConflict "the object has been modified")) None.

Definition clusterForbidden : Cluster.t :=
  Cluster.mk [] (ResultZero, Noop, None)
    (Some (APIStatusError StatusReasonOther "forbidden")) None.

End KonnectExamples.

Module ControlPlaneExamples.
Import Go K8s Prog ControlPlane.
Local Open Scope string_scope.

Definition meta (name ns : string) : ObjectMeta.t := ObjectMeta.mk name ns EmptyString [] [].

(** The hash annotation of these examples: the name of the data plane. *)
Definition specHash (spec : ControlPlaneSpec.t) : string :=
  match ControlPlaneSpec.DataPlane spec with Some dp => "dp:" ++ dp | None => "none" end.

Definition template : PodTemplateSpec.t :=
  PodTemplateSpec.mk [] [Container.mk "controller" "kong/kubernetes-ingress-controller:3.4.1" []].

Definition PodTemplateSpec_eqb (a b : PodTemplateSpec.t) : bool :=
  Nat.eqb (List.length (PodTemplateSpec.Containers a)) (List.length (PodTemplateSpec.Containers b)).

#[export] Instance deps : Deps := {|
  GatewayOperatorManagedByLabel := "gateway-operator.konghq.com/managed-by";
  ControlPlaneManagedLabelValue := "controlplane";
  ControlPlaneServiceLabel := "gateway-operator.konghq.com/service";
  ControlPlaneServiceKindWebhook := "webhook";
  GenerateImage := fun _ _ => Ok "kong/kubernetes-ingress-controller:3.4.1";
  GenerateNewDeploymentForControlPlane := fun p =>
    let cp := GenerateNewDeploymentForControlPlaneParams.ControlPlane p in
    Ok (Deployment.mk
          (ObjectMeta.mk ("controlplane-" ++ CP.Name cp) (CP.Namespace cp) EmptyString []
             [("spec-hash", specHash (CP.Spec cp))])
          (ControlPlaneSpec.Replicas (CP.Spec cp)) template);
  SpecHashMatchesAnnotation := fun spec d =>
    Ok (match lookupLabel (ObjectMeta.Annotations (Deployment.Meta d)) "spec-hash" with
        | Some h => String.eqb h (specHash spec)
        | None => false
        end);
  ResourceRequirementsEqualTemplates := PodTemplateSpec_eqb;
  GenerateNewServiceAccountForControlPlane := fun ns name => ServiceAccount.mk (meta name ns);
  GenerateNewRoleBindingForControlPlane := fun cp sa roleNN =>
    RoleBinding.mk (meta (CP.Name cp) (ObjectKey.Namespace roleNN))
      [Subject.mk "ServiceAccount" sa (CP.Namespace cp)]
      (RoleRef.mk "rbac.authorization.k8s.io" "Role" (ObjectKey.Name roleNN));
  GenerateNewClusterRoleBindingForControlPlane := fun ns name sa cr =>
    ClusterRoleBinding.mk (meta name EmptyString)
      [Subject.mk "ServiceAccount" sa ns]
      (RoleRef.mk "rbac.authorization.k8s.io" "ClusterRole" cr);
  GenerateNewAdmissionWebhookServiceForControlPlane := fun cp =>
    Ok (Service.mk (meta (CP.Name cp ++ "-webhook") (CP.Namespace cp))
          [("app", CP.Name cp)] [ServicePort.mk "webhook" "TCP" 443 "8080"]);
  CompareRoleName := fun rb name => String.eqb (RoleRef.Name (RoleBinding.RoleRef_ rb)) name;
  CompareClusterRoleName := fun crb name =>
    String.eqb (RoleRef.Name (ClusterRoleBinding.RoleRef_ crb)) name;
  RoleBindingContainsServiceAccount := fun rb ns name =>
    existsb (fun s => String.eqb (Subject.Name s) name && String.eqb (Subject.Namespace s) ns)
      (RoleBinding.Subjects rb);
  ClusterRoleBindingContainsServiceAccount := fun crb ns name =>
    existsb (fun s => String.eqb (Subject.Name s) name && String.eqb (Subject.Namespace s) ns)
      (ClusterRoleBinding.Subjects crb);
  GetManagedLabelForOwner := fun cp => [("gateway-operator.konghq.com/managed-by", "controlplane")];
  EnsureObjectMetaIsUpdated := fun existing generated => (false, existing);
  SetOwnerForObject := fun m cp => m;
  SetOwnerForObjectThroughLabels := fun m cp => m;
  GetManagedByLabelSet := fun cp => [("gateway-operator.konghq.com/managed-by", "controlplane")]
|}.

(** A cluster for the control-plane reconciler: the owned objects of each
    kind, the grants of each namespace and whether the admission webhook is
    enabled.  Selectors are not interpreted: every stored object is owned by
    the control plane under reconciliation. *)
Module Cluster.
Record t : Type := mk {
  deployments : list Deployment.t;
  serviceAccounts : list ServiceAccount.t;
  clusterRoles : list ClusterRole.t;
  roleBindings : list RoleBinding.t;
  clusterRoleBindings : list ClusterRoleBinding.t;
  services : list Service.t;
  grants : list (string * list WatchNamespaceGrant.t);
  webhookEnabled : bool
}.
End Cluster.

Definition withDeployments (c : Cluster.t) (ds : list Deployment.t) : Cluster.t :=
  Cluster.mk ds (Cluster.serviceAccounts c) (Cluster.clusterRoles c) (Cluster.roleBindings c)
    (Cluster.clusterRoleBindings c) (Cluster.services c) (Cluster.grants c)
    (Cluster.webhookEnabled c).
Definition withServiceAccounts (c : Cluster.t) (l : list ServiceAccount.t) : Cluster.t :=
  Cluster.mk (Cluster.deployments c) l (Cluster.clusterRoles c) (Cluster.roleBindings c)
    (Cluster.clusterRoleBindings c) (Cluster.services c) (Cluster.grants c)
    (Cluster.webhookEnabled c).
Definition withClusterRoles (c : Cluster.t) (l : list ClusterRole.t) : Cluster.t :=
  Cluster.mk (Cluster.deployments c) (Cluster.serviceAccounts c) l (Cluster.roleBindings c)
    (Cluster.clusterRoleBindings c) (Cluster.services c) (Cluster.grants c)
    (Cluster.webhookEnabled c).
Definition withRoleBindings (c : Cluster.t) (l : list RoleBinding.t) : Cluster.t :=
  Cluster.mk (Cluster.deployments c) (Cluster.serviceAccounts c) (Cluster.clusterRoles c) l
    (Cluster.clusterRoleBindings c) (Cluster.services c) (Cluster.grants c)
    (Cluster.webhookEnabled c).
Definition withClusterRoleBindings (c : Cluster.t) (l : list ClusterRoleBinding.t) : Cluster.t :=
  Cluster.mk (Cluster.deployments c) (Cluster.serviceAccounts c) (Cluster.clusterRoles c)
    (Cluster.roleBindings c) l (Cluster.services c) (Cluster.grants c)
    (Cluster.webhookEnabled c).
Definition withServices (c : Cluster.t) (l : list Service.t) : Cluster.t :=
  Cluster.mk (Cluster.deployments c) (Cluster.serviceAccounts c) (Cluster.clusterRoles c)
    (Cluster.roleBindings c) (Cluster.clusterRoleBindings c) l (Cluster.grants c)
    (Cluster.webhookEnabled c).

(** Reducing keeps the first object. *)
Definition keepFirst {A : Type} (l : list A) : list A := firstn 1 l.

Definition store (c : Cluster.t) (obj : Object) : Cluster.t :=
  match obj with
  | DeploymentObj d => withDeployments c [d]
  | ServiceAccountObj sa => withServiceAccounts c [sa]
  | ClusterRoleObj cr => withClusterRoles c [cr]
  | RoleBindingObj rb => withRoleBindings c [rb]
  | ClusterRoleBindingObj crb => withClusterRoleBindings c [crb]
  | ServiceObj svc => withServices c [svc]
  end.

Definition remove (c : Cluster.t) (obj : Object) : Cluster.t :=
  match obj with
  | DeploymentObj _ => withDeployments c []
  | ServiceAccountObj _ => withServiceAccounts c []
  | ClusterRoleObj _ => withClusterRoles c []
  | RoleBindingObj _ => withRoleBindings c []
  | ClusterRoleBindingObj _ => withClusterRoleBindings c []
  | ServiceObj _ => withServices c []
  end.

Definition grantsIn (c : Cluster.t) (ns : string) : list WatchNamespaceGrant.t :=
  match find (fun e => String.eqb (fst e) ns) (Cluster.grants c) with
  | Some e => snd e
  | None => []
  end.

Definition handler : Handler ClientE Cluster.t :=
  fun X e c =>
    match e in ClientE X return X * Cluster.t with
    | ListDeploymentsForOwner _ _ _ => (Ok (Cluster.deployments c), c)
    | ListServiceAccountsForOwner _ _ _ => (Ok (Cluster.serviceAccounts c), c)
    | ListClusterRoles _ => (Ok (Cluster.clusterRoles c), c)
    | ListRoleBindings _ _ => (Ok (Cluster.roleBindings c), c)
    | ListClusterRoleBindings _ => (Ok (Cluster.clusterRoleBindings c), c)
    | ListServicesForOwner _ _ _ => (Ok (Cluster.services c), c)
    | ListWatchNamespaceGrants ns => (Ok (grantsIn c ns), c)
    | ReduceDeployments ds => (None, withDeployments c (keepFirst ds))
    | ReduceServiceAccounts l => (None, withServiceAccounts c (keepFirst l))
    | ReduceClusterRoles l => (None, withClusterRoles c (keepFirst l))
    | ReduceRoleBindings l => (None, withRoleBindings c (keepFirst l))
    | ReduceClusterRoleBindings l => (None, withClusterRoleBindings c (keepFirst l))
    | ReduceServices l => (None, withServices c (keepFirst l))
    | Create obj => (None, store c obj)
    | Update obj => (None, store c obj)
    | Patch obj _ => (None, store c obj)
    | Delete obj => (None, remove c obj)
    | DeleteAll objs => (None, fold_left remove objs c)
    | ApplyPatchIfNotEmpty existing _ updated =>
        if updated then ((Updated, Some existing, None), withDeployments c [existing])
        else ((Noop, Some existing, None), c)
    | IsAdmissionWebhookEnabled _ => (Cluster.webhookEnabled c, c)
    end.

(** The same cluster with the grants of each namespace fixed by [answer]. *)
Definition handlerWithGrants (answer : string -> result (list WatchNamespaceGrant.t))
  : Handler ClientE Cluster.t :=
  fun X e c =>
    match e in ClientE X return X * Cluster.t with
    | ListWatchNamespaceGrants ns => (answer ns, c)
    | e' => handler e' c
    end.

Definition emptyCluster : Cluster.t := Cluster.mk [] [] [] [] [] [] [] false.

Definition recon : Reconciler.t := Reconciler.mk false.

(** A control plane with [replicas] declared, [dataPlane] as its dependency
    and the watch namespaces [wn]. *)
Definition controlPlane (replicas : option Z) (dataPlane : option string)
    (wn : option WatchNamespaces.t) : CP.t :=
  CP.mk (ObjectMeta.mk "cp" "default" "uid-1" [] [])
    (ControlPlaneSpec.mk replicas (Some template) dataPlane wn).

Definition params (cp : CP.t) (enforce : bool) : ensureDeploymentParams.t :=
  ensureDeploymentParams.mk cp "sa" "mtls" "webhook-cert" enforce [].

(** The Deployment of control plane [cp], scaled to [n]. *)
Definition deploymentOf (cp : CP.t) (name : string) (n : Z) : Deployment.t :=
  Deployment.mk
    (ObjectMeta.mk name "default" EmptyString [] [("spec-hash", specHash (CP.Spec cp))])
    (Some n) template.

Definition grantFor (cpNamespace : string) : WatchNamespaceGrant.t :=
  WatchNamespaceGrant.mk "grant"
    [WatchNamespaceGrantFrom.mk SchemeGroup "ControlPlane" cpNamespace].

(** Grants in [ns-a] and [ns-b], and in [ns-a] only. *)
Definition grantsAB (ns : string) : result (list WatchNamespaceGrant.t) :=
  if String.eqb ns "ns-a" || String.eqb ns "ns-b" then Ok [grantFor "default"] else Ok [].

Definition grantsA (ns : string) : result (list WatchNamespaceGrant.t) :=
  if String.eqb ns "ns-a" then Ok [grantFor "default"] else Ok [].

Definition watching (type : string) (namespaces : list string) : CP.t :=
  controlPlane (Some 1%Z) (Some "dp") (Some (WatchNamespaces.mk type namespaces)).

Definition svc (name : string) : Service.t :=
  Service.mk (meta name "default") [("app", "cp")] [ServicePort.mk "webhook" "TCP" 443 "8080"].

(** A control plane without data plane that declares two replicas, and its
    Deployment, scaled to three and carrying the hash of the present spec. *)
Definition cpDormant : CP.t := controlPlane (Some 2%Z) None None.
Definition depScaled : Deployment.t := deploymentOf cpDormant "controlplane-cp" 3.
Definition clusterScaled : Cluster.t := withDeployments emptyCluster [depScaled].

(** The data plane of the control plane has just been set: the Deployment
    still has no replicas and carries the hash of the former spec. *)
Definition cpActive : CP.t := controlPlane (Some 2%Z) (Some "dp") None.
Definition depDormant : Deployment.t := deploymentOf cpDormant "controlplane-cp" 0.
Definition clusterDormant : Cluster.t := withDeployments emptyCluster [depDormant].

(** Two Deployments owned by the same control plane. *)
Definition depA : Deployment.t :=
  deploymentOf (controlPlane (Some 2%Z) (Some "dp") None) "cp-a" 2.
Definition depB : Deployment.t :=
  deploymentOf (controlPlane (Some 2%Z) (Some "dp") None) "cp-b" 2.

Definition clusterTwoDeployments : Cluster.t := withDeployments emptyCluster [depA; depB].

(** Two webhook Services, with the admission webhook disabled and enabled. *)
Definition clusterTwoServices (enabled : bool) : Cluster.t :=
  Cluster.mk [] [] [] [] [] [svc "webhook-a"; svc "webhook-b"] [] enabled.

(** Inputs of [processClusterRole]. *)
Definition coreV1 : APIResourceListMapping :=
  [(GroupVersion.mk EmptyString "v1",
    [APIResource.mk "configmaps" true EmptyString "ConfigMap";
     APIResource.mk "namespaces" false EmptyString "Namespace"])].

Definition clusterRoleWith (rules : list PolicyRule.t) : ClusterRole.t :=
  ClusterRole.mk (meta "cp-role" EmptyString) rules None.

Definition ruleOn (resources : list string) : PolicyRule.t :=
  PolicyRule.mk ["get"; "list"] [EmptyString] resources [] [].

(** Discovery of two groups that both serve [a] and [b], and a rule over
    both groups. *)
Definition twoGroups : APIResourceListMapping :=
  [(GroupVersion.mk "g1" "v1",
    [APIResource.mk "a" true "g1" "A"; APIResource.mk "b" true "g1" "B"]);
   (GroupVersion.mk "g2" "v1",
    [APIResource.mk "a" true "g2" "A"; APIResource.mk "b" true "g2" "B"])].

Definition ruleOnGroups (resources : list string) : PolicyRule.t :=
  PolicyRule.mk ["get"] ["g1"; "g2"] resources [] [].

End ControlPlaneExamples.
From Stdlib Require Import DecimalString.

(* ------------------------------------------------------------------------- *)
(** ** Package controlplane: Roles, RoleBindings and the cleanup of owned
       cluster-wide objects *)
(* ------------------------------------------------------------------------- *)

Module ControlPlaneRbac.
Import Go K8s Prog ControlPlane.
Local Open Scope string_scope.
Local Open Scope prog_scope.

(** [rbacv1.Role]. *)
Module Role.
Record t : Type := mk { Meta : ObjectMeta.t; Rules : list PolicyRule.t }.
End Role.

(** The calls on Roles made through [r.Client], [k8sutils] and
    [k8sreduce]. *)
Inductive RoleE : Type -> Type :=
| ListRoles (labels : Labels) (ns : string) : RoleE (result (list Role.t))
| CreateRole (role : Role.t) : RoleE (option error)
| PatchRole (role old : Role.t) : RoleE (option error)
| DeleteRole (role : Role.t) : RoleE (option error)
| ReduceRoles (roles : list Role.t) : RoleE (option error).

(** [metav1.NamespaceAll]: a listing without [client.InNamespace] has this
    namespace in its options. *)
Definition NamespaceAll : string := EmptyString.

(** The error these functions return from [errors.Join(errs...)], where no
    element of [errs] is nil: nil when [errs] is empty, and otherwise one
    error that holds [errs] in order. *)
Inductive joined : Type :=
| One (err : error)
| Joined (errs : list error).

Definition Join (errs : list error) : option joined :=
  match errs with
  | [] => None
  | _ :: _ => Some (Joined errs)
  end.

(** [client.IgnoreNotFound]. *)
Definition IgnoreNotFound (err : option error) : option error :=
  match err with
  | Some e => if IsNotFound e then None else Some e
  | None => None
  end.

(** [client.ObjectKeyFromObject]. *)
Definition ObjectKeyFromObject (m : ObjectMeta.t) : ObjectKey.t :=
  ObjectKey.mk (ObjectMeta.Namespace m) (ObjectMeta.Name m).

(** [types.NamespacedName.String]. *)
Definition ObjectKey_String (key : ObjectKey.t) : string :=
  ObjectKey.Namespace key ++ "/" ++ ObjectKey.Name key.

(** [%d] of [fmt] on a length. *)
Definition decimal (n : nat) : string := NilEmpty.string_of_uint (Nat.to_uint n).

(** [sets.New(items...).Has(x)]. *)
Definition Has (items : list string) (x : string) : bool := existsb (String.eqb x) items.

(** *** [ensureOwnedClusterRolesDeleted] and
        [ensureOwnedClusterRoleBindingsDeleted] *)

(** The loop of the two functions, lines 942 to 948 and 973 to 979: [objs]
    are the objects still to delete. *)
Fixpoint deleteEach (objs : list Object) (deleted : bool) (errs : list error)
  : Prog ClientE (bool * list error) :=
  match objs with
  | [] => Ret (deleted, errs)
  | obj :: rest =>
      err <- call (Delete obj) ;;
      match IgnoreNotFound err with
      | Some e => deleteEach rest deleted (errs ++ [e])%list
      | None => deleteEach rest true errs
      end
  end.

Section WithDeps.
Context {deps : Deps}.

(** controller_reconciler_utils.go:926. *)
Definition ensureOwnedClusterRolesDeleted (cp : CP.t)
  : Prog ClientE (bool * option joined) :=
  l <- call (ListClusterRoles (GetManagedByLabelSet cp)) ;;
  match l with
  | Err err => Ret (false, Some (One err))
  | Ok clusterRoles =>
      r <- deleteEach (map ClusterRoleObj clusterRoles) false [] ;;
      Ret (fst r, Join (snd r))
  end.

(** controller_reconciler_utils.go:957. *)
Definition ensureOwnedClusterRoleBindingsDeleted (cp : CP.t)
  : Prog ClientE (bool * option joined) :=
  l <- call (ListClusterRoleBindings (GetManagedByLabelSet cp)) ;;
  match l with
  | Err err => Ret (false, Some (One err))
  | Ok clusterRoleBindings =>
      r <- deleteEach (map ClusterRoleBindingObj clusterRoleBindings) false [] ;;
      Ret (fst r, Join (snd r))
  end.

End WithDeps.

(** *** [deleteIfNotInNamespaceSet], [pruneOutdatedRoles] and
        [pruneOutdatedRoleBindings] *)

Section Prune.
(** [obj] is a [client.Object]: the function reads its namespace and its
    name and hands it to [cl.Delete]. *)
Context {E : Type -> Type} {A : Type}.
Variable delete : A -> E (option error).
Variable metaOf : A -> ObjectMeta.t.

(** controller_reconciler_utils.go:466. *)
Definition deleteIfNotInNamespaceSet (obj : A) (namespaces : list string) (msg : string)
  : Prog E (bool * option error) :=
  if Has namespaces (ObjectMeta.Namespace (metaOf obj)) then Ret (false, None)
  else
    e <- call (delete obj) ;;
    match e with
    | Some err =>
        Ret (false,
             Some (WrapError
                     ("failed deleting " ++ msg ++ " "
                        ++ ObjectKey_String (ObjectKeyFromObject (metaOf obj)) ++ ": ") err))
    | None => Ret (true, None)
    end.

(** The loop of the two pruning functions, lines 416 to 428 and 449 to
    461. *)
Fixpoint pruneEach (objs : list A) (namespaces : list string) (msg : string) (deleted : bool)
  : Prog E (bool * option error) :=
  match objs with
  | [] => Ret (deleted, None)
  | obj :: rest =>
      r <- deleteIfNotInNamespaceSet obj namespaces msg ;;
      let '(objDeleted, err) := r in
      match err with
      | Some e => Ret (false, Some e)
      | None =>
          if negb objDeleted then pruneEach rest namespaces msg deleted
          else pruneEach rest namespaces msg true
      end
  end.

End Prune.

Section WithDeps.
Context {deps : Deps}.

(** controller_reconciler_utils.go:400. *)
Definition pruneOutdatedRoles (cp : CP.t) (validatedWatchNamespaces : list string)
  : Prog RoleE (bool * option error) :=
  let namespaces := validatedWatchNamespaces in
  l <- call (ListRoles (GetManagedByLabelSet cp) NamespaceAll) ;;
  match l with
  | Err err => Ret (false, Some err)
  | Ok roles => pruneEach DeleteRole Role.Meta roles namespaces "ControlPlane's Role" false
  end.

(** controller_reconciler_utils.go:433. *)
Definition pruneOutdatedRoleBindings (cp : CP.t) (validatedWatchNamespaces : list string)
  : Prog ClientE (bool * option error) :=
  let namespaces := validatedWatchNamespaces in
  l <- call (ListRoleBindings (GetManagedByLabelSet cp) NamespaceAll) ;;
  match l with
  | Err err => Ret (false, Some err)
  | Ok roleBindings =>
      pruneEach (fun rb => Delete (RoleBindingObj rb)) RoleBinding.Meta roleBindings
        namespaces "ControlPlane's RoleBinding" false
  end.

(** *** [ensureRoles] *)

(** The body of [rolesLoop], on the generated Roles still to handle. *)
Fixpoint ensureRolesFrom (cp : CP.t) (generatedRoles : list Role.t)
    (createdOrUpdated : bool) (roles : slice Role.t)
  : Prog RoleE (bool * slice Role.t * option error) :=
  match generatedRoles with
  | [] => Ret (createdOrUpdated, roles, None)
  | generatedRole :: rest =>
      l <- call (ListRoles (GetManagedByLabelSet cp)
                   (ObjectMeta.Namespace (Role.Meta generatedRole))) ;;
      match l with
      | Err err => Ret (false, None, Some err)
      | Ok existingRoles =>
          let count := List.length existingRoles in
          match existingRoles with
          | [] =>
              e <- call (CreateRole generatedRole) ;;
              match e with
              | Some err => Ret (false, None, Some err)
              | None => ensureRolesFrom cp rest true (append_slice roles generatedRole)
              end
          | [existing] =>
              let old := existing in
              let '(updated, meta) :=
                EnsureObjectMetaIsUpdated (Role.Meta existing) (Role.Meta generatedRole) in
              let existing := Role.mk meta (Role.Rules existing) in
              if updated
                 || negb (Rules_eqb (Role.Rules existing) (Role.Rules generatedRole))
              then
                let existing := Role.mk meta (Role.Rules generatedRole) in
                e <- call (PatchRole existing old) ;;
                match e with
                | Some err =>
                    Ret (false, None,
                         Some (WrapError
                                 ("failed patching ControlPlane's Role "
                                    ++ ObjectMeta.Name meta ++ ": ") err))
                | None => ensureRolesFrom cp rest true (append_slice roles existing)
                end
              else ensureRolesFrom cp rest createdOrUpdated (append_slice roles existing)
          | _ =>
              e <- call (ReduceRoles existingRoles) ;;
              match e with
              | Some err => Ret (false, None, Some err)
              | None =>
                  Ret (false, None,
                       Some (ErrorString
                               ("number of Roles reduced from: " ++ decimal count ++ " to 1")))
              end
          end
      end
  end.

(** controller_reconciler_utils.go:479. *)
Definition ensureRoles (cp : CP.t) (generatedRoles : list Role.t)
  : Prog RoleE (bool * slice Role.t * option error) :=
  ensureRolesFrom cp generatedRoles false None.

(** *** [ensureRoleBindings] *)

(** The loop, on the Roles still to handle. *)
Fixpoint ensureRoleBindingsFrom (cp : CP.t) (serviceAccountName : string)
    (roles : list Role.t) (res : opResult) : Prog ClientE (opResult * option error) :=
  match roles with
  | [] => Ret (res, None)
  | role :: rest =>
      r <- ensureRoleBinding cp serviceAccountName (ObjectKeyFromObject (Role.Meta role)) ;;
      let '(resEnsure, _, err) := r in
      match err with
      | Some e => Ret (Noop, Some e)
      | None =>
          ensureRoleBindingsFrom cp serviceAccountName rest
            (match resEnsure with Noop => res | _ => resEnsure end)
      end
  end.

(** controller_reconciler_utils.go:534. *)
Definition ensureRoleBindings (cp : CP.t) (controlplaneServiceAccount : ServiceAccount.t)
    (roles : list Role.t) : Prog ClientE (opResult * option error) :=
  ensureRoleBindingsFrom cp
    (ObjectMeta.Name (ServiceAccount.Meta controlplaneServiceAccount)) roles Noop.

End WithDeps.

End ControlPlaneRbac.

(* ------------------------------------------------------------------------- *)
(** ** Package controlplane: [ensureRolesAndClusterRoles] *)
(* ------------------------------------------------------------------------- *)

Module ControlPlaneRoles.
Import Go K8s Prog ControlPlane ControlPlaneRbac.
Local Open Scope string_scope.
Local Open Scope prog_scope.

(** A Go call returns, or panics on a nil pointer. *)
Inductive outcome (R : Type) : Type :=
| Returns (r : R)
| Panics.
Arguments Panics {R}.

(** The calls of [ensureRolesAndClusterRoles]: those of the functions
    above, and the discovery of the API resources. *)
Inductive RbacE : Type -> Type :=
| OnClient (X : Type) (e : ClientE X) : RbacE X
| OnRoles (X : Type) (e : RoleE X) : RbacE X
| GetAPIResourceListMapping : RbacE (result APIResourceListMapping).
Arguments OnClient {X} e.
Arguments OnRoles {X} e.

(** A program over some calls, as a program over more calls. *)
Fixpoint translate {E F : Type -> Type} {R : Type} (f : forall X, E X -> F X)
    (p : Prog E R) : Prog F R :=
  match p with
  | Ret r => Ret r
  | Vis e k => Vis (f _ e) (fun x => translate f (k x))
  end.

Definition onClient {R : Type} (p : Prog ClientE R) : Prog RbacE R :=
  translate (@OnClient) p.
Definition onRoles {R : Type} (p : Prog RoleE R) : Prog RbacE R :=
  translate (@OnRoles) p.

(** What the two functions take from packages of this repository, besides
    the helpers above. *)
Class RoleDeps : Type := {
  (** [consts.ControlPlaneControllerContainerName] *)
  ControlPlaneControllerContainerName : string;
  (** [k8sutils.GetPodContainerByName]: nil when there is no such
      container *)
  GetPodContainerByName : PodTemplateSpec.t -> string -> option Container.t;
  (** package [k8sresources] *)
  GenerateNewClusterRoleForControlPlane : string -> string -> bool -> result ClusterRole.t;
  GenerateNewRoleForControlPlane : CP.t -> string -> list PolicyRule.t -> Role.t
}.

Section WithDeps.
Context {deps : Deps} {roleDeps : RoleDeps}.

(** [generateRoleAndClusterRole], controller_reconciler_utils.go:623.
    [&cp.Spec.Deployment.PodTemplateSpec.Spec] dereferences the pod template
    and [controlplaneContainer.Image] the container. *)
Definition generateRoleAndClusterRole (r : Reconciler.t) (cp : CP.t)
    (verifiedWatchNamespaces : list string)
  : Prog RbacE (outcome (slice Role.t * option ClusterRole.t * option error)) :=
  match ControlPlaneSpec.PodTemplateSpec_ (CP.Spec cp) with
  | None => Ret Panics
  | Some podTemplateSpec =>
      match GetPodContainerByName podTemplateSpec ControlPlaneControllerContainerName with
      | None => Ret Panics
      | Some controlplaneContainer =>
          match GenerateNewClusterRoleForControlPlane (CP.Name cp)
                  (Container.Image controlplaneContainer)
                  (Reconciler.ValidateControlPlaneImage r) with
          | Err err => Ret (Returns (None, None, Some err))
          | Ok clusterRole =>
              let clusterRole :=
                ClusterRole.mk (SetOwnerForObjectThroughLabels (ClusterRole.Meta clusterRole) cp)
                  (ClusterRole.Rules clusterRole) (ClusterRole.AggregationRule clusterRole) in
              if Nat.ltb 0 (List.length verifiedWatchNamespaces) then
                m <- call GetAPIResourceListMapping ;;
                match m with
                | Err err => Ret (Returns (None, None, Some err))
                | Ok m =>
                    let '(roleRules, clusterRolesRules) := processClusterRole clusterRole m in
                    let clusterRole :=
                      ClusterRole.mk (ClusterRole.Meta clusterRole) clusterRolesRules
                        (ClusterRole.AggregationRule clusterRole) in
                    let roles :=
                      map (fun namespace =>
                             let role := GenerateNewRoleForControlPlane cp namespace roleRules in
                             Role.mk (SetOwnerForObjectThroughLabels (Role.Meta role) cp)
                               (Role.Rules role))
                        verifiedWatchNamespaces in
                    Ret (Returns (Some roles, Some clusterRole, None))
                end
              else Ret (Returns (None, Some clusterRole, None))
          end
      end
  end.

(** The part of [ensureRolesAndClusterRoles] inside
    [if len(generatedRoles) > 0], lines 361 to 394. *)
Definition ensureNamespacedRoles (cp : CP.t) (controlplaneServiceAccount : ServiceAccount.t)
    (validatedWatchNamespaces : list string) (generatedRoles : list Role.t)
  : Prog RbacE (opResult * option error) :=
  r1 <- onRoles (ensureRoles cp generatedRoles) ;;
  let '(createdOrUpdated, controlplaneRoles, err) := r1 in
  match err with
  | Some e => Ret (Noop, Some e)
  | None =>
      if createdOrUpdated then Ret (Updated, None)
      else
        r2 <- onClient (ensureRoleBindings cp controlplaneServiceAccount
                          (elements controlplaneRoles)) ;;
        let '(res, err) := r2 in
        match err with
        | Some e => Ret (Noop, Some e)
        | None =>
            match res with
            | Noop =>
                r3 <- onRoles (pruneOutdatedRoles cp validatedWatchNamespaces) ;;
                match snd r3 with
                | Some e => Ret (Noop, Some e)
                | None =>
                    r4 <- onClient (pruneOutdatedRoleBindings cp validatedWatchNamespaces) ;;
                    match snd r4 with
                    | Some e => Ret (Noop, Some e)
                    | None => Ret (Noop, None)
                    end
                end
            | _ => Ret (res, None)
            end
        end
  end.

(** [ensureRolesAndClusterRoles], controller_reconciler_utils.go:327.
    [controlplaneClusterRole.Name] dereferences the ClusterRole that
    [ensureClusterRole] returned. *)
Definition ensureRolesAndClusterRoles (r : Reconciler.t) (cp : CP.t)
    (controlplaneServiceAccount : ServiceAccount.t) (validatedWatchNamespaces : list string)
  : Prog RbacE (outcome (opResult * option error)) :=
  g <- generateRoleAndClusterRole r cp validatedWatchNamespaces ;;
  match g with
  | Panics => Ret Panics
  | Returns (_, _, Some err) => Ret (Returns (Noop, Some err))
  | Returns (_, None, None) => Ret Panics
  | Returns (generatedRoles, Some generatedClusterRole, None) =>
      r1 <- onClient (ensureClusterRole cp generatedClusterRole) ;;
      let '(createdOrUpdated, controlplaneClusterRole, err) := r1 in
      match err with
      | Some e => Ret (Returns (Noop, Some e))
      | None =>
          if createdOrUpdated then Ret (Returns (Updated, None))
          else
            match controlplaneClusterRole with
            | None => Ret Panics
            | Some controlplaneClusterRole =>
                r2 <- onClient
                        (ensureClusterRoleBinding cp
                           (ObjectMeta.Name (ServiceAccount.Meta controlplaneServiceAccount))
                           (ObjectMeta.Name (ClusterRole.Meta controlplaneClusterRole))) ;;
                let '(createdOrUpdated, _, err) := r2 in
                match err with
                | Some e => Ret (Returns (Noop, Some e))
                | None =>
                    if createdOrUpdated then Ret (Returns (Updated, None))
                    else if Nat.ltb 0 (List.length (elements generatedRoles)) then
                      r3 <- ensureNamespacedRoles cp controlplaneServiceAccount
                              validatedWatchNamespaces (elements generatedRoles) ;;
                      Ret (Returns r3)
                    else Ret (Returns (Noop, None))
                end
            end
      end
  end.

End WithDeps.

End ControlPlaneRoles.


Module ProgNotions.
Import Prog.

(** Every call that the program can make, whatever the answers, is one of
    [P]. *)
Fixpoint Within {E : Type -> Type} {R : Type} (P : forall X, E X -> bool) (p : Prog E R)
  : Prop :=
  match p with
  | Ret _ => True
  | Vis e k => P _ e = true /\ forall x, Within P (k x)
  end.

(** [P] on a recorded call. *)
Definition recorded {E : Type -> Type} (P : forall X, E X -> bool) (c : Call E) : bool :=
  match c with MkCall e => P _ e end.

End ProgNotions.

(* ------------------------------------------------------------------------- *)
(** ** Further notions used to state properties *)
(* ------------------------------------------------------------------------- *)

Module Notions.
Import Go K8s Prog ControlPlane.
Local Open Scope string_scope.

(** The text [s] with every line feed turned into carriage return and line
    feed. *)
Fixpoint toCRLF (s : string) : string :=
  match s with
  | EmptyString => EmptyString
  | String c s' =>
      if Ascii.eqb c GoStrings.LF
      then String GoStrings.CR (String GoStrings.LF (toCRLF s'))
      else String c (toCRLF s')
  end.

(** The listing of the grants of a namespace, as a recorded call. *)
Definition listingOf (ns : string) : Call ClientE := MkCall (ListWatchNamespaceGrants ns).

(** [err] names the namespace [ns]: it is the error with the text
    [WatchNamespaceGrant in Namespace <ns> to ControlPlane in Namespace
    <cpNamespace> not found], or it is an error of the cluster after the
    text [failed listing WatchNamespaceGrants in namespace <ns>: ]. *)
Definition NamesNamespace (err : error) (ns cpNamespace : string) : Prop :=
  err = ErrorString
          ("WatchNamespaceGrant in Namespace " ++ ns
             ++ " to ControlPlane in Namespace " ++ cpNamespace ++ " not found")
  \/ exists e,
       err = WrapError ("failed listing WatchNamespaceGrants in namespace " ++ ns ++ ": ") e.

(** Every byte of the text is a printable byte of ASCII other than the
    double quote and the backslash. *)
Fixpoint plainText (s : string) : bool :=
  match s with
  | EmptyString => true
  | String c s' =>
      Nat.leb 32 (nat_of_ascii c) && Nat.ltb (nat_of_ascii c) 127
      && negb (Ascii.eqb c "034"%char) && negb (Ascii.eqb c "\"%char)
      && plainText s'
  end.

(** The rule has an API group and a resource. *)
Definition hasPairs (rule : PolicyRule.t) : bool :=
  match PolicyRule.APIGroups rule, PolicyRule.Resources rule with
  | _ :: _, _ :: _ => true
  | _, _ => false
  end.

(** Discovery knows none of the resources of [rule] under any of its API
    groups. *)
Definition UnknownRule (gvl : APIResourceListMapping) (rule : PolicyRule.t) : Prop :=
  forall apiGroup resource,
    In apiGroup (PolicyRule.APIGroups rule) ->
    In resource (PolicyRule.Resources rule) ->
    findAPIResource gvl apiGroup resource = None.

(** [r] is the copy of a rule of [rules], restricted to one of its resources
    that discovery knows as namespaced under one of the rule's API groups. *)
Definition NamespacedSingle (gvl : APIResourceListMapping) (rules : list PolicyRule.t)
    (r : PolicyRule.t) : Prop :=
  exists rule apiGroup resource apires,
    In rule rules /\
    In apiGroup (PolicyRule.APIGroups rule) /\
    In resource (PolicyRule.Resources rule) /\
    findAPIResource gvl apiGroup resource = Some apires /\
    APIResource.Namespaced apires = true /\
    r = PolicyRule_withResources rule [resource].

(** [r] is a rule of [rules] with some of its resources left out. *)
Definition Narrowed (rules : list PolicyRule.t) (r : PolicyRule.t) : Prop :=
  exists rule,
    In rule rules /\
    sameButResources r rule /\
    incl (PolicyRule.Resources r) (PolicyRule.Resources rule).

(** What the loops of [processClusterRole] keep true while they work on the
    rule [rule0] of [rules]: the loop variable differs from [rule0] in its
    resources only, which are resources of [rule0], and the two results hold
    rules of the kinds above. *)
Definition SplitInv (gvl : APIResourceListMapping) (rules : list PolicyRule.t)
    (rule0 : PolicyRule.t) (st : Split.t) : Prop :=
  sameButResources (Split.rule st) rule0 /\
  incl (PolicyRule.Resources (Split.rule st)) (PolicyRule.Resources rule0) /\
  Forall (NamespacedSingle gvl rules) (Split.rolePolicyRules st) /\
  Forall (Narrowed rules) (Split.clusterRolePolicyRules st).

(** The copies of [rule] emitted when discovery knows none of its
    resources: one for each pair of an API group and a resource. *)
Definition copies (rule : PolicyRule.t) : list PolicyRule.t :=
  repeat rule
    (List.length (PolicyRule.APIGroups rule) * List.length (PolicyRule.Resources rule)).

Section WithDeps.
Context {deps : Deps}.

(** The ServiceAccount, the RoleBinding and the ClusterRoleBinding that the
    functions generate and mark as owned. *)
Definition generatedServiceAccount (cp : CP.t) : ServiceAccount.t :=
  ServiceAccount.mk
    (SetOwnerForObject
       (ServiceAccount.Meta
          (GenerateNewServiceAccountForControlPlane (CP.Namespace cp) (CP.Name cp))) cp).

Definition generatedRoleBinding (cp : CP.t) (serviceAccountName : string)
    (roleNN : ObjectKey.t) : RoleBinding.t :=
  let generated := GenerateNewRoleBindingForControlPlane cp serviceAccountName roleNN in
  RoleBinding.mk (SetOwnerForObjectThroughLabels (RoleBinding.Meta generated) cp)
    (RoleBinding.Subjects generated) (RoleBinding.RoleRef_ generated).

Definition generatedClusterRoleBinding (cp : CP.t) (serviceAccountName clusterRoleName : string)
  : ClusterRoleBinding.t :=
  let generated :=
    GenerateNewClusterRoleBindingForControlPlane (CP.Namespace cp) (CP.Name cp)
      serviceAccountName clusterRoleName in
  ClusterRoleBinding.mk
    (SetOwnerForObjectThroughLabels (ClusterRoleBinding.Meta generated) cp)
    (ClusterRoleBinding.Subjects generated) (ClusterRoleBinding.RoleRef_ generated).

(** The listings of the owned objects of each kind. *)
Definition listDeployments (cp : CP.t) : ClientE (result (list Deployment.t)) :=
  ListDeploymentsForOwner (CP.Namespace cp) (CP.UID cp) managedByControlPlane.

Definition listServiceAccounts (cp : CP.t) : ClientE (result (list ServiceAccount.t)) :=
  ListServiceAccountsForOwner (CP.Namespace cp) (CP.UID cp) managedByControlPlane.

Definition listServices (cp : CP.t) : ClientE (result (list Service.t)) :=
  ListServicesForOwner (CP.Namespace cp) (CP.UID cp) (webhookServiceLabels cp).

(** The error of a failed write: the error of the cluster after [prefix]. *)
Definition wrapped (prefix : string) (e : option error) : option error :=
  option_map (WrapError prefix) e.

End WithDeps.

End Notions.

Module KonnectNotions.
Import Go K8s Prog Konnect.
Local Open Scope string_scope.

(** The condition submitted for a reference that resolves to a programmed
    control plane. *)
Definition validCond : Condition.t :=
  Condition.mk ControlPlaneRefValidConditionType ConditionTrue
    ControlPlaneRefReasonValid "ControlPlaneRef is valid".

(** The text has a slash in it.  Kubernetes accepts no such name for a
    namespace. *)
Fixpoint hasSlash (s : string) : bool :=
  match s with
  | EmptyString => false
  | String c s' => Ascii.eqb c "/" || hasSlash s'
  end.

(** A reference with a namespace that has no slash in it. *)
Definition Plain (ref : NamespacedRef.t) : Prop :=
  exists ns, NamespacedRef.Namespace ref = Some ns /\ hasSlash ns = false.

Section WithDeps.
Context {deps : Deps}.

(** The call with which the reference of [ext] is looked up. *)
Definition lookupCall (ext : KonnectExtension.t) : Call KonnectE :=
  match KonnectExtension.Ref ext with
  | KonnectNamespacedRef name =>
      MkCall (Get (ObjectKey.mk (KonnectExtension.Namespace ext) name))
  | KonnectID id =>
      MkCall (ListByKonnectID (KonnectExtension.Namespace ext)
                IndexFieldKonnectGatewayControlPlaneOnKonnectID id)
  end.

End WithDeps.

End KonnectNotions.

Module RbacNotions.
Import Go K8s Prog ControlPlane ControlPlaneRbac ProgNotions.
Local Open Scope string_scope.

(** The delete calls on a list of ClusterRoles and of ClusterRoleBindings. *)
Definition deleteClusterRole (cr : ClusterRole.t) : Call ClientE :=
  MkCall (Delete (ClusterRoleObj cr)).
Definition deleteClusterRoleBinding (crb : ClusterRoleBinding.t) : Call ClientE :=
  MkCall (Delete (ClusterRoleBindingObj crb)).

(** A delete answered with [answer] did not fail: it went through, or the
    object was gone already. *)
Definition gone (answer : option error) : bool :=
  match IgnoreNotFound answer with Some _ => false | None => true end.

(** The failures among the answers to the deletion of [objs], in order. *)
Definition failures {A : Type} (answer : A -> option error) (objs : list A) : list error :=
  flat_map (fun obj => match IgnoreNotFound (answer obj) with Some e => [e] | None => [] end)
    objs.

(** The objects of [objs] outside the namespaces [namespaces]. *)
Definition outside {A : Type} (metaOf : A -> ObjectMeta.t) (namespaces : list string)
    (objs : list A) : list A :=
  filter (fun obj => negb (Has namespaces (ObjectMeta.Namespace (metaOf obj)))) objs.

Definition nonEmpty {A : Type} (l : list A) : bool :=
  match l with [] => false | _ :: _ => true end.

(** The error with which the deletion of the object with metadata [m]
    fails. *)
Definition failedDeleting (msg : string) (m : ObjectMeta.t) (e : error) : error :=
  WrapError ("failed deleting " ++ msg ++ " " ++ ObjectKey_String (ObjectKeyFromObject m) ++ ": ")
    e.

Definition deleteRole (role : Role.t) : Call RoleE := MkCall (DeleteRole role).
Definition deleteRoleBinding (rb : RoleBinding.t) : Call ClientE :=
  MkCall (Delete (RoleBindingObj rb)).

(** The call creates or patches a Role. *)
Definition writesRole (X : Type) (e : RoleE X) : bool :=
  match e with
  | CreateRole _ | PatchRole _ _ => true
  | _ => false
  end.

(** The call deletes Roles. *)
Definition removesRoles (X : Type) (e : RoleE X) : bool :=
  match e with
  | DeleteRole _ | ReduceRoles _ => true
  | _ => false
  end.

Section WithDeps.
Context {deps : Deps}.

(** The listing of the Roles of the namespace of [generatedRole]. *)
Definition listRolesFor (cp : CP.t) (generatedRole : Role.t) : RoleE (result (list Role.t)) :=
  ListRoles (GetManagedByLabelSet cp) (ObjectMeta.Namespace (Role.Meta generatedRole)).

(** The listing of every Role and of every RoleBinding of [cp]. *)
Definition listAllRoles (cp : CP.t) : RoleE (result (list Role.t)) :=
  ListRoles (GetManagedByLabelSet cp) NamespaceAll.
Definition listAllRoleBindings (cp : CP.t) : ClientE (result (list RoleBinding.t)) :=
  ListRoleBindings (GetManagedByLabelSet cp) NamespaceAll.

End WithDeps.

End RbacNotions.

Module RolesNotions.
Import Go K8s Prog ControlPlane ControlPlaneRbac ControlPlaneRoles ProgNotions RbacNotions.
Local Open Scope string_scope.

(** A recorded call, as a call of the larger program. *)
Definition liftCall {E F : Type -> Type} (f : forall X, E X -> F X) (c : Call E) : Call F :=
  match c with MkCall e => MkCall (f _ e) end.

(** The object is a ClusterRole or a ClusterRoleBinding. *)
Definition clusterKind (obj : Object) : bool :=
  match obj with
  | ClusterRoleObj _ | ClusterRoleBindingObj _ => true
  | _ => false
  end.

(** The call reads or changes ClusterRoles or ClusterRoleBindings. *)
Definition clusterWideClient (X : Type) (e : ClientE X) : bool :=
  match e with
  | ListClusterRoles _ | ListClusterRoleBindings _
  | ReduceClusterRoles _ | ReduceClusterRoleBindings _ => true
  | Create obj | Patch obj _ | Delete obj => clusterKind obj
  | _ => false
  end.

Definition clusterWide (X : Type) (e : RbacE X) : bool :=
  match e with
  | OnClient e' => clusterWideClient e'
  | _ => false
  end.

(** The call creates or patches an object. *)
Definition writesClient (X : Type) (e : ClientE X) : bool :=
  match e with
  | Create _ | Update _ | Patch _ _ | ApplyPatchIfNotEmpty _ _ _ => true
  | _ => false
  end.

Definition writes (X : Type) (e : RbacE X) : bool :=
  match e with
  | OnClient e' => writesClient e'
  | OnRoles e' => writesRole e'
  | GetAPIResourceListMapping => false
  end.

(** The call deletes objects. *)
Definition removesClient (X : Type) (e : ClientE X) : bool :=
  match e with
  | Delete _ | DeleteAll _
  | ReduceDeployments _ | ReduceServiceAccounts _ | ReduceClusterRoles _
  | ReduceRoleBindings _ | ReduceClusterRoleBindings _ | ReduceServices _ => true
  | _ => false
  end.

Definition removes (X : Type) (e : RbacE X) : bool :=
  match e with
  | OnClient e' => removesClient e'
  | OnRoles e' => removesRoles e'
  | GetAPIResourceListMapping => false
  end.

Definition isNoop (res : opResult) : bool :=
  match res with Noop => true | _ => false end.

End RolesNotions.

(* ------------------------------------------------------------------------- *)
(** ** Further clusters and helper instances *)
(* ------------------------------------------------------------------------- *)

Module Scenarios.
Import Go K8s Prog ControlPlane.
Import ControlPlaneExamples.
Local Open Scope string_scope.

(** The helpers of [ControlPlaneExamples], except that no image can be
    resolved for the controller container. *)
Definition depsWithoutImage : Deps := {|
  GatewayOperatorManagedByLabel := @GatewayOperatorManagedByLabel deps;
  ControlPlaneManagedLabelValue := @ControlPlaneManagedLabelValue deps;
  ControlPlaneServiceLabel := @ControlPlaneServiceLabel deps;
  ControlPlaneServiceKindWebhook := @ControlPlaneServiceKindWebhook deps;
  GenerateImage := fun _ _ =>
    Err (ErrorString "ControlPlane requires an image to be set on controller container");
  GenerateNewDeploymentForControlPlane := @GenerateNewDeploymentForControlPlane deps;
  SpecHashMatchesAnnotation := @SpecHashMatchesAnnotation deps;
  ResourceRequirementsEqualTemplates := @ResourceRequirementsEqualTemplates deps;
  GenerateNewServiceAccountForControlPlane := @GenerateNewServiceAccountForControlPlane deps;
  GenerateNewRoleBindingForControlPlane := @GenerateNewRoleBindingForControlPlane deps;
  GenerateNewClusterRoleBindingForControlPlane :=
    @GenerateNewClusterRoleBindingForControlPlane deps;
  GenerateNewAdmissionWebhookServiceForControlPlane :=
    @GenerateNewAdmissionWebhookServiceForControlPlane deps;
  CompareRoleName := @CompareRoleName deps;
  CompareClusterRoleName := @CompareClusterRoleName deps;
  RoleBindingContainsServiceAccount := @RoleBindingContainsServiceAccount deps;
  ClusterRoleBindingContainsServiceAccount := @ClusterRoleBindingContainsServiceAccount deps;
  GetManagedLabelForOwner := @GetManagedLabelForOwner deps;
  EnsureObjectMetaIsUpdated := @EnsureObjectMetaIsUpdated deps;
  SetOwnerForObject := @SetOwnerForObject deps;
  SetOwnerForObjectThroughLabels := @SetOwnerForObjectThroughLabels deps;
  GetManagedByLabelSet := @GetManagedByLabelSet deps
|}.

(** The ServiceAccount of the control plane [cp]. *)
Definition saOf (cp : CP.t) : ServiceAccount.t :=
  ServiceAccount.mk (meta (CP.Name cp) (CP.Namespace cp)).

Definition clusterWithServiceAccount : Cluster.t :=
  withServiceAccounts emptyCluster [saOf cpActive].

(** A RoleBinding of [cpActive] in namespace [ns] that refers to [role]. *)
Definition bindingTo (ns role : string) : RoleBinding.t :=
  RoleBinding.mk (meta "cp" ns) [Subject.mk "ServiceAccount" "sa" "default"]
    (RoleRef.mk "rbac.authorization.k8s.io" "Role" role).

Definition clusterWithBinding (role : string) : Cluster.t :=
  withRoleBindings emptyCluster [bindingTo "ns-a" role].

(** A ClusterRole whose rules have drifted from the generated ones. *)
Definition generatedRole : ClusterRole.t := clusterRoleWith [ruleOn ["configmaps"]].

End Scenarios.

Module KonnectScenarios.
Import Go K8s Prog Konnect.
Import KonnectExamples.
Local Open Scope string_scope.

(** A control plane that exists and is programmed, on a cluster whose
    status patch goes through. *)
Definition cpProgrammed : KonnectGatewayControlPlane.t :=
  KonnectGatewayControlPlane.mk "cp" "default"
    [Condition.mk "Programmed" ConditionTrue "Programmed" EmptyString].

Definition clusterProgrammed : Cluster.t :=
  Cluster.mk [cpProgrammed] (ResultZero, Updated, None) None None.

(** An extension that refers to its control plane by Konnect ID. *)
Definition extByID : KonnectExtension.t :=
  KonnectExtension.mk "ext" "default" (KonnectID "7f3c") emptyStatus.

(** An API server that answers every read with a timeout. *)
Definition timeout : error := APIStatusError StatusReasonOther "context deadline exceeded".

Definition unreachable : Handler KonnectE unit :=
  fun X e w =>
    match e in KonnectE X return X * unit with
    | Get _ => (Err timeout, w)
    | ListByKonnectID _ _ _ => (Err timeout, w)
    | StatusWithConditions _ _ => ((ResultZero, Noop, Some timeout), w)
    | StatusUpdate _ => (Some timeout, w)
    end.

End KonnectScenarios.

Module RbacScenarios.
Import Go K8s Prog ControlPlane ControlPlaneRbac.
Import ControlPlaneExamples.
Local Open Scope string_scope.

Definition forbidden : error := APIStatusError StatusReasonOther "forbidden".
Definition notFound : error := NewNotFound "clusterroles.rbac.authorization.k8s.io" "gone".

(** How this cluster answers the deletion of an object of a given name: the
    object [locked] cannot be deleted and the object [gone] is not there any
    more. *)
Definition deletion (name : string) : option error :=
  if String.eqb name "locked" then Some forbidden
  else if String.eqb name "gone" then Some notFound
  else None.

Definition metaOf (obj : Object) : ObjectMeta.t :=
  match obj with
  | DeploymentObj d => Deployment.Meta d
  | ServiceAccountObj sa => ServiceAccount.Meta sa
  | ClusterRoleObj cr => ClusterRole.Meta cr
  | RoleBindingObj rb => RoleBinding.Meta rb
  | ClusterRoleBindingObj crb => ClusterRoleBinding.Meta crb
  | ServiceObj svc => Service.Meta svc
  end.

(** A cluster with the ClusterRoles [crs], the ClusterRoleBindings [crbs]
    and the RoleBindings [rbs], on which deletions are answered by name and
    change nothing that a later listing would show. *)
Definition guarded (crs : list ClusterRole.t) (crbs : list ClusterRoleBinding.t)
    (rbs : list RoleBinding.t) : Handler ClientE unit :=
  fun X e w =>
    match e in ClientE X return X * unit with
    | ListClusterRoles _ => (Ok crs, w)
    | ListClusterRoleBindings _ => (Ok crbs, w)
    | ListRoleBindings _ _ => (Ok rbs, w)
    | Delete obj => (deletion (ObjectMeta.Name (metaOf obj)), w)
    | e' => (fst (handler e' emptyCluster), w)
    end.

Definition clusterRole (name : string) : ClusterRole.t :=
  ClusterRole.mk (meta name EmptyString) [] None.

Definition clusterRoleBinding (name : string) : ClusterRoleBinding.t :=
  ClusterRoleBinding.mk (meta name EmptyString)
    [Subject.mk "ServiceAccount" "sa" "default"]
    (RoleRef.mk "rbac.authorization.k8s.io" "ClusterRole" "cp").

Definition roleBinding (name ns : string) : RoleBinding.t :=
  RoleBinding.mk (meta name ns) [Subject.mk "ServiceAccount" "sa" "default"]
    (RoleRef.mk "rbac.authorization.k8s.io" "Role" "cp").

Definition role (name ns : string) : Role.t := Role.mk (meta name ns) [ruleOn ["configmaps"]].

Definition sameKey (a b : Role.t) : bool :=
  String.eqb (ObjectMeta.Name (Role.Meta a)) (ObjectMeta.Name (Role.Meta b)) &&
  String.eqb (ObjectMeta.Namespace (Role.Meta a)) (ObjectMeta.Namespace (Role.Meta b)).

(** A cluster that stores Roles. *)
Definition roleStore : Handler RoleE (list Role.t) :=
  fun X e roles =>
    match e in RoleE X return X * list Role.t with
    | ListRoles _ ns =>
        (Ok (filter (fun r => String.eqb ns NamespaceAll
                              || String.eqb (ObjectMeta.Namespace (Role.Meta r)) ns) roles),
         roles)
    | CreateRole r => (None, (roles ++ [r])%list)
    | PatchRole r old => (None, map (fun x => if sameKey x old then r else x) roles)
    | DeleteRole r =>
        match deletion (ObjectMeta.Name (Role.Meta r)) with
        | Some err => (Some err, roles)
        | None => (None, filter (fun x => negb (sameKey x r)) roles)
        end
    | ReduceRoles rs => (None, roles)
    end.

Definition cp : CP.t := controlPlane (Some 1%Z) (Some "dp") None.

Definition sa : ServiceAccount.t := ServiceAccount.mk (meta "sa" "default").

End RbacScenarios.

Module RolesScenarios.
Import Go K8s Prog ControlPlane ControlPlaneRbac ControlPlaneRoles.
Import ControlPlaneExamples RbacScenarios.
Local Open Scope string_scope.

(** Helpers that generate a ClusterRole over ConfigMaps and Namespaces, and
    Roles named after the control plane. *)
#[export] Instance roleDeps : RoleDeps := {|
  ControlPlaneControllerContainerName := "controller";
  GetPodContainerByName := fun tpl name =>
    find (fun c => String.eqb (Container.Name c) name) (PodTemplateSpec.Containers tpl);
  GenerateNewClusterRoleForControlPlane := fun name image validate =>
    Ok (ClusterRole.mk (meta name EmptyString) [ruleOn ["configmaps"; "namespaces"]] None);
  GenerateNewRoleForControlPlane := fun cp namespace rules =>
    Role.mk (meta (CP.Name cp) namespace) rules
|}.

(** The cluster of [ControlPlaneExamples] together with the store of Roles
    and the discovery of the core API group. *)
Definition cluster : Handler RbacE (Cluster.t * list Role.t) :=
  fun X e s =>
    match e in RbacE X return X * (Cluster.t * list Role.t) with
    | OnClient e' => let (x, c) := handler e' (fst s) in (x, (c, snd s))
    | OnRoles e' => let (x, roles) := roleStore e' (snd s) in (x, (fst s, roles))
    | GetAPIResourceListMapping => (Ok coreV1, s)
    end.

End RolesScenarios.

(* ------------------------------------------------------------------------- *)
(** * Properties *)
(* ------------------------------------------------------------------------- *)

Module GoStringsFacts.
Import GoStrings.
Local Open Scope string_scope.

Lemma length_append (a b : string) :
  String.length (a ++ b) = String.length a + String.length b.
Proof. induction a as [|c a IH]; simpl; [reflexivity | now rewrite IH]. Qed.

Lemma substring_all (s : string) : substring 0 (String.length s) s = s.
Proof. induction s as [|c s IH]; simpl; [reflexivity | now rewrite IH]. Qed.

Lemma substring_append_l (a b : string) :
  substring 0 (String.length a) (a ++ b) = a.
Proof.
  induction a as [|c a IH]; simpl.
  - destruct b; reflexivity.
  - now rewrite IH.
Qed.

Lemma substring_append_r (a b : string) :
  substring (String.length a) (String.length b) (a ++ b) = b.
Proof.
  induction a as [|c a IH]; simpl.
  - apply substring_all.
  - exact IH.
Qed.

Lemma substring_split (s : string) (n : nat) :
  n <= String.length s ->
  s = substring 0 n s ++ substring n (String.length s - n) s.
Proof.
  revert n. induction s as [|c s IH]; intros n Hle; simpl in *.
  - destruct n; reflexivity.
  - destruct n as [|n]; simpl.
    + now rewrite substring_all.
    + f_equal. apply IH. lia.
Qed.

(** A string that has the suffix splits at it. *)
Lemma HasSuffix_split (s suffix : string) :
  HasSuffix s suffix = true ->
  s = substring 0 (String.length s - String.length suffix) s ++ suffix.
Proof.
  unfold HasSuffix. intros H.
  apply andb_true_iff in H. destruct H as [Hlen Heq].
  apply Nat.leb_le in Hlen. apply String.eqb_eq in Heq.
  pose proof (substring_split s (n := String.length s - String.length suffix)) as Hs.
  replace (String.length s - (String.length s - String.length suffix))
    with (String.length suffix) in Hs by lia.
  rewrite Heq in Hs. apply Hs. lia.
Qed.

Lemma HasSuffix_append (a suffix : string) : HasSuffix (a ++ suffix) suffix = true.
Proof.
  unfold HasSuffix. rewrite length_append.
  replace (String.length a + String.length suffix - String.length suffix)
    with (String.length a) by lia.
  rewrite substring_append_r, String.eqb_refl.
  apply andb_true_iff. split; [apply Nat.leb_le; lia | reflexivity].
Qed.

Lemma TrimSuffix_append (a suffix : string) : TrimSuffix (a ++ suffix) suffix = a.
Proof.
  unfold TrimSuffix. rewrite HasSuffix_append, length_append.
  replace (String.length a + String.length suffix - String.length suffix)
    with (String.length a) by lia.
  apply substring_append_l.
Qed.

Lemma TrimSuffix_none (s suffix : string) :
  HasSuffix s suffix = false -> TrimSuffix s suffix = s.
Proof. unfold TrimSuffix. now intros ->. Qed.

(** Either [s] ends with the suffix, and trimming removes exactly it, or
    trimming leaves [s] alone. *)
Lemma TrimSuffix_cases (s suffix : string) :
  (exists a, s = a ++ suffix /\ TrimSuffix s suffix = a) \/
  (HasSuffix s suffix = false /\ TrimSuffix s suffix = s).
Proof.
  destruct (HasSuffix s suffix) eqn:H.
  - left. exists (substring 0 (String.length s - String.length suffix) s).
    split; [now apply HasSuffix_split | unfold TrimSuffix; now rewrite H].
  - right. split; [reflexivity | now apply TrimSuffix_none].
Qed.

Lemma HasPrefix_single (c d : ascii) (s : string) :
  HasPrefix (String c s) (String d EmptyString) = Ascii.eqb c d.
Proof.
  unfold HasPrefix. cbn [String.length Nat.leb andb substring].
  replace (substring 0 0 s) with EmptyString by (destruct s; reflexivity).
  cbn [String.eqb]. destruct (Ascii.eqb c d); reflexivity.
Qed.

(** Replacing the one-byte string CR by the empty string drops the CR bytes. *)
Lemma ReplaceAll_CR (s : string) :
  ReplaceAll s (String CR EmptyString) EmptyString = filterBytes notCR s.
Proof.
  unfold ReplaceAll.
  induction s as [|c s IH]; [reflexivity|].
  cbn [replaceFrom filterBytes]. rewrite HasPrefix_single. unfold notCR.
  destruct (Ascii.eqb c CR); cbn [negb String.length Nat.sub append];
    now rewrite IH.
Qed.

Lemma filterBytes_sound (keep : ascii -> bool) (s : string) (c : ascii) :
  In c (bytes (filterBytes keep s)) -> keep c = true /\ In c (bytes s).
Proof.
  unfold bytes. induction s as [|d s IH]; simpl; [tauto|].
  destruct (keep d) eqn:K; simpl.
  - intros [->|H]; [tauto | destruct (IH H); tauto].
  - intros H. destruct (IH H); tauto.
Qed.

Lemma filterBytes_id (keep : ascii -> bool) (s : string) :
  (forall c, In c (bytes s) -> keep c = true) -> filterBytes keep s = s.
Proof.
  unfold bytes. induction s as [|d s IH]; simpl; intros H; [reflexivity|].
  rewrite (H d) by tauto. f_equal. apply IH. intros c Hc. apply H. tauto.
Qed.

Lemma filterBytes_append (keep : ascii -> bool) (a b : string) :
  filterBytes keep (a ++ b) = filterBytes keep a ++ filterBytes keep b.
Proof.
  induction a as [|d a IH]; simpl; [reflexivity|].
  destruct (keep d); simpl; now rewrite IH.
Qed.

Lemma append_assoc (a b c : string) : (a ++ b) ++ c = a ++ (b ++ c).
Proof. induction a as [|x a IH]; simpl; [reflexivity | now rewrite IH]. Qed.

(** A string is empty or ends with a byte. *)
Lemma string_snoc_cases (s : string) :
  s = EmptyString \/ exists a c, s = a ++ String c EmptyString.
Proof.
  induction s as [|x s IH]; [now left | right].
  destruct IH as [-> | (a & c & ->)].
  - now exists EmptyString, x.
  - now exists (String x a), c.
Qed.

Lemma snoc_inj (a b : string) (c d : ascii) :
  a ++ String c EmptyString = b ++ String d EmptyString -> a = b /\ c = d.
Proof.
  revert b. induction a as [|x a IH]; intros [|y b]; simpl; intros H.
  - now inversion H.
  - inversion H as [[Hx Hb]]. destruct b; discriminate.
  - inversion H as [[Hx Ha]]. destruct a; discriminate.
  - inversion H as [[Hx Ha]]. destruct (IH _ Ha) as [-> ->]. now split.
Qed.

(** The last byte decides whether a string ends with a one-byte suffix. *)
Lemma HasSuffix_snoc (a : string) (c d : ascii) :
  HasSuffix (a ++ String c EmptyString) (String d EmptyString) = Ascii.eqb c d.
Proof.
  destruct (Ascii.eqb c d) eqn:E.
  - apply Ascii.eqb_eq in E. subst d. apply HasSuffix_append.
  - destruct (HasSuffix (a ++ String c EmptyString) (String d EmptyString)) eqn:H;
      [|reflexivity].
    apply HasSuffix_split in H. apply snoc_inj in H. destruct H as [_ ->].
    now rewrite Ascii.eqb_refl in E.
Qed.

End GoStringsFacts.

(* ------------------------------------------------------------------------- *)
(** ** [sanitizeCert] *)
(* ------------------------------------------------------------------------- *)

Module SanitizeCertFacts.
Import GoStrings GoStringsFacts.
Import Konnect.
Local Open Scope string_scope.

Lemma sanitizeCert_eq (cert : string) :
  sanitizeCert cert = filterBytes notCR (TrimSuffix cert LFs).
Proof. unfold sanitizeCert. apply ReplaceAll_CR. Qed.

(** C10, the part that fails: one trailing newline is trimmed, so a
    certificate that ends with two newlines still ends with a newline after
    [sanitizeCert]. *)
Lemma sanitizeCert_two_newlines :
  sanitizeCert (String "a" (String LF (String LF EmptyString))) = String "a" LFs /\
  HasSuffix (sanitizeCert (String "a" (String LF (String LF EmptyString)))) LFs = true.
Proof. split; reflexivity. Qed.

(** C10, as amended.  [sanitizeCert] removes one trailing newline, if there is
    one, and then every carriage return.
    - The result contains no carriage return.
    - The result does not end with a newline when the input does not end with
      a carriage return and, once its carriage returns are dropped, does not
      end with two newlines.
    - An input without carriage returns that does not end with a newline is
      returned unchanged. *)
Theorem sanitizeCert_spec (cert : string) :
  ~ In CR (bytes (sanitizeCert cert)) /\
  (HasSuffix cert CRs = false ->
   HasSuffix (filterBytes notCR cert) (String LF LFs) = false ->
   HasSuffix (sanitizeCert cert) LFs = false) /\
  (~ In CR (bytes cert) -> HasSuffix cert LFs = false -> sanitizeCert cert = cert).
Proof.
  rewrite sanitizeCert_eq. split; [|split].
  - intros H. apply filterBytes_sound in H. destruct H as [H _]. discriminate H.
  - intros HCR H2.
    destruct (TrimSuffix_cases cert LFs) as [(a & -> & ->) | [Hno ->]].
    + destruct (HasSuffix (filterBytes notCR a) LFs) eqn:E; [|reflexivity].
      apply HasSuffix_split in E.
      rewrite filterBytes_append in H2. rewrite E in H2.
      change (filterBytes notCR LFs) with LFs in H2.
      rewrite append_assoc in H2.
      change (LFs ++ LFs) with (String LF LFs) in H2.
      now rewrite HasSuffix_append in H2.
    + destruct (string_snoc_cases cert) as [-> | (a & c & ->)]; [reflexivity|].
      unfold LFs, CRs in *. rewrite HasSuffix_snoc in HCR, Hno.
      rewrite filterBytes_append. cbn [filterBytes]. unfold notCR at 2.
      rewrite HCR. cbn [negb]. now rewrite HasSuffix_snoc.
  - intros HCR Hno. rewrite (TrimSuffix_none _ _ Hno).
    apply filterBytes_id. intros c Hc. unfold notCR.
    destruct (Ascii.eqb c CR) eqn:E; [|reflexivity].
    apply Ascii.eqb_eq in E. subst c. contradiction.
Qed.

(** The amended statement at the certificate ["ab" CR LF]. *)
Lemma sanitizeCert_spec_witness :
  HasSuffix (sanitizeCert (String "a" (String "b" (String CR LFs)))) LFs = false /\
  sanitizeCert (String "a" (String "b" EmptyString)) = String "a" (String "b" EmptyString).
Proof.
  split.
  - apply (proj1 (proj2 (sanitizeCert_spec (String "a" (String "b" (String CR LFs))))));
      reflexivity.
  - apply (proj2 (proj2 (sanitizeCert_spec (String "a" (String "b" EmptyString))))).
    + simpl. intros [H | [H | []]]; discriminate H.
    + reflexivity.
Defined.

End SanitizeCertFacts.

(* ------------------------------------------------------------------------- *)
(** ** Running programs *)
(* ------------------------------------------------------------------------- *)

Module ProgFacts.
Import Prog.

Section WithHandler.
Context {E : Type -> Type} {W : Type}.
Implicit Type h : Handler E W.

Lemma run_ret h (R : Type) (r : R) (w : W) : run h (Ret r) w = (r, w, []).
Proof. reflexivity. Qed.

Lemma run_call h (X : Type) (e : E X) (w : W) :
  run h (call e) w = (fst (h X e w), snd (h X e w), [MkCall e]).
Proof. simpl. destruct (h X e w); reflexivity. Qed.

Lemma run_bind h (A B : Type) (m : Prog E A) (f : A -> Prog E B) (w : W) :
  run h (bind m f) w =
  let '(a, w1, t1) := run h m w in
  let '(b, w2, t2) := run h (f a) w1 in
  (b, w2, t1 ++ t2).
Proof.
  revert w. induction m as [a | X e k IH]; intros w; simpl.
  - destruct (run h (f a) w) as [[b w2] t2]. reflexivity.
  - destruct (h X e w) as [x w1]. rewrite IH.
    destruct (run h (k x) w1) as [[a w2] t1].
    destruct (run h (f a) w2) as [[b w3] t2]. reflexivity.
Qed.

(** A call followed by a continuation. *)
Lemma run_call_bind h (X B : Type) (e : E X) (f : X -> Prog E B) (w : W) (x : X) (w1 : W) :
  h X e w = (x, w1) ->
  run h (bind (call e) f) w =
  let '(b, w2, t2) := run h (f x) w1 in (b, w2, MkCall e :: t2).
Proof.
  intros H. simpl. rewrite H. destruct (run h (f x) w1) as [[b w2] t2]. reflexivity.
Qed.

End WithHandler.

End ProgFacts.

(* ------------------------------------------------------------------------- *)
(** ** The order of strings *)
(* ------------------------------------------------------------------------- *)

Module StringOrder.
Local Open Scope string_scope.

Lemma ascii_compare_trans_le (x y z : ascii) :
  Ascii.compare x y <> Gt -> Ascii.compare y z <> Gt -> Ascii.compare x z <> Gt.
Proof.
  unfold Ascii.compare. rewrite !N.compare_gt_iff. lia.
Qed.

Lemma ascii_compare_Eq_l (x y z : ascii) :
  Ascii.compare x y = Eq -> Ascii.compare x z = Ascii.compare y z.
Proof. intros H. apply Ascii.compare_eq_iff in H. now subst. Qed.

Lemma ascii_compare_Eq_r (x y z : ascii) :
  Ascii.compare y z = Eq -> Ascii.compare x z = Ascii.compare x y.
Proof. intros H. apply Ascii.compare_eq_iff in H. now subst. Qed.

Lemma ascii_compare_Lt_trans (x y z : ascii) :
  Ascii.compare x y = Lt -> Ascii.compare y z = Lt -> Ascii.compare x z = Lt.
Proof. unfold Ascii.compare. rewrite !N.compare_lt_iff. lia. Qed.

Lemma compare_trans_le (a b c : string) :
  String.compare a b <> Gt -> String.compare b c <> Gt -> String.compare a c <> Gt.
Proof.
  revert b c. induction a as [|x a IH]; intros [|y b] [|z c]; simpl; try congruence.
  destruct (Ascii.compare x y) eqn:Exy; try congruence.
  - rewrite (ascii_compare_Eq_l _ _ z Exy).
    destruct (Ascii.compare y z) eqn:Eyz; try congruence. apply IH.
  - destruct (Ascii.compare y z) eqn:Eyz; try congruence.
    + rewrite (ascii_compare_Eq_r x _ _ Eyz), Exy. congruence.
    + rewrite (ascii_compare_Lt_trans _ _ _ Exy Eyz). congruence.
Qed.

Lemma leb_trans (a b c : string) :
  String.leb a b = true -> String.leb b c = true -> String.leb a c = true.
Proof.
  unfold String.leb. intros H1 H2.
  pose proof (compare_trans_le a b c) as H.
  destruct (String.compare a b), (String.compare b c), (String.compare a c);
    try reflexivity; try discriminate; exfalso; apply H; congruence.
Qed.

Lemma ltb_leb (a b : string) : String.ltb a b = true -> String.leb a b = true.
Proof. unfold String.ltb, String.leb. destruct (String.compare a b); congruence. Qed.

Lemma nltb_leb (a b : string) : String.ltb a b = false -> String.leb b a = true.
Proof.
  unfold String.ltb, String.leb. rewrite (String.compare_antisym b a).
  destruct (String.compare a b); simpl; congruence.
Qed.

End StringOrder.

(* ------------------------------------------------------------------------- *)
(** ** [ensureExtendablesReferencesInStatus] *)
(* ------------------------------------------------------------------------- *)

Module StatusRefsFacts.
Import Go K8s Prog Konnect ProgFacts StringOrder.
Local Open Scope string_scope.

(** *** The filter *)

Lemma hasExtensionAppliedCondition_iff (item : Extendable.t) :
  hasExtensionAppliedCondition (Extendable.Conditions item) = true <-> AppliedTrue item.
Proof.
  unfold hasExtensionAppliedCondition, AppliedTrue. rewrite existsb_exists.
  split; intros (cond & Hin & H); exists cond; split; trivial.
  - apply andb_true_iff in H. destruct H as [Ht Hs].
    apply String.eqb_eq in Ht, Hs. now split.
  - destruct H as [-> ->]. now rewrite !String.eqb_refl.
Qed.

Lemma collectRefs_from (items : list Extendable.t) (acc : slice NamespacedRef.t) :
  elements
    (fold_left
       (fun refs item =>
          if negb (hasExtensionAppliedCondition (Extendable.Conditions item))
          then refs
          else append_slice refs
                 (NamespacedRef.mk (Extendable.Name item) (Some (Extendable.Namespace item))))
       items acc) =
  (elements acc ++
   map refOf (filter (fun i => hasExtensionAppliedCondition (Extendable.Conditions i)) items))%list.
Proof.
  revert acc. induction items as [|item items IH]; intros acc; simpl.
  - now rewrite app_nil_r.
  - rewrite IH. destruct (hasExtensionAppliedCondition (Extendable.Conditions item)); simpl.
    + destruct acc as [l|]; simpl; [now rewrite <- app_assoc | reflexivity].
    + reflexivity.
Qed.

Lemma elements_collectRefs (items : list Extendable.t) :
  elements (collectRefs items) =
  map refOf (filter (fun i => hasExtensionAppliedCondition (Extendable.Conditions i)) items).
Proof. unfold collectRefs. now rewrite collectRefs_from. Qed.

(** *** The sort *)

(** The key that the code compares is the string [namespace/name]. *)
Lemma refToStr_namespaceSlashName (ref : NamespacedRef.t) :
  refToStr ref = namespaceSlashName ref.
Proof.
  unfold refToStr, namespaceSlashName. destruct (NamespacedRef.Namespace ref); reflexivity.
Qed.

Lemma less_refLe (a b : NamespacedRef.t) : less a b = true -> refLe a b.
Proof. unfold less, refLe. rewrite <- !refToStr_namespaceSlashName. apply ltb_leb. Qed.

Lemma not_less_refLe (a b : NamespacedRef.t) : less a b = false -> refLe b a.
Proof. unfold less, refLe. rewrite <- !refToStr_namespaceSlashName. apply nltb_leb. Qed.

Lemma refLe_trans (a b c : NamespacedRef.t) : refLe a b -> refLe b c -> refLe a c.
Proof. apply leb_trans. Qed.

Lemma insertRef_perm (x : NamespacedRef.t) (l : list NamespacedRef.t) :
  Permutation (insertRef x l) (x :: l).
Proof.
  induction l as [|y l IH]; simpl; [reflexivity|].
  destruct (less x y); [reflexivity|].
  rewrite IH. apply perm_swap.
Qed.

Lemma sortList_from_perm (l sorted : list NamespacedRef.t) :
  Permutation (fold_left (fun sorted x => insertRef x sorted) l sorted) (sorted ++ l)%list.
Proof.
  revert sorted. induction l as [|x l IH]; intros sorted; simpl.
  - now rewrite app_nil_r.
  - rewrite IH, insertRef_perm. apply Permutation_middle.
Qed.

Lemma sortList_perm (l : list NamespacedRef.t) : Permutation (sortList l) l.
Proof. unfold sortList. now rewrite sortList_from_perm. Qed.

Lemma insertRef_sorted (x : NamespacedRef.t) (l : list NamespacedRef.t) :
  StronglySorted refLe l -> StronglySorted refLe (insertRef x l).
Proof.
  induction 1 as [|y l Hs IH Hall]; simpl.
  - repeat constructor.
  - destruct (less x y) eqn:E.
    + apply less_refLe in E. constructor; [now constructor|].
      constructor; [exact E|].
      eapply Forall_impl; [|exact Hall]. intros z Hz. now apply refLe_trans with y.
    + apply not_less_refLe in E. constructor; [exact IH|].
      eapply Permutation_Forall; [symmetry; apply insertRef_perm|].
      now constructor.
Qed.

Lemma sortList_sorted (l : list NamespacedRef.t) : StronglySorted refLe (sortList l).
Proof.
  unfold sortList.
  assert (H : forall sorted,
            StronglySorted refLe sorted ->
            StronglySorted refLe (fold_left (fun sorted x => insertRef x sorted) l sorted)).
  { induction l as [|x l IH]; intros sorted Hs; simpl; [exact Hs|].
    now apply IH, insertRef_sorted. }
  apply H. constructor.
Qed.

Lemma elements_sortRefs (refs : slice NamespacedRef.t) :
  elements (sortRefs refs) = sortList (elements refs).
Proof. destruct refs; reflexivity. Qed.

(** *** What is stored *)

Lemma RefsOf_sorted_collect (items : list Extendable.t) :
  RefsOf items (sortRefs (collectRefs items)).
Proof.
  unfold RefsOf. rewrite elements_sortRefs, elements_collectRefs.
  split; [apply sortList_perm | split; [|apply sortList_sorted]].
  intros ref. split.
  - intros H. apply (Permutation_in _ (sortList_perm _)) in H.
    apply in_map_iff in H. destruct H as (item & <- & Hin).
    apply filter_In in Hin. destruct Hin as [Hin Happ].
    exists item. repeat split; trivial. now apply hasExtensionAppliedCondition_iff.
  - intros (item & Hin & Happ & ->).
    apply (Permutation_in _ (Permutation_sym (sortList_perm _))).
    apply in_map. apply filter_In. split; trivial.
    now apply hasExtensionAppliedCondition_iff.
Qed.

Lemma cmpEqual_true (a b : KonnectExtensionStatus.t) : cmpEqual a b = true <-> a = b.
Proof. unfold cmpEqual. destruct (Status_eq_dec a b); split; congruence. Qed.

(** The value the function returns through [ext] is [recomputed]. *)
Lemma ensureExtendablesReferencesInStatus_ext W (h : Handler KonnectE W) (w : W)
    (ext : KonnectExtension.t) (dps cps : list Extendable.t) :
  fst (fst (value h (ensureExtendablesReferencesInStatus ext dps cps) w))
  = recomputed ext dps cps.
Proof.
  unfold value, ensureExtendablesReferencesInStatus. fold (recomputed ext dps cps).
  destruct (cmpEqual _ _); simpl; [reflexivity|].
  destruct (h _ (StatusUpdate (recomputed ext dps cps)) w) as [[err|] w1]; simpl;
    [destruct (IsConflict err)|]; reflexivity.
Qed.

(** C7.  Whatever the cluster answers, [ensureExtendablesReferencesInStatus]
    leaves in the extension's status the references of exactly the
    DataPlanes, and of exactly the ControlPlanes, whose
    [KonnectExtensionApplied] condition is [True], each list sorted ascending
    by the string [namespace/name] ([RefsOf] spells that string out as
    [namespaceSlashName]).  When the recomputed status equals the stored one
    the function makes no call at all: no status write, the cluster
    unchanged, a result without requeue and no error.  Otherwise its only
    call is the status update of the recomputed extension. *)
Theorem ensureExtendablesReferencesInStatus_refs W (h : Handler KonnectE W) (w : W)
    (ext : KonnectExtension.t) (dps cps : list Extendable.t)
    (ext' : KonnectExtension.t) (res : Result) (err : option error) (w' : W)
    (log : list (Call KonnectE)) :
  run h (ensureExtendablesReferencesInStatus ext dps cps) w = (ext', res, err, w', log) ->
  RefsOf dps (KonnectExtensionStatus.DataPlaneRefs (KonnectExtension.Status ext')) /\
  RefsOf cps (KonnectExtensionStatus.ControlPlaneRefs (KonnectExtension.Status ext')) /\
  (KonnectExtension.Status ext' = KonnectExtension.Status ext ->
   log = [] /\ w' = w /\ res = mkResult false 0 /\ err = None) /\
  (KonnectExtension.Status ext' <> KonnectExtension.Status ext ->
   log = [MkCall (StatusUpdate ext')]).
Proof.
  intros Hrun.
  pose proof (ensureExtendablesReferencesInStatus_ext h w ext dps cps) as Hext.
  unfold value in Hext. rewrite Hrun in Hext. simpl in Hext. subst ext'.
  split; [apply RefsOf_sorted_collect | split; [apply RefsOf_sorted_collect|]].
  revert Hrun. unfold ensureExtendablesReferencesInStatus.
  fold (recomputed ext dps cps).
  destruct (cmpEqual _ _) eqn:E; simpl.
  - intros [= <- <- <- <-]. apply cmpEqual_true in E. split; [now intros _|].
    intros H. contradiction.
  - assert (Hne : KonnectExtension.Status (recomputed ext dps cps)
                  <> KonnectExtension.Status ext).
    { intros H. apply cmpEqual_true in H. congruence. }
    destruct (h _ (StatusUpdate (recomputed ext dps cps)) w) as [[e|] w1]; simpl;
      [destruct (IsConflict e)|]; intros [= <- <- <- <-];
      (split; [intros H; contradiction | now intros _]).
Qed.

(** C7 on a cluster with three DataPlanes, two of them applied: the first
    pass stores the two references in order, and a pass over the result
    makes no call. *)
Lemma ensureExtendablesReferencesInStatus_refs_witness :
  RefsOf [KonnectExamples.d1; KonnectExamples.d2; KonnectExamples.d3]
    (Some [refOf KonnectExamples.d3; refOf KonnectExamples.d1]) /\
  calls KonnectExamples.handler
    (ensureExtendablesReferencesInStatus
       (recomputed KonnectExamples.ext1
          [KonnectExamples.d1; KonnectExamples.d2; KonnectExamples.d3] [])
       [KonnectExamples.d1; KonnectExamples.d2; KonnectExamples.d3] [])
    KonnectExamples.clusterPatchOk = [].
Proof.
  split.
  - exact (proj1 (ensureExtendablesReferencesInStatus_refs
                    KonnectExamples.handler KonnectExamples.clusterPatchOk
                    KonnectExamples.ext1
                    [KonnectExamples.d1; KonnectExamples.d2; KonnectExamples.d3] []
                    eq_refl)).
  - destruct (ensureExtendablesReferencesInStatus_refs
                KonnectExamples.handler KonnectExamples.clusterPatchOk
                (recomputed KonnectExamples.ext1
                   [KonnectExamples.d1; KonnectExamples.d2; KonnectExamples.d3] [])
                [KonnectExamples.d1; KonnectExamples.d2; KonnectExamples.d3] []
                eq_refl) as (_ & _ & Hsame & _).
    destruct (Hsame eq_refl) as [Hlog _]. exact Hlog.
Defined.

(** C8.  When the recomputed status differs from the stored one the status
    update is made; if it fails with a conflict the function returns a
    result whose [Requeue] is [true], with no delay, and no error, and if it
    fails otherwise the function returns a result without requeue and the
    failure, wrapped, as its error. *)
Theorem ensureExtendablesReferencesInStatus_conflict W (h : Handler KonnectE W) (w w1 : W)
    (ext : KonnectExtension.t) (dps cps : list Extendable.t) (err : error) :
  KonnectExtension.Status (recomputed ext dps cps) <> KonnectExtension.Status ext ->
  h _ (StatusUpdate (recomputed ext dps cps)) w = (Some err, w1) ->
  (IsConflict err = true ->
   value h (ensureExtendablesReferencesInStatus ext dps cps) w
   = (recomputed ext dps cps, {| Requeue := true; RequeueAfter := 0 |}, None)) /\
  (IsConflict err = false ->
   value h (ensureExtendablesReferencesInStatus ext dps cps) w
   = (recomputed ext dps cps, {| Requeue := false; RequeueAfter := 0 |},
      Some (WrapError
              "failed to update KonnectExtension ControlPlane and DataPlane references in status: "
              err))).
Proof.
  intros Hne Hupd.
  assert (Hdiff : cmpEqual (KonnectExtension.Status (recomputed ext dps cps))
                    (KonnectExtension.Status ext) = false).
  { destruct (cmpEqual _ _) eqn:E; [|reflexivity].
    apply cmpEqual_true in E. contradiction. }
  unfold value, ensureExtendablesReferencesInStatus.
  fold (recomputed ext dps cps). rewrite Hdiff. simpl. rewrite Hupd.
  split; intros ->; reflexivity.
Qed.

(** C8 on a cluster that answers the update with a conflict, and on one that
    answers it with another failure. *)
Lemma ensureExtendablesReferencesInStatus_conflict_witness :
  value KonnectExamples.handler
    (ensureExtendablesReferencesInStatus KonnectExamples.ext1 [KonnectExamples.d1] [])
    KonnectExamples.clusterConflict
  = (recomputed KonnectExamples.ext1 [KonnectExamples.d1] [],
     {| Requeue := true; RequeueAfter := 0 |}, None) /\
  snd (value KonnectExamples.handler
         (ensureExtendablesReferencesInStatus KonnectExamples.ext1 [KonnectExamples.d1] [])
         KonnectExamples.clusterForbidden)
  = Some (WrapError
            "failed to update KonnectExtension ControlPlane and DataPlane references in status: "
            (APIStatusError StatusReasonOther "forbidden")).
Proof.
  split.
  - apply (proj1 (ensureExtendablesReferencesInStatus_conflict
                    KonnectExamples.handler KonnectExamples.clusterConflict
                    (ext := KonnectExamples.ext1) (dps := [KonnectExamples.d1]) (cps := [])
                    ltac:(discriminate) eq_refl)).
    reflexivity.
  - rewrite (proj2 (ensureExtendablesReferencesInStatus_conflict
                      KonnectExamples.handler KonnectExamples.clusterForbidden
                      (ext := KonnectExamples.ext1) (dps := [KonnectExamples.d1]) (cps := [])
                      ltac:(discriminate) eq_refl)
               eq_refl).
    reflexivity.
Defined.

End StatusRefsFacts.

(* ------------------------------------------------------------------------- *)
(** ** [getGatewayKonnectControlPlane] *)
(* ------------------------------------------------------------------------- *)

Module ControlPlaneRefFacts.
Import Go K8s Prog Konnect ProgFacts.
Local Open Scope string_scope.

Section WithDeps.
Context {deps : Deps}.

(** An error that the lookup reports as [Missing] is a not-found error. *)
Lemma lookupControlPlane_Missing W (h : Handler KonnectE W) (w w1 : W)
    (ext : KonnectExtension.t) (e : error) (log : list (Call KonnectE)) :
  run h (lookupControlPlane ext) w = (Missing e, w1, log) -> IsNotFound e = true.
Proof.
  unfold lookupControlPlane. destruct (KonnectExtension.Ref ext) as [name | id]; simpl.
  - destruct (h _ (Get _) w) as [[kgcp | err] w0]; simpl.
    + discriminate.
    + destruct (IsNotFound err) eqn:E; simpl; [|discriminate].
      intros [= <- _ _]. exact E.
  - destruct (h _ (ListByKonnectID _ _ _) w) as [[[|cp kgcps] | err] w0]; simpl;
      try discriminate.
    intros [= <- _ _]. reflexivity.
Qed.

(** The two ways in which a reference resolves to a control plane: the
    namespaced name is found, or the listing by Konnect ID is not empty. *)
Lemma lookupControlPlane_Found W (h : Handler KonnectE W) (w w1 : W)
    (ext : KonnectExtension.t) (cp : KonnectGatewayControlPlane.t) :
  (forall name,
     KonnectExtension.Ref ext = KonnectNamespacedRef name ->
     h _ (Get (ObjectKey.mk (KonnectExtension.Namespace ext) name)) w = (Ok cp, w1) ->
     run h (lookupControlPlane ext) w =
     (Found cp, w1, [MkCall (Get (ObjectKey.mk (KonnectExtension.Namespace ext) name))])) /\
  (forall id rest,
     KonnectExtension.Ref ext = KonnectID id ->
     h _ (ListByKonnectID (KonnectExtension.Namespace ext)
            IndexFieldKonnectGatewayControlPlaneOnKonnectID id) w = (Ok (cp :: rest), w1) ->
     run h (lookupControlPlane ext) w =
     (Found cp, w1,
      [MkCall (ListByKonnectID (KonnectExtension.Namespace ext)
                 IndexFieldKonnectGatewayControlPlaneOnKonnectID id)])).
Proof.
  unfold lookupControlPlane. split.
  - intros name -> H. simpl. now rewrite H.
  - intros id rest -> H. simpl. now rewrite H.
Qed.

(** The lookup makes exactly one call. *)
Lemma lookupControlPlane_calls W (h : Handler KonnectE W) (w : W) (ext : KonnectExtension.t) :
  calls h (lookupControlPlane ext) w =
  match KonnectExtension.Ref ext with
  | KonnectNamespacedRef name =>
      [MkCall (Get (ObjectKey.mk (KonnectExtension.Namespace ext) name))]
  | KonnectID id =>
      [MkCall (ListByKonnectID (KonnectExtension.Namespace ext)
                 IndexFieldKonnectGatewayControlPlaneOnKonnectID id)]
  end.
Proof.
  unfold calls, lookupControlPlane. destruct (KonnectExtension.Ref ext) as [name | id]; simpl.
  - destruct (h _ (Get _) w) as [[kgcp | err] w0]; simpl;
      [|destruct (IsNotFound err)]; reflexivity.
  - destruct (h _ (ListByKonnectID _ _ _) w) as [[[|cp kgcps] | err] w0]; reflexivity.
Qed.

Lemma run_patchThen W (h : Handler KonnectE W) (w w1 : W) (ext : KonnectExtension.t)
    (conds : list Condition.t)
    (otherwise : option KonnectGatewayControlPlane.t * Result * option error)
    (res : Result) (o : opResult) (errPatch : option error) :
  h _ (StatusWithConditions ext conds) w = ((res, o, errPatch), w1) ->
  run h (patchThen ext conds otherwise) w =
  (if patchSettled res errPatch then otherwise else (None, res, errPatch),
   w1, [MkCall (StatusWithConditions ext conds)]).
Proof.
  intros H. unfold patchThen, patchSettled. simpl. rewrite H.
  destruct errPatch as [e|]; simpl; [reflexivity|].
  destruct (IsZero res); reflexivity.
Qed.

(** The sentinel is not a not-found error. *)
Lemma notProgrammed_is_not_NotFound :
  IsNotFound ErrKonnectGatewayControlPlaneNotProgrammed = false.
Proof. reflexivity. Qed.

(** C9, as amended.  Let the reference of the extension resolve to an
    existing control plane [cp] that does not report [Programmed] as [True].
    The function then submits, after [dependingConditions], the condition
    [ControlPlaneRefValid] with status [False] and reason [Invalid], and makes
    no other call after the lookup; it returns no control plane; and when that
    status patch goes through without asking for a requeue it returns the
    error [ErrKonnectGatewayControlPlaneNotProgrammed], while otherwise it
    returns the result and the error of the patch.
    When the reference resolves to nothing, the error [e] of the lookup is a
    not-found error, hence another error than the sentinel; the same
    condition is submitted with the text of [e], no control plane is
    returned, and [e] is returned when the patch goes through without asking
    for a requeue. *)
Theorem getGatewayKonnectControlPlane_invalid W (h : Handler KonnectE W) (w w1 w2 : W)
    (ext : KonnectExtension.t) (dependingConditions : list Condition.t)
    (log1 : list (Call KonnectE)) (res : Result) (o : opResult) (errPatch : option error) :
  (forall cp,
     run h (lookupControlPlane ext) w = (Found cp, w1, log1) ->
     HasConditionTrue KonnectEntityProgrammedConditionType cp = false ->
     h _ (StatusWithConditions ext
            (dependingConditions ++ [invalidCond (notProgrammedMessage cp)])%list) w1
       = ((res, o, errPatch), w2) ->
     run h (getGatewayKonnectControlPlane ext dependingConditions) w =
     ((None, if patchSettled res errPatch then ResultZero else res,
       if patchSettled res errPatch
       then Some ErrKonnectGatewayControlPlaneNotProgrammed else errPatch),
      w2,
      (log1 ++ [MkCall (StatusWithConditions ext
                          (dependingConditions ++ [invalidCond (notProgrammedMessage cp)]))])%list))
  /\
  (forall e,
     run h (lookupControlPlane ext) w = (Missing e, w1, log1) ->
     h _ (StatusWithConditions ext (dependingConditions ++ [invalidCond (Error e)])%list) w1
       = ((res, o, errPatch), w2) ->
     IsNotFound e = true /\
     e <> ErrKonnectGatewayControlPlaneNotProgrammed /\
     run h (getGatewayKonnectControlPlane ext dependingConditions) w =
     ((None, if patchSettled res errPatch then ResultZero else res,
       if patchSettled res errPatch then Some e else errPatch),
      w2,
      (log1 ++ [MkCall (StatusWithConditions ext
                          (dependingConditions ++ [invalidCond (Error e)]))])%list)).
Proof.
  split.
  - intros cp Hlook Hprog Hpatch.
    unfold getGatewayKonnectControlPlane. rewrite run_bind, Hlook.
    cbv beta iota. rewrite Hprog. cbn [negb].
    fold (notProgrammedMessage cp). fold (invalidCond (notProgrammedMessage cp)).
    erewrite run_patchThen by exact Hpatch.
    destruct (patchSettled res errPatch); reflexivity.
  - intros e Hlook Hpatch.
    pose proof (lookupControlPlane_Missing _ _ _ Hlook) as Hnf.
    split; [exact Hnf | split].
    + intros ->. discriminate Hnf.
    + unfold getGatewayKonnectControlPlane. rewrite run_bind, Hlook.
      cbv beta iota. fold (invalidCond (Error e)).
      erewrite run_patchThen by exact Hpatch.
      destruct (patchSettled res errPatch); reflexivity.
Qed.

End WithDeps.

#[local] Existing Instance KonnectExamples.deps.

(** C9, the part that fails: the control plane exists and is not programmed,
    the status patch asks for a requeue, and the function returns that
    request with no error instead of the not-programmed error. *)
Lemma getGatewayKonnectControlPlane_patch_requeue :
  value KonnectExamples.handler (lookupControlPlane KonnectExamples.ext1)
    KonnectExamples.clusterPatchRequeues = Found KonnectExamples.cpPending /\
  HasConditionTrue KonnectEntityProgrammedConditionType KonnectExamples.cpPending = false /\
  value KonnectExamples.handler (getGatewayKonnectControlPlane KonnectExamples.ext1 [])
    KonnectExamples.clusterPatchRequeues = (None, ResultRequeue, None).
Proof. repeat split. Qed.

(** C9 as amended, on a cluster whose status patch goes through. *)
Lemma getGatewayKonnectControlPlane_invalid_witness :
  value KonnectExamples.handler (getGatewayKonnectControlPlane KonnectExamples.ext1 [])
    KonnectExamples.clusterPatchOk
  = (None, ResultZero, Some ErrKonnectGatewayControlPlaneNotProgrammed).
Proof.
  destruct (getGatewayKonnectControlPlane_invalid
              KonnectExamples.handler KonnectExamples.clusterPatchOk
              KonnectExamples.clusterPatchOk KonnectExamples.clusterPatchOk
              KonnectExamples.ext1 []
              [MkCall (Get (ObjectKey.mk "default" "cp"))]
              ResultZero Updated None) as [Hfound _].
  unfold value. rewrite (Hfound KonnectExamples.cpPending); reflexivity.
Defined.

End ControlPlaneRefFacts.

(* ------------------------------------------------------------------------- *)
(** ** [validateWatchNamespaceGrants] *)
(* ------------------------------------------------------------------------- *)

Module WatchNamespaceFacts.
Import Go K8s Prog ControlPlane ProgFacts.
Local Open Scope string_scope.

Section WithDeps.
Context {deps : Deps}.

Lemma hasMatchingGrant_iff (cp : CP.t) (items : list WatchNamespaceGrant.t) :
  hasMatchingGrant cp items = true <-> Granted cp items.
Proof.
  unfold hasMatchingGrant, Granted. rewrite existsb_exists. split.
  - intros (grant & Hin & H). apply existsb_exists in H. destruct H as (from & Hfrom & H).
    unfold fromMatches in H. apply andb_true_iff in H. destruct H as [H Hns].
    apply andb_true_iff in H. destruct H as [Hg Hk].
    apply String.eqb_eq in Hg, Hk, Hns. exists grant, from. tauto.
  - intros (grant & from & Hin & Hfrom & Hg & Hk & Hns). exists grant. split; trivial.
    apply existsb_exists. exists from. split; trivial.
    unfold fromMatches. now rewrite Hg, Hk, Hns, !String.eqb_refl.
Qed.

Lemma append_slice_sliceOf_from (A : Type) (l : list A) (s : slice A) (x : A) :
  append_slice (fold_left append_slice l s) x = Some (elements s ++ l ++ [x])%list.
Proof.
  revert s. induction l as [|y l IH]; intros s; simpl.
  - destruct s; reflexivity.
  - rewrite IH. destruct s as [l0|]; simpl; [now rewrite <- app_assoc | reflexivity].
Qed.

(** What one check of a namespace returns and calls. *)
Lemma run_ensureWatchNamespaceGrantsForNamespace W (h : Handler ClientE W)
    (answer : string -> result (list WatchNamespaceGrant.t)) (cp : CP.t) (ns : string) (w : W) :
  Answers h answer ->
  run h (ensureWatchNamespaceGrantsForNamespace cp ns) w =
  (match answer ns with
   | Err err => Some (errListingGrants ns err)
   | Ok items =>
       if hasMatchingGrant cp items then None
       else Some (errGrantNotFound ns (CP.Namespace cp))
   end,
   snd (h _ (ListWatchNamespaceGrants ns) w),
   [MkCall (ListWatchNamespaceGrants ns)]).
Proof.
  intros Hans. unfold ensureWatchNamespaceGrantsForNamespace. simpl.
  rewrite <- (Hans ns w).
  destruct (h _ (ListWatchNamespaceGrants ns) w) as [[items | err] w1]; simpl;
    [destruct (hasMatchingGrant cp items)|]; reflexivity.
Qed.

(** One turn of the loop. *)
Lemma run_validateList_cons W (h : Handler ClientE W)
    (answer : string -> result (list WatchNamespaceGrant.t)) (cp : CP.t)
    (ns : string) (rest : list string) (nsList : slice string) (w : W) :
  Answers h answer ->
  run h (validateList cp (ns :: rest) nsList) w =
  let w1 := snd (h _ (ListWatchNamespaceGrants ns) w) in
  match answer ns with
  | Err err => ((nsList, Some (errListingGrants ns err)), w1, [MkCall (ListWatchNamespaceGrants ns)])
  | Ok items =>
      if hasMatchingGrant cp items then
        let '(r, w2, t) := run h (validateList cp rest (append_slice nsList ns)) w1 in
        (r, w2, MkCall (ListWatchNamespaceGrants ns) :: t)
      else ((nsList, Some (errGrantNotFound ns (CP.Namespace cp))), w1,
            [MkCall (ListWatchNamespaceGrants ns)])
  end.
Proof.
  intros Hans. cbn [validateList]. rewrite run_bind.
  rewrite (run_ensureWatchNamespaceGrantsForNamespace cp ns w Hans).
  destruct (answer ns) as [items | err]; [|reflexivity].
  destruct (hasMatchingGrant cp items); [|reflexivity].
  destruct (run h (validateList cp rest (append_slice nsList ns)) _) as [[r w2] t].
  reflexivity.
Qed.

(** Every namespace granted: the loop validates them all and appends the
    control plane's own namespace, listing the grants of each listed
    namespace once and of no other. *)
Lemma validateList_all_granted W (h : Handler ClientE W)
    (answer : string -> result (list WatchNamespaceGrant.t)) (cp : CP.t)
    (l : list string) (nsList : slice string) (w : W) :
  Answers h answer ->
  (forall ns, In ns l -> GrantedIn cp answer ns) ->
  value h (validateList cp l nsList) w =
    (Some (elements nsList ++ l ++ [CP.Namespace cp])%list, None) /\
  calls h (validateList cp l nsList) w =
    map (fun ns => MkCall (ListWatchNamespaceGrants ns)) l.
Proof.
  intros Hans. unfold value, calls. revert nsList w.
  induction l as [|ns rest IH]; intros nsList w Hall.
  - simpl. destruct nsList; split; reflexivity.
  - rewrite (run_validateList_cons cp ns rest nsList w Hans). cbv zeta.
    destruct (Hall ns (or_introl eq_refl)) as (items & -> & Hg).
    apply hasMatchingGrant_iff in Hg. rewrite Hg.
    specialize (IH (append_slice nsList ns) (snd (h _ (ListWatchNamespaceGrants ns) w))
                   (fun n Hn => Hall n (or_intror Hn))).
    destruct (run h (validateList cp rest (append_slice nsList ns)) _) as [[r w2] t].
    simpl in IH |- *. destruct IH as [-> ->]. split; [|reflexivity].
    destruct nsList as [l0|]; simpl; [now rewrite <- app_assoc | reflexivity].
Qed.

(** The first namespace without a matching grant stops the loop. *)
Lemma validateList_first_ungranted W (h : Handler ClientE W)
    (answer : string -> result (list WatchNamespaceGrant.t)) (cp : CP.t)
    (pre : list string) (ns : string) (post : list string) (nsList : slice string) (w : W) :
  Answers h answer ->
  (forall n, In n pre -> GrantedIn cp answer n) ->
  Ungranted cp answer ns ->
  value h (validateList cp (pre ++ ns :: post) nsList) w =
    (fold_left append_slice pre nsList, Some (errGrantNotFound ns (CP.Namespace cp))).
Proof.
  intros Hans. unfold value. revert nsList w.
  induction pre as [|n pre IH]; intros nsList w Hpre (items & Hitems & Hno).
  - cbn [app]. rewrite (run_validateList_cons cp ns post nsList w Hans). cbv zeta.
    rewrite Hitems. destruct (hasMatchingGrant cp items) eqn:E.
    + apply hasMatchingGrant_iff in E. contradiction.
    + reflexivity.
  - cbn [app]. rewrite (run_validateList_cons cp n (pre ++ ns :: post) nsList w Hans).
    cbv zeta. destruct (Hpre n (or_introl eq_refl)) as (items' & -> & Hg).
    apply hasMatchingGrant_iff in Hg. rewrite Hg.
    specialize (IH (append_slice nsList n) (snd (h _ (ListWatchNamespaceGrants n) w))
                   (fun m Hm => Hpre m (or_intror Hm))
                   (ex_intro _ items (conj Hitems Hno))).
    destruct (run h (validateList cp (pre ++ ns :: post) (append_slice nsList n)) _)
      as [[r w2] t].
    simpl in IH |- *. exact IH.
Qed.

(** A namespace without a matching grant makes the loop fail, with an error
    that carries a listed namespace that is not granted. *)
Lemma validateList_some_ungranted W (h : Handler ClientE W)
    (answer : string -> result (list WatchNamespaceGrant.t)) (cp : CP.t)
    (l : list string) (nsList : slice string) (w : W) :
  Answers h answer ->
  (exists ns, In ns l /\ Ungranted cp answer ns) ->
  exists ns0 err,
    In ns0 l /\ ~ GrantedIn cp answer ns0 /\
    snd (value h (validateList cp l nsList) w) = Some err /\
    (err = errGrantNotFound ns0 (CP.Namespace cp) \/
     exists e, err = errListingGrants ns0 e).
Proof.
  intros Hans. unfold value. revert nsList w.
  induction l as [|n rest IH]; intros nsList w (ns & Hin & Hun); [contradiction|].
  rewrite (run_validateList_cons cp n rest nsList w Hans). cbv zeta.
  destruct (answer n) as [items | e] eqn:Hn.
  - destruct (hasMatchingGrant cp items) eqn:E.
    + assert (Hrest : exists ns, In ns rest /\ Ungranted cp answer ns).
      { exists ns. split; [|exact Hun]. destruct Hin as [<- | Hin]; [|exact Hin].
        destruct Hun as (items' & Hi & Hno). rewrite Hn in Hi. injection Hi as <-.
        apply hasMatchingGrant_iff in E. contradiction. }
      destruct (IH (append_slice nsList n) (snd (h _ (ListWatchNamespaceGrants n) w)) Hrest)
        as (ns0 & err & Hin0 & Hng & Herr & Hform).
      exists ns0, err. split; [now right | split; [exact Hng | split; [|exact Hform]]].
      destruct (run h (validateList cp rest (append_slice nsList n)) _) as [[r w2] t].
      exact Herr.
    + exists n, (errGrantNotFound n (CP.Namespace cp)).
      split; [now left | split; [|split; [reflexivity | now left]]].
      intros (items' & Hi & Hg). rewrite Hn in Hi. injection Hi as <-.
      apply hasMatchingGrant_iff in Hg. congruence.
  - exists n, (errListingGrants n e).
    split; [now left | split; [|split; [reflexivity | right; now exists e]]].
    intros (items' & Hi & _). congruence.
Qed.

(** C5.  With watch mode [All] the function returns no namespaces and no
    error without any call, whatever the cluster holds; with mode [Own] it
    returns the list of the control plane's own namespace, again without any
    call; with mode [List] and a matching grant in every listed namespace it
    returns the listed namespaces followed by the own namespace, having listed
    the grants of the listed namespaces only. *)
Theorem validateWatchNamespaceGrants_modes W (h : Handler ClientE W)
    (answer : string -> result (list WatchNamespaceGrant.t))
    (cp : CP.t) (wn : WatchNamespaces.t) (w : W) :
  ControlPlaneSpec.WatchNamespaces_ (CP.Spec cp) = Some wn ->
  (WatchNamespaces.Type_ wn = WatchNamespacesTypeAll ->
   run h (validateWatchNamespaceGrants cp) w = ((None, None), w, [])) /\
  (WatchNamespaces.Type_ wn = WatchNamespacesTypeOwn ->
   run h (validateWatchNamespaceGrants cp) w = ((Some [CP.Namespace cp], None), w, [])) /\
  (WatchNamespaces.Type_ wn = WatchNamespacesTypeList ->
   Answers h answer ->
   (forall ns, In ns (WatchNamespaces.List_ wn) -> GrantedIn cp answer ns) ->
   value h (validateWatchNamespaceGrants cp) w =
     (Some (WatchNamespaces.List_ wn ++ [CP.Namespace cp])%list, None) /\
   calls h (validateWatchNamespaceGrants cp) w =
     map (fun ns => MkCall (ListWatchNamespaceGrants ns)) (WatchNamespaces.List_ wn)).
Proof.
  intros Hwn. unfold validateWatchNamespaceGrants. rewrite Hwn.
  split; [|split].
  - intros ->. reflexivity.
  - intros ->. reflexivity.
  - intros -> Hans Hall. cbn [String.eqb Ascii.eqb Bool.eqb WatchNamespacesTypeList
                              WatchNamespacesTypeAll WatchNamespacesTypeOwn].
    now apply validateList_all_granted with (answer := answer).
Qed.

(** C6.  In watch mode [List]:
    - when the namespaces before [ns] in the list are granted and [ns] holds
      no matching grant, the validation fails with the error whose text is
      [WatchNamespaceGrant in Namespace <ns> to ControlPlane in Namespace
      <namespace of the control plane> not found], returning the namespaces
      validated so far;
    - when some listed namespace holds no matching grant, the validation
      fails with that text for a listed namespace that is not granted, or
      with the failure of the listing of its grants after the text [failed
      listing WatchNamespaceGrants in namespace <ns>: ]; either way the
      namespace stands in the text of the error;
    - when every listed namespace holds a matching grant, the validation
      succeeds. *)
Theorem validateWatchNamespaceGrants_list W (h : Handler ClientE W)
    (answer : string -> result (list WatchNamespaceGrant.t))
    (cp : CP.t) (wn : WatchNamespaces.t) (w : W) :
  ControlPlaneSpec.WatchNamespaces_ (CP.Spec cp) = Some wn ->
  WatchNamespaces.Type_ wn = WatchNamespacesTypeList ->
  Answers h answer ->
  (forall pre ns post,
     WatchNamespaces.List_ wn = (pre ++ ns :: post)%list ->
     (forall n, In n pre -> GrantedIn cp answer n) ->
     Ungranted cp answer ns ->
     value h (validateWatchNamespaceGrants cp) w =
       (sliceOf pre,
        Some (ErrorString
                ("WatchNamespaceGrant in Namespace " ++ ns
                   ++ " to ControlPlane in Namespace " ++ CP.Namespace cp ++ " not found")))) /\
  ((exists ns, In ns (WatchNamespaces.List_ wn) /\ Ungranted cp answer ns) ->
   exists ns0 err,
     In ns0 (WatchNamespaces.List_ wn) /\ ~ GrantedIn cp answer ns0 /\
     snd (value h (validateWatchNamespaceGrants cp) w) = Some err /\
     (err = ErrorString
              ("WatchNamespaceGrant in Namespace " ++ ns0
                 ++ " to ControlPlane in Namespace " ++ CP.Namespace cp ++ " not found") \/
      exists e,
        err = WrapError ("failed listing WatchNamespaceGrants in namespace " ++ ns0 ++ ": ") e) /\
     exists before after, Error err = before ++ ns0 ++ after) /\
  ((forall ns, In ns (WatchNamespaces.List_ wn) -> GrantedIn cp answer ns) ->
   snd (value h (validateWatchNamespaceGrants cp) w) = None).
Proof.
  intros Hwn Htype Hans. unfold validateWatchNamespaceGrants. rewrite Hwn, Htype.
  cbn [String.eqb Ascii.eqb Bool.eqb WatchNamespacesTypeList
       WatchNamespacesTypeAll WatchNamespacesTypeOwn].
  split; [|split].
  - intros pre ns post -> Hpre Hun.
    now apply validateList_first_ungranted with (answer := answer).
  - intros Hex.
    destruct (validateList_some_ungranted (WatchNamespaces.List_ wn) None w Hans Hex)
      as (ns0 & err & Hin & Hnot & Herr & Hname).
    exists ns0, err. split; [exact Hin|]. split; [exact Hnot|]. split; [exact Herr|].
    split; [exact Hname|]. destruct Hname as [-> | [e ->]].
    + eexists _, _. reflexivity.
    + exists "failed listing WatchNamespaceGrants in namespace ", (": " ++ Error e).
      unfold errListingGrants. cbn [Error].
      now rewrite !GoStringsFacts.append_assoc.
  - intros Hall.
    destruct (validateList_all_granted (cp := cp) (WatchNamespaces.List_ wn) None w
                Hans Hall) as [-> _].
    reflexivity.
Qed.

End WithDeps.

#[local] Existing Instance ControlPlaneExamples.deps.

(** C5 on a control plane in namespace [default]: mode [All], mode [Own],
    and mode [List] over [ns-a] and [ns-b], both granted. *)
Lemma validateWatchNamespaceGrants_modes_witness :
  run ControlPlaneExamples.handler
    (validateWatchNamespaceGrants (ControlPlaneExamples.watching "all" ["ns-a"]))
    ControlPlaneExamples.emptyCluster
  = ((None, None), ControlPlaneExamples.emptyCluster, []) /\
  run ControlPlaneExamples.handler
    (validateWatchNamespaceGrants (ControlPlaneExamples.watching "own" ["ns-a"]))
    ControlPlaneExamples.emptyCluster
  = ((Some ["default"], None), ControlPlaneExamples.emptyCluster, []) /\
  value (ControlPlaneExamples.handlerWithGrants ControlPlaneExamples.grantsAB)
    (validateWatchNamespaceGrants (ControlPlaneExamples.watching "list" ["ns-a"; "ns-b"]))
    ControlPlaneExamples.emptyCluster
  = (Some ["ns-a"; "ns-b"; "default"], None).
Proof.
  split; [|split].
  - apply (proj1 (validateWatchNamespaceGrants_modes
                    ControlPlaneExamples.handler ControlPlaneExamples.grantsAB
                    (ControlPlaneExamples.watching "all" ["ns-a"])
                    ControlPlaneExamples.emptyCluster eq_refl)).
    reflexivity.
  - apply (proj1 (proj2 (validateWatchNamespaceGrants_modes
                           ControlPlaneExamples.handler ControlPlaneExamples.grantsAB
                           (ControlPlaneExamples.watching "own" ["ns-a"])
                           ControlPlaneExamples.emptyCluster eq_refl))).
    reflexivity.
  - apply (proj2 (proj2 (validateWatchNamespaceGrants_modes
                           (ControlPlaneExamples.handlerWithGrants
                              ControlPlaneExamples.grantsAB)
                           ControlPlaneExamples.grantsAB
                           (ControlPlaneExamples.watching "list" ["ns-a"; "ns-b"])
                           ControlPlaneExamples.emptyCluster eq_refl))).
    + reflexivity.
    + intros ns w. reflexivity.
    + intros ns [<- | [<- | []]];
        (eexists; split; [reflexivity | apply hasMatchingGrant_iff; reflexivity]).
Defined.

(** C6 with a grant in [ns-a] only: on the list [ns-a; ns-b] the validation
    fails and names [ns-b], and on the list [ns-c; ns-a] it fails and names
    [ns-c]; with a grant in [ns-a] and [ns-b] it succeeds on the first
    list. *)
Lemma validateWatchNamespaceGrants_list_witness :
  value (ControlPlaneExamples.handlerWithGrants ControlPlaneExamples.grantsA)
    (validateWatchNamespaceGrants (ControlPlaneExamples.watching "list" ["ns-a"; "ns-b"]))
    ControlPlaneExamples.emptyCluster
  = (Some ["ns-a"],
     Some (ErrorString
             "WatchNamespaceGrant in Namespace ns-b to ControlPlane in Namespace default not found"))
  /\
  value (ControlPlaneExamples.handlerWithGrants ControlPlaneExamples.grantsA)
    (validateWatchNamespaceGrants (ControlPlaneExamples.watching "list" ["ns-c"; "ns-a"]))
    ControlPlaneExamples.emptyCluster
  = (None,
     Some (ErrorString
             "WatchNamespaceGrant in Namespace ns-c to ControlPlane in Namespace default not found"))
  /\
  snd (value (ControlPlaneExamples.handlerWithGrants ControlPlaneExamples.grantsAB)
         (validateWatchNamespaceGrants (ControlPlaneExamples.watching "list" ["ns-a"; "ns-b"]))
         ControlPlaneExamples.emptyCluster)
  = None.
Proof.
  split.
  - apply (proj1 (validateWatchNamespaceGrants_list
                    (h := ControlPlaneExamples.handlerWithGrants ControlPlaneExamples.grantsA)
                    (answer := ControlPlaneExamples.grantsA)
                    (ControlPlaneExamples.watching "list" ["ns-a"; "ns-b"])
                    ControlPlaneExamples.emptyCluster eq_refl eq_refl
                    (fun ns w => eq_refl))
             ["ns-a"] "ns-b" []).
    + reflexivity.
    + intros n [<- | []].
      eexists; split; [reflexivity | apply hasMatchingGrant_iff; reflexivity].
    + eexists; split; [reflexivity|].
      intros H. apply hasMatchingGrant_iff in H. discriminate H.
  - split.
    { apply (proj1 (validateWatchNamespaceGrants_list
                      (h := ControlPlaneExamples.handlerWithGrants ControlPlaneExamples.grantsA)
                      (answer := ControlPlaneExamples.grantsA)
                      (ControlPlaneExamples.watching "list" ["ns-c"; "ns-a"])
                      ControlPlaneExamples.emptyCluster eq_refl eq_refl
                      (fun ns w => eq_refl))
               [] "ns-c" ["ns-a"]).
      - reflexivity.
      - intros n [].
      - eexists; split; [reflexivity|].
        intros H. apply hasMatchingGrant_iff in H. discriminate H. }
    apply (proj2 (proj2 (validateWatchNamespaceGrants_list
                           (h := ControlPlaneExamples.handlerWithGrants
                                   ControlPlaneExamples.grantsAB)
                           (answer := ControlPlaneExamples.grantsAB)
                           (ControlPlaneExamples.watching "list" ["ns-a"; "ns-b"])
                           ControlPlaneExamples.emptyCluster eq_refl eq_refl
                           (fun ns w => eq_refl)))).
    intros ns [<- | [<- | []]];
      (eexists; split; [reflexivity | apply hasMatchingGrant_iff; reflexivity]).
Defined.

End WatchNamespaceFacts.

(* ------------------------------------------------------------------------- *)
(** ** More than one owned object of a kind *)
(* ------------------------------------------------------------------------- *)

Module OwnedSetFacts.
Import Go K8s Prog ControlPlane ProgFacts.
Local Open Scope string_scope.

(** Runs a function up to the point where the listing answered with more than
    one object and the reduction answered [e]. *)
Ltac reduced Hlist Hlen Hred :=
  erewrite run_call_bind by exact Hlist;
  cbv beta iota zeta;
  rewrite (proj2 (Nat.ltb_lt _ _) Hlen);
  erewrite run_call_bind by exact Hred;
  match goal with
  | |- context [match ?e with Some _ => _ | None => _ end] => destruct e; reflexivity
  end.

Section WithDeps.
Context {deps : Deps}.
Context {W : Type}.
Implicit Type h : Handler ClientE W.

Lemma ensureDeployment_reduces h (r : Reconciler.t) (params : ensureDeploymentParams.t)
    (ds : list Deployment.t) (e : option error) (w w1 w2 : W) :
  let cp := ensureDeploymentParams.ControlPlane params in
  h _ (ListDeploymentsForOwner (CP.Namespace cp) (CP.UID cp) managedByControlPlane) w
    = (Ok ds, w1) ->
  1 < List.length ds ->
  h _ (ReduceDeployments ds) w1 = (e, w2) ->
  run h (ensureDeployment r params) w =
  ((Noop, None, Some (reducedError "deployments" e)), w2,
   [MkCall (ListDeploymentsForOwner (CP.Namespace cp) (CP.UID cp) managedByControlPlane);
    MkCall (ReduceDeployments ds)]).
Proof. intros cp Hlist Hlen Hred. unfold ensureDeployment. reduced Hlist Hlen Hred. Qed.

Lemma ensureServiceAccount_reduces h (cp : CP.t)
    (sas : list ServiceAccount.t) (e : option error) (w w1 w2 : W) :
  h _ (ListServiceAccountsForOwner (CP.Namespace cp) (CP.UID cp) managedByControlPlane) w
    = (Ok sas, w1) ->
  1 < List.length sas ->
  h _ (ReduceServiceAccounts sas) w1 = (e, w2) ->
  run h (ensureServiceAccount cp) w =
  ((false, None, Some (reducedError "serviceAccounts" e)), w2,
   [MkCall (ListServiceAccountsForOwner (CP.Namespace cp) (CP.UID cp) managedByControlPlane);
    MkCall (ReduceServiceAccounts sas)]).
Proof. intros Hlist Hlen Hred. unfold ensureServiceAccount. reduced Hlist Hlen Hred. Qed.

Lemma ensureClusterRole_reduces h (cp : CP.t) (generatedClusterRole : ClusterRole.t)
    (crs : list ClusterRole.t) (e : option error) (w w1 w2 : W) :
  h _ (ListClusterRoles (GetManagedByLabelSet cp)) w = (Ok crs, w1) ->
  1 < List.length crs ->
  h _ (ReduceClusterRoles crs) w1 = (e, w2) ->
  run h (ensureClusterRole cp generatedClusterRole) w =
  ((false, None, Some (reducedError "clusterRoles" e)), w2,
   [MkCall (ListClusterRoles (GetManagedByLabelSet cp)); MkCall (ReduceClusterRoles crs)]).
Proof. intros Hlist Hlen Hred. unfold ensureClusterRole. reduced Hlist Hlen Hred. Qed.

Lemma ensureRoleBinding_reduces h (cp : CP.t) (serviceAccountName : string)
    (roleNN : ObjectKey.t) (rbs : list RoleBinding.t) (e : option error) (w w1 w2 : W) :
  h _ (ListRoleBindings (GetManagedByLabelSet cp) (ObjectKey.Namespace roleNN)) w
    = (Ok rbs, w1) ->
  1 < List.length rbs ->
  h _ (ReduceRoleBindings rbs) w1 = (e, w2) ->
  run h (ensureRoleBinding cp serviceAccountName roleNN) w =
  ((Noop, None, Some (reducedError "roleBindings" e)), w2,
   [MkCall (ListRoleBindings (GetManagedByLabelSet cp) (ObjectKey.Namespace roleNN));
    MkCall (ReduceRoleBindings rbs)]).
Proof. intros Hlist Hlen Hred. unfold ensureRoleBinding. reduced Hlist Hlen Hred. Qed.

Lemma ensureClusterRoleBinding_reduces h (cp : CP.t) (serviceAccountName clusterRoleName : string)
    (crbs : list ClusterRoleBinding.t) (e : option error) (w w1 w2 : W) :
  h _ (ListClusterRoleBindings (GetManagedByLabelSet cp)) w = (Ok crbs, w1) ->
  1 < List.length crbs ->
  h _ (ReduceClusterRoleBindings crbs) w1 = (e, w2) ->
  run h (ensureClusterRoleBinding cp serviceAccountName clusterRoleName) w =
  ((false, None, Some (reducedError "clusterRoleBindings" e)), w2,
   [MkCall (ListClusterRoleBindings (GetManagedByLabelSet cp));
    MkCall (ReduceClusterRoleBindings crbs)]).
Proof. intros Hlist Hlen Hred. unfold ensureClusterRoleBinding. reduced Hlist Hlen Hred. Qed.

Lemma ensureAdmissionWebhookService_reduces h (cp : CP.t)
    (svcs : list Service.t) (e : option error) (w w1 w2 w3 : W) :
  h _ (ListServicesForOwner (CP.Namespace cp) (CP.UID cp) (webhookServiceLabels cp)) w
    = (Ok svcs, w1) ->
  h _ (IsAdmissionWebhookEnabled cp) w1 = (true, w2) ->
  1 < List.length svcs ->
  h _ (ReduceServices svcs) w2 = (e, w3) ->
  run h (ensureAdmissionWebhookService cp) w =
  ((Noop, None, Some (reducedError "ControlPlane admission webhook Services" e)), w3,
   [MkCall (ListServicesForOwner (CP.Namespace cp) (CP.UID cp) (webhookServiceLabels cp));
    MkCall (IsAdmissionWebhookEnabled cp);
    MkCall (ReduceServices svcs)]).
Proof.
  intros Hlist Hen Hlen Hred. unfold ensureAdmissionWebhookService.
  erewrite run_call_bind by exact Hlist. cbv beta iota zeta.
  erewrite run_call_bind by exact Hen. cbv beta iota zeta. cbn [negb].
  rewrite (proj2 (Nat.ltb_lt _ _) Hlen).
  erewrite run_call_bind by exact Hred.
  destruct e; reflexivity.
Qed.

(** With the admission webhook disabled, every owned webhook Service is
    deleted, however many there are. *)
Lemma ensureAdmissionWebhookService_disabled h (cp : CP.t)
    (svc0 : Service.t) (svcs : list Service.t) (w w1 w2 w3 : W) :
  h _ (ListServicesForOwner (CP.Namespace cp) (CP.UID cp) (webhookServiceLabels cp)) w
    = (Ok (svc0 :: svcs), w1) ->
  h _ (IsAdmissionWebhookEnabled cp) w1 = (false, w2) ->
  h _ (DeleteAll (map ServiceObj (svc0 :: svcs))) w2 = (None, w3) ->
  run h (ensureAdmissionWebhookService cp) w =
  ((Deleted, None, None), w3,
   [MkCall (ListServicesForOwner (CP.Namespace cp) (CP.UID cp) (webhookServiceLabels cp));
    MkCall (IsAdmissionWebhookEnabled cp);
    MkCall (DeleteAll (map ServiceObj (svc0 :: svcs)))]).
Proof.
  intros Hlist Hen Hdel. unfold ensureAdmissionWebhookService.
  erewrite run_call_bind by exact Hlist. cbv beta iota zeta.
  erewrite run_call_bind by exact Hen. cbv beta iota zeta. cbn [negb].
  erewrite run_call_bind by exact Hdel. reflexivity.
Qed.

(** C4, as amended.  When the listing of the owned Deployments,
    ServiceAccounts, ClusterRoles, RoleBindings or ClusterRoleBindings of a
    control plane answers with more than one object, and when the listing of
    its admission webhook Services does so while the admission webhook is
    enabled, the function calls the reduction of that kind on the listed
    objects and nothing after it: no create, no update, no patch.  It returns
    [Noop] (or [false]), no object, and an error: the error of the reduction
    if it failed, and otherwise the error that says the number of objects was
    reduced, on which the pass is run again. *)
Theorem duplicates_reduce_and_requeue h :
  (forall r params ds e (w w1 w2 : W),
     h _ (ListDeploymentsForOwner
            (CP.Namespace (ensureDeploymentParams.ControlPlane params))
            (CP.UID (ensureDeploymentParams.ControlPlane params))
            managedByControlPlane) w = (Ok ds, w1) ->
     1 < List.length ds ->
     h _ (ReduceDeployments ds) w1 = (e, w2) ->
     run h (ensureDeployment r params) w =
     ((Noop, None, Some (reducedError "deployments" e)), w2,
      [MkCall (ListDeploymentsForOwner
                 (CP.Namespace (ensureDeploymentParams.ControlPlane params))
                 (CP.UID (ensureDeploymentParams.ControlPlane params))
                 managedByControlPlane);
       MkCall (ReduceDeployments ds)])) /\
  (forall cp sas e (w w1 w2 : W),
     h _ (ListServiceAccountsForOwner (CP.Namespace cp) (CP.UID cp) managedByControlPlane) w
       = (Ok sas, w1) ->
     1 < List.length sas ->
     h _ (ReduceServiceAccounts sas) w1 = (e, w2) ->
     run h (ensureServiceAccount cp) w =
     ((false, None, Some (reducedError "serviceAccounts" e)), w2,
      [MkCall (ListServiceAccountsForOwner (CP.Namespace cp) (CP.UID cp)
                 managedByControlPlane);
       MkCall (ReduceServiceAccounts sas)])) /\
  (forall cp generatedClusterRole crs e (w w1 w2 : W),
     h _ (ListClusterRoles (GetManagedByLabelSet cp)) w = (Ok crs, w1) ->
     1 < List.length crs ->
     h _ (ReduceClusterRoles crs) w1 = (e, w2) ->
     run h (ensureClusterRole cp generatedClusterRole) w =
     ((false, None, Some (reducedError "clusterRoles" e)), w2,
      [MkCall (ListClusterRoles (GetManagedByLabelSet cp));
       MkCall (ReduceClusterRoles crs)])) /\
  (forall cp serviceAccountName roleNN rbs e (w w1 w2 : W),
     h _ (ListRoleBindings (GetManagedByLabelSet cp) (ObjectKey.Namespace roleNN)) w
       = (Ok rbs, w1) ->
     1 < List.length rbs ->
     h _ (ReduceRoleBindings rbs) w1 = (e, w2) ->
     run h (ensureRoleBinding cp serviceAccountName roleNN) w =
     ((Noop, None, Some (reducedError "roleBindings" e)), w2,
      [MkCall (ListRoleBindings (GetManagedByLabelSet cp) (ObjectKey.Namespace roleNN));
       MkCall (ReduceRoleBindings rbs)])) /\
  (forall cp serviceAccountName clusterRoleName crbs e (w w1 w2 : W),
     h _ (ListClusterRoleBindings (GetManagedByLabelSet cp)) w = (Ok crbs, w1) ->
     1 < List.length crbs ->
     h _ (ReduceClusterRoleBindings crbs) w1 = (e, w2) ->
     run h (ensureClusterRoleBinding cp serviceAccountName clusterRoleName) w =
     ((false, None, Some (reducedError "clusterRoleBindings" e)), w2,
      [MkCall (ListClusterRoleBindings (GetManagedByLabelSet cp));
       MkCall (ReduceClusterRoleBindings crbs)])) /\
  (forall cp svcs e (w w1 w2 w3 : W),
     h _ (ListServicesForOwner (CP.Namespace cp) (CP.UID cp) (webhookServiceLabels cp)) w
       = (Ok svcs, w1) ->
     h _ (IsAdmissionWebhookEnabled cp) w1 = (true, w2) ->
     1 < List.length svcs ->
     h _ (ReduceServices svcs) w2 = (e, w3) ->
     run h (ensureAdmissionWebhookService cp) w =
     ((Noop, None, Some (reducedError "ControlPlane admission webhook Services" e)), w3,
      [MkCall (ListServicesForOwner (CP.Namespace cp) (CP.UID cp) (webhookServiceLabels cp));
       MkCall (IsAdmissionWebhookEnabled cp);
       MkCall (ReduceServices svcs)])).
Proof.
  repeat split; intros.
  - now apply ensureDeployment_reduces with (w1 := w1).
  - now apply ensureServiceAccount_reduces with (w1 := w1).
  - now apply ensureClusterRole_reduces with (w1 := w1).
  - now apply ensureRoleBinding_reduces with (w1 := w1).
  - now apply ensureClusterRoleBinding_reduces with (w1 := w1).
  - now apply ensureAdmissionWebhookService_reduces with (w1 := w1) (w2 := w2).
Qed.

End WithDeps.

#[local] Existing Instance ControlPlaneExamples.deps.

(** C4, the part that fails: two admission webhook Services exist and the
    admission webhook is disabled; the pass deletes both, reduces nothing and
    returns [Deleted] with no error. *)
Lemma ensureAdmissionWebhookService_deletes_duplicates :
  run ControlPlaneExamples.handler
    (ensureAdmissionWebhookService (ControlPlaneExamples.controlPlane None None None))
    (ControlPlaneExamples.clusterTwoServices false)
  = ((Deleted, None, None),
     ControlPlaneExamples.emptyCluster,
     [MkCall (ListServicesForOwner "default" "uid-1"
                (webhookServiceLabels (ControlPlaneExamples.controlPlane None None None)));
      MkCall (IsAdmissionWebhookEnabled (ControlPlaneExamples.controlPlane None None None));
      MkCall (DeleteAll
                [ServiceObj (ControlPlaneExamples.svc "webhook-a");
                 ServiceObj (ControlPlaneExamples.svc "webhook-b")])]).
Proof. reflexivity. Qed.

(** C4 as amended, on a cluster with two Deployments and on one with two
    webhook Services and the admission webhook enabled. *)
Lemma duplicates_reduce_and_requeue_witness :
  value ControlPlaneExamples.handler
    (ensureDeployment ControlPlaneExamples.recon
       (ControlPlaneExamples.params
          (ControlPlaneExamples.controlPlane (Some 2%Z) (Some "dp") None) false))
    ControlPlaneExamples.clusterTwoDeployments
  = (Noop, None, Some (ErrorString "number of deployments reduced")) /\
  value ControlPlaneExamples.handler
    (ensureAdmissionWebhookService (ControlPlaneExamples.controlPlane None None None))
    (ControlPlaneExamples.clusterTwoServices true)
  = (Noop, None,
     Some (ErrorString "number of ControlPlane admission webhook Services reduced")).
Proof.
  destruct (duplicates_reduce_and_requeue ControlPlaneExamples.handler)
    as (Hdeployments & _ & _ & _ & _ & Hservices).
  unfold value. split.
  - rewrite (Hdeployments ControlPlaneExamples.recon
               (ControlPlaneExamples.params
                  (ControlPlaneExamples.controlPlane (Some 2%Z) (Some "dp") None) false)
               [ControlPlaneExamples.depA; ControlPlaneExamples.depB] None
               ControlPlaneExamples.clusterTwoDeployments
               ControlPlaneExamples.clusterTwoDeployments
               (ControlPlaneExamples.withDeployments
                  ControlPlaneExamples.clusterTwoDeployments [ControlPlaneExamples.depA])
               eq_refl ltac:(simpl; lia) eq_refl).
    reflexivity.
  - rewrite (Hservices (ControlPlaneExamples.controlPlane None None None)
               [ControlPlaneExamples.svc "webhook-a"; ControlPlaneExamples.svc "webhook-b"]
               None
               (ControlPlaneExamples.clusterTwoServices true)
               (ControlPlaneExamples.clusterTwoServices true)
               (ControlPlaneExamples.clusterTwoServices true)
               (ControlPlaneExamples.withServices
                  (ControlPlaneExamples.clusterTwoServices true)
                  [ControlPlaneExamples.svc "webhook-a"])
               eq_refl eq_refl ltac:(simpl; lia) eq_refl).
    reflexivity.
Defined.

End OwnedSetFacts.

(* ------------------------------------------------------------------------- *)
(** ** The replicas of the control-plane Deployment *)
(* ------------------------------------------------------------------------- *)

Module ReplicasFacts.
Import Go K8s Prog ControlPlane ProgFacts.
Local Open Scope string_scope.

Lemma optionZ_eqb_eq (a b : option Z) : optionZ_eqb a b = true <-> a = b.
Proof.
  destruct a as [x|], b as [y|]; simpl; try (split; congruence).
  rewrite Z.eqb_eq. split; congruence.
Qed.

Section WithDeps.
Context {deps : Deps}.

(** Without data plane and with a declared count that is nil or not zero,
    the Deployment is scaled to zero, and [updated] is raised if that changes
    it. *)
Lemma ensureReplicas_unset (replicas : option Z) (d : Deployment.t) (updated : bool) :
  replicas <> Some 0%Z ->
  Deployment.Replicas (fst (ensureReplicas false replicas d updated)) = Some 0%Z /\
  (Deployment.Replicas d <> Some 0%Z -> snd (ensureReplicas false replicas d updated) = true).
Proof.
  intros Hdecl. unfold ensureReplicas, numReplicasWhenNoDataPlane.
  assert (Hguard : (match replicas with None => true | Some _ => false end
                    || match replicas with Some n => negb (Z.eqb n 0) | None => false end)
                   = true).
  { destruct replicas as [n|]; [|reflexivity]. simpl.
    destruct (Z.eqb_spec n 0); [congruence | reflexivity]. }
  cbn [negb andb]. rewrite Hguard.
  destruct (optionZ_eqb (Deployment.Replicas d) (Some 0%Z)) eqn:E; simpl.
  - apply optionZ_eqb_eq in E. split; [exact E | congruence].
  - split; [reflexivity | trivial].
Qed.

(** With a data plane and a declared count that is not nil and not zero, the
    Deployment is scaled to the declared count, and [updated] is raised if
    that changes it. *)
Lemma ensureReplicas_set (n : Z) (d : Deployment.t) (updated : bool) :
  n <> 0%Z ->
  Deployment.Replicas (fst (ensureReplicas true (Some n) d updated)) = Some n /\
  (Deployment.Replicas d <> Some n -> snd (ensureReplicas true (Some n) d updated) = true).
Proof.
  intros Hn. unfold ensureReplicas, numReplicasWhenNoDataPlane. cbn [negb andb orb].
  destruct (Z.eqb_spec n 0) as [|_]; [contradiction|]. cbn [negb].
  destruct (optionZ_eqb (Deployment.Replicas d) (Some n)) eqn:E; simpl.
  - apply optionZ_eqb_eq in E. split; [exact E | congruence].
  - split; [reflexivity | trivial].
Qed.

Lemma reconcileDeployment_unset (replicas : option Z) (generated existing : Deployment.t) :
  replicas <> Some 0%Z ->
  Deployment.Replicas (fst (reconcileDeployment false replicas generated existing)) = Some 0%Z /\
  (Deployment.Replicas existing <> Some 0%Z ->
   snd (reconcileDeployment false replicas generated existing) = true).
Proof.
  intros Hdecl. unfold reconcileDeployment.
  destruct (EnsureObjectMetaIsUpdated _ _) as [updated meta].
  destruct (negb (ResourceRequirementsEqualTemplates _ _));
  match goal with
  | |- context [ensureReplicas false replicas ?d ?u] =>
      exact (ensureReplicas_unset d u Hdecl)
  end.
Qed.

Lemma reconcileDeployment_set (n : Z) (generated existing : Deployment.t) :
  n <> 0%Z ->
  Deployment.Replicas (fst (reconcileDeployment true (Some n) generated existing)) = Some n /\
  (Deployment.Replicas existing <> Some n ->
   snd (reconcileDeployment true (Some n) generated existing) = true).
Proof.
  intros Hn. unfold reconcileDeployment.
  destruct (EnsureObjectMetaIsUpdated _ _) as [updated meta].
  destruct (negb (ResourceRequirementsEqualTemplates _ _));
  match goal with
  | |- context [ensureReplicas true (Some n) ?d ?u] =>
      exact (ensureReplicas_set d u Hn)
  end.
Qed.

(** C1, as amended.  Let the listing of the owned Deployments succeed and
    the image and the Deployment be generated.
    - One Deployment exists, [EnforceConfig] is false and the spec hash
      matches: the function returns that Deployment as it is and makes no
      further call; the replicas are not looked at.
    - One Deployment exists and [EnforceConfig] is true or the spec hash does
      not match: the function submits one patch.  Without data plane and with
      a declared count that is nil or not zero, the submitted Deployment has
      zero replicas; with a data plane and a declared count that is not nil
      and not zero, it has the declared count; in both cases [updated] is
      raised when this changes the count.
    - No Deployment exists: the function creates one, with zero replicas when
      there is no data plane and as generated otherwise. *)
Theorem ensureDeployment_replicas W (h : Handler ClientE W) (w w1 : W)
    (r : Reconciler.t) (params : ensureDeploymentParams.t)
    (ds : list Deployment.t) (img : string) (generated : Deployment.t) :
  let cp := ensureDeploymentParams.ControlPlane params in
  let spec := CP.Spec cp in
  let listing := ListDeploymentsForOwner (CP.Namespace cp) (CP.UID cp) managedByControlPlane in
  h _ listing w = (Ok ds, w1) ->
  GenerateImage spec (versionValidationOptions r) = Ok img ->
  GenerateNewDeploymentForControlPlane (generateParams params img) = Ok generated ->
  (forall existing,
     ds = [existing] ->
     ensureDeploymentParams.EnforceConfig params = false ->
     SpecHashMatchesAnnotation spec existing = Ok true ->
     run h (ensureDeployment r params) w
     = ((Noop, Some existing, None), w1, [MkCall listing])) /\
  (forall existing,
     ds = [existing] ->
     ensureDeploymentParams.EnforceConfig params = true \/
     SpecHashMatchesAnnotation spec existing = Ok false ->
     let submitted :=
       reconcileDeployment (dataplaneIsSet spec) (ControlPlaneSpec.Replicas spec)
         generated existing in
     let patch := ApplyPatchIfNotEmpty (fst submitted) existing (snd submitted) in
     calls h (ensureDeployment r params) w = [MkCall listing; MkCall patch] /\
     value h (ensureDeployment r params) w = fst (h _ patch w1) /\
     (dataplaneIsSet spec = false ->
      ControlPlaneSpec.Replicas spec <> Some 0%Z ->
      Deployment.Replicas (fst submitted) = Some 0%Z /\
      (Deployment.Replicas existing <> Some 0%Z -> snd submitted = true)) /\
     (forall n,
        dataplaneIsSet spec = true ->
        ControlPlaneSpec.Replicas spec = Some n ->
        n <> 0%Z ->
        Deployment.Replicas (fst submitted) = Some n /\
        (Deployment.Replicas existing <> Some n -> snd submitted = true))) /\
  (ds = [] ->
   calls h (ensureDeployment r params) w
   = [MkCall listing; MkCall (Create (DeploymentObj (created spec generated)))] /\
   (dataplaneIsSet spec = false ->
    Deployment.Replicas (created spec generated) = Some 0%Z) /\
   (dataplaneIsSet spec = true -> created spec generated = generated)).
Proof.
  intros cp spec listing Hlist Himg Hgen.
  assert (Hupdate : forall existing,
            run h (updateDeployment (dataplaneIsSet spec) (ControlPlaneSpec.Replicas spec)
                     generated existing) w1 =
            let submitted :=
              reconcileDeployment (dataplaneIsSet spec) (ControlPlaneSpec.Replicas spec)
                generated existing in
            let patch := ApplyPatchIfNotEmpty (fst submitted) existing (snd submitted) in
            (fst (h _ patch w1), snd (h _ patch w1), [MkCall patch])).
  { intros existing. unfold updateDeployment.
    destruct (reconcileDeployment _ _ generated existing) as [d' updated].
    apply run_call. }
  split; [|split].
  - intros existing -> Henf Hhash. unfold ensureDeployment.
    erewrite run_call_bind by exact Hlist. cbv beta iota zeta.
    fold cp. fold spec. cbn [List.length Nat.ltb Nat.leb Nat.eqb].
    rewrite Himg, Hgen, Henf. cbn [negb]. rewrite Hhash. reflexivity.
  - intros existing -> Hopen submitted patch.
    assert (Hrun : run h (ensureDeployment r params) w =
                   (fst (h _ patch w1), snd (h _ patch w1), [MkCall listing; MkCall patch])).
    { unfold ensureDeployment.
      erewrite run_call_bind by exact Hlist. cbv beta iota zeta.
      fold cp. fold spec. cbn [List.length Nat.ltb Nat.leb Nat.eqb].
      rewrite Himg, Hgen.
      destruct Hopen as [Henf | Hhash].
      - rewrite Henf. cbn [negb]. rewrite Hupdate. reflexivity.
      - destruct (ensureDeploymentParams.EnforceConfig params); cbn [negb];
          [|rewrite Hhash]; rewrite Hupdate; reflexivity. }
    unfold calls, value. rewrite Hrun.
    split; [reflexivity | split; [reflexivity | split]].
    + intros Hd Hr. subst submitted. rewrite Hd. now apply reconcileDeployment_unset.
    + intros n Hd Hr Hn. subst submitted. rewrite Hd, Hr.
      now apply reconcileDeployment_set.
  - intros ->. unfold calls, created. split; [|split].
    + unfold ensureDeployment.
      erewrite run_call_bind by exact Hlist. cbv beta iota zeta.
      fold cp. fold spec. cbn [List.length Nat.ltb Nat.leb Nat.eqb].
      rewrite Himg, Hgen. cbv beta iota zeta.
      match goal with
      | |- context [Create ?o] =>
          destruct (h _ (Create o) w1) as [[err|] w2] eqn:Hc
      end;
        (erewrite run_call_bind by exact Hc); reflexivity.
    + intros ->. reflexivity.
    + intros ->. reflexivity.
Qed.

End WithDeps.

#[local] Existing Instance ControlPlaneExamples.deps.

(** C1, the part that fails: the control plane has no data plane, its
    Deployment runs three replicas and carries the hash of the present spec,
    and [EnforceConfig] is false.  The pass returns the Deployment as it is,
    with its three replicas, after the listing and no other call. *)
Lemma ensureDeployment_hash_match_keeps_replicas :
  dataplaneIsSet (CP.Spec ControlPlaneExamples.cpDormant) = false /\
  run ControlPlaneExamples.handler
    (ensureDeployment ControlPlaneExamples.recon
       (ControlPlaneExamples.params ControlPlaneExamples.cpDormant false))
    ControlPlaneExamples.clusterScaled
  = ((Noop, Some ControlPlaneExamples.depScaled, None),
     ControlPlaneExamples.clusterScaled,
     [MkCall (ListDeploymentsForOwner "default" "uid-1" managedByControlPlane)]) /\
  Deployment.Replicas ControlPlaneExamples.depScaled = Some 3%Z.
Proof. repeat split. Qed.

(** C1 as amended, on a control plane whose data plane has just been set:
    the hash does not match and the patch scales the Deployment from zero to
    the two declared replicas. *)
Lemma ensureDeployment_replicas_witness :
  calls ControlPlaneExamples.handler
    (ensureDeployment ControlPlaneExamples.recon
       (ControlPlaneExamples.params ControlPlaneExamples.cpActive false))
    ControlPlaneExamples.clusterDormant
  = [MkCall (ListDeploymentsForOwner "default" "uid-1" managedByControlPlane);
     MkCall (ApplyPatchIfNotEmpty
               (Deployment_withReplicas ControlPlaneExamples.depDormant (Some 2%Z))
               ControlPlaneExamples.depDormant true)].
Proof.
  destruct (@ensureDeployment_replicas ControlPlaneExamples.deps _
              ControlPlaneExamples.handler
              ControlPlaneExamples.clusterDormant ControlPlaneExamples.clusterDormant
              ControlPlaneExamples.recon
              (ControlPlaneExamples.params ControlPlaneExamples.cpActive false)
              [ControlPlaneExamples.depDormant] _ _
              eq_refl eq_refl eq_refl) as (_ & Hopen & _).
  destruct (Hopen ControlPlaneExamples.depDormant eq_refl (or_intror eq_refl))
    as (Hcalls & _).
  rewrite Hcalls. reflexivity.
Defined.

End ReplicasFacts.

(* ------------------------------------------------------------------------- *)
(** ** [processClusterRole] *)
(* ------------------------------------------------------------------------- *)

Module ProcessClusterRoleFacts.
Import Go K8s ControlPlane.
Local Open Scope string_scope.
Local Open Scope list_scope.

Lemma sameButResources_with (a b : PolicyRule.t) (rs : list string) :
  sameButResources a b -> sameButResources (PolicyRule_withResources a rs) b.
Proof. intros H rs'. exact (H rs'). Qed.

(** The loop over the resources of a rule, when discovery knows them all. *)
Lemma resources_known (gvl : APIResourceListMapping) (apiGroup : string)
    (rule : PolicyRule.t) (rs : list string) (st : Split.t) :
  (forall resource, In resource rs -> findAPIResource gvl apiGroup resource <> None) ->
  sameButResources (Split.rule st) rule ->
  exists rule',
    sameButResources rule' rule /\
    fold_left (resourceStep gvl apiGroup) rs st =
    Split.mk rule'
      (Split.rolePolicyRules st ++
       map (fun resource => PolicyRule_withResources rule [resource])
         (filter (hasScope gvl apiGroup true) rs))
      (Split.clusterRolePolicyRules st ++
       map (fun resource => PolicyRule_withResources rule [resource])
         (filter (hasScope gvl apiGroup false) rs)).
Proof.
  revert st. induction rs as [|res rs IH]; intros st Hknown Hsame.
  - exists (Split.rule st). split; [exact Hsame|]. simpl. rewrite !app_nil_r.
    destruct st; reflexivity.
  - destruct (findAPIResource gvl apiGroup res) as [apires|] eqn:Hfind.
    2: { exfalso. apply (Hknown res); [now left | exact Hfind]. }
    assert (Hstep : resourceStep gvl apiGroup st res =
                    let rule1 := PolicyRule_withResources (Split.rule st) [res] in
                    if APIResource.Namespaced apires
                    then Split.mk rule1 (Split.rolePolicyRules st ++ [rule1])
                           (Split.clusterRolePolicyRules st)
                    else Split.mk rule1 (Split.rolePolicyRules st)
                           (Split.clusterRolePolicyRules st ++ [rule1])).
    { unfold resourceStep. now rewrite Hfind. }
    assert (Htrue : hasScope gvl apiGroup true res = APIResource.Namespaced apires).
    { unfold hasScope. rewrite Hfind. now destruct (APIResource.Namespaced apires). }
    assert (Hfalse : hasScope gvl apiGroup false res = negb (APIResource.Namespaced apires)).
    { unfold hasScope. rewrite Hfind. now destruct (APIResource.Namespaced apires). }
    cbn [fold_left filter]. rewrite Hstep, Htrue, Hfalse. cbv zeta.
    destruct (APIResource.Namespaced apires); cbn [negb map].
    + edestruct (IH (Split.mk (PolicyRule_withResources (Split.rule st) [res])
                       (Split.rolePolicyRules st
                          ++ [PolicyRule_withResources (Split.rule st) [res]])
                       (Split.clusterRolePolicyRules st)))
        as (rule' & Hsame' & ->).
      * intros r Hr. apply Hknown. now right.
      * now apply sameButResources_with.
      * exists rule'. split; [exact Hsame'|]. cbn [Split.rolePolicyRules
          Split.clusterRolePolicyRules]. rewrite (Hsame [res]), <- app_assoc. reflexivity.
    + edestruct (IH (Split.mk (PolicyRule_withResources (Split.rule st) [res])
                       (Split.rolePolicyRules st)
                       (Split.clusterRolePolicyRules st
                          ++ [PolicyRule_withResources (Split.rule st) [res]])))
        as (rule' & Hsame' & ->).
      * intros r Hr. apply Hknown. now right.
      * now apply sameButResources_with.
      * exists rule'. split; [exact Hsame'|]. cbn [Split.rolePolicyRules
          Split.clusterRolePolicyRules]. rewrite (Hsame [res]), <- app_assoc. reflexivity.
Qed.

Lemma ruleStep_known (gvl : APIResourceListMapping) (rule : PolicyRule.t)
    (acc : list PolicyRule.t * list PolicyRule.t) :
  KnownRule gvl rule ->
  ruleStep gvl acc rule = (fst acc ++ singles gvl true rule, snd acc ++ singles gvl false rule).
Proof.
  intros (apiGroup & Hgroups & Hknown). unfold ruleStep, singles. rewrite Hgroups.
  cbn [fold_left]. unfold apiGroupStep. cbn [Split.rule].
  destruct (@resources_known gvl apiGroup rule (PolicyRule.Resources rule)
              (Split.mk rule (fst acc) (snd acc)) Hknown (fun rs => eq_refl))
    as (rule' & _ & ->).
  reflexivity.
Qed.

Lemma rules_known (gvl : APIResourceListMapping) (rules : list PolicyRule.t)
    (acc : list PolicyRule.t * list PolicyRule.t) :
  (forall rule, In rule rules -> KnownRule gvl rule) ->
  fold_left (ruleStep gvl) rules acc =
  (fst acc ++ flat_map (singles gvl true) rules,
   snd acc ++ flat_map (singles gvl false) rules).
Proof.
  revert acc. induction rules as [|rule rules IH]; intros acc Hall.
  - simpl. rewrite !app_nil_r. destruct acc; reflexivity.
  - cbn [fold_left flat_map]. rewrite ruleStep_known by (apply Hall; now left).
    rewrite IH by (intros r Hr; apply Hall; now right).
    cbn [fst snd]. now rewrite <- !app_assoc.
Qed.

(** When every rule has one API group and discovery knows every resource,
    the split is exact: one single-resource rule for each resource, in the
    Role set when discovery marks it namespaced and in the ClusterRole set
    when discovery marks it cluster-scoped. *)
Lemma processClusterRole_known (generated : ClusterRole.t) (gvl : APIResourceListMapping) :
  (forall rule, In rule (ClusterRole.Rules generated) -> KnownRule gvl rule) ->
  processClusterRole generated gvl =
  (flat_map (singles gvl true) (ClusterRole.Rules generated),
   flat_map (singles gvl false) (ClusterRole.Rules generated)).
Proof. intros Hall. unfold processClusterRole. now rewrite rules_known. Qed.

(** C2, where the code departs from it.
    - A rule names [widgets], which discovery does not know, before
      [configmaps]: the rule emitted for [widgets] is the whole rule, so the
      ClusterRole set holds a rule with two resources, one of them the
      namespaced [configmaps].
    - A rule names [configmaps] before [widgets]: the rule emitted for
      [widgets] is the copy that was restricted to [configmaps], so [widgets]
      is in neither set and the resources of the two sets are not those of
      the input.
    - A rule over two API groups names [a] and [b]: the loop for the second
      group runs over the resources left by the first, [b] alone, so three
      rules are emitted for four pairs. *)
Theorem processClusterRole_split_not_exact :
  processClusterRole
    (ControlPlaneExamples.clusterRoleWith [ControlPlaneExamples.ruleOn ["widgets"; "configmaps"]])
    ControlPlaneExamples.coreV1
  = ([ControlPlaneExamples.ruleOn ["configmaps"]],
     [ControlPlaneExamples.ruleOn ["widgets"; "configmaps"]]) /\
  (let out :=
     processClusterRole
       (ControlPlaneExamples.clusterRoleWith
          [ControlPlaneExamples.ruleOn ["configmaps"; "widgets"]])
       ControlPlaneExamples.coreV1 in
   resourcesOf (fst out) = ["configmaps"] /\ resourcesOf (snd out) = ["configmaps"]) /\
  processClusterRole
    (ControlPlaneExamples.clusterRoleWith [ControlPlaneExamples.ruleOnGroups ["a"; "b"]])
    ControlPlaneExamples.twoGroups
  = ([ControlPlaneExamples.ruleOnGroups ["a"];
      ControlPlaneExamples.ruleOnGroups ["b"];
      ControlPlaneExamples.ruleOnGroups ["b"]],
     []).
Proof. repeat split. Qed.

(** C3, where the code departs from it: discovery does not know [widgets],
    the rule names it after [configmaps], and no rule of either set names
    [widgets]; the ClusterRole set receives a second rule for [configmaps]
    in its place. *)
Theorem processClusterRole_drops_unknown_resource :
  findAPIResource ControlPlaneExamples.coreV1 EmptyString "widgets" = None /\
  processClusterRole
    (ControlPlaneExamples.clusterRoleWith [ControlPlaneExamples.ruleOn ["configmaps"; "widgets"]])
    ControlPlaneExamples.coreV1
  = ([ControlPlaneExamples.ruleOn ["configmaps"]],
     [ControlPlaneExamples.ruleOn ["configmaps"]]) /\
  ~ In "widgets"
      (resourcesOf
         (snd (processClusterRole
                 (ControlPlaneExamples.clusterRoleWith
                    [ControlPlaneExamples.ruleOn ["configmaps"; "widgets"]])
                 ControlPlaneExamples.coreV1))).
Proof.
  split; [reflexivity | split; [reflexivity|]].
  simpl. intros [H | []]. discriminate H.
Qed.

End ProcessClusterRoleFacts.

(* ------------------------------------------------------------------------- *)
(** ** [sanitizeCert] and line endings *)
(* ------------------------------------------------------------------------- *)

Module LineEndingFacts.
Import GoStrings GoStringsFacts.
Import Konnect Notions.
Local Open Scope string_scope.

Lemma toCRLF_append (a b : string) : toCRLF (a ++ b) = toCRLF a ++ toCRLF b.
Proof.
  induction a as [|c a IH]; simpl; [reflexivity|].
  destruct (Ascii.eqb c LF); simpl; now rewrite IH.
Qed.

Lemma filterBytes_toCRLF (s : string) : filterBytes notCR (toCRLF s) = filterBytes notCR s.
Proof.
  induction s as [|c s IH]; simpl; [reflexivity|].
  destruct (Ascii.eqb c LF) eqn:E.
  - apply Ascii.eqb_eq in E. subst c. simpl. now rewrite IH.
  - simpl. now rewrite IH.
Qed.

(** A certificate written with CRLF line ends is sanitized to the same text
    as the certificate written with LF line ends. *)
Theorem sanitizeCert_toCRLF (cert : string) :
  sanitizeCert (toCRLF cert) = sanitizeCert cert.
Proof.
  unfold sanitizeCert. rewrite !ReplaceAll_CR.
  destruct (string_snoc_cases cert) as [-> | (a & c & ->)]; [reflexivity|].
  rewrite toCRLF_append. cbn [toCRLF].
  destruct (Ascii.eqb c LF) eqn:E.
  - apply Ascii.eqb_eq in E. subst c. fold LFs.
    rewrite (TrimSuffix_append a LFs).
    change (String CR LFs) with (CRs ++ LFs).
    rewrite <- append_assoc, (TrimSuffix_append (toCRLF a ++ CRs) LFs).
    rewrite filterBytes_append, filterBytes_toCRLF.
    change (filterBytes notCR CRs) with EmptyString.
    clear. induction (filterBytes notCR a) as [|x s IH]; simpl; [reflexivity | now rewrite IH].
  - rewrite !TrimSuffix_none by (unfold LFs; now rewrite HasSuffix_snoc).
    now rewrite !filterBytes_append, filterBytes_toCRLF.
Qed.

End LineEndingFacts.

(* ------------------------------------------------------------------------- *)
(** ** [validateWatchNamespaceGrants]: rejected specs and partial results *)
(* ------------------------------------------------------------------------- *)

Module WatchNamespaceEdgeFacts.
Import Go K8s Prog ControlPlane ProgFacts Notions.
Local Open Scope string_scope.

Section WithDeps.
Context {deps : Deps}.

Lemma elements_fold_append (A : Type) (l : list A) (s : slice A) :
  elements (fold_left append_slice l s) = (elements s ++ l)%list.
Proof.
  revert s. induction l as [|x l IH]; intros s; simpl.
  - now rewrite app_nil_r.
  - rewrite IH. destruct s as [l0|]; simpl; [now rewrite <- app_assoc | reflexivity].
Qed.

(** The loop over the listed namespaces, whatever the cluster answers: it
    either validates every namespace, or stops at one of them. *)
Lemma validateList_outcome W (h : Handler ClientE W) (cp : CP.t) (l : list string) :
  forall (nsList : slice string) (w w' : W) res err log,
    run h (validateList cp l nsList) w = ((res, err), w', log) ->
    (err = None /\
     res = Some (elements nsList ++ l ++ [CP.Namespace cp])%list /\
     log = map listingOf l) \/
    (exists pre ns post e,
       l = (pre ++ ns :: post)%list /\
       err = Some e /\
       NamesNamespace e ns (CP.Namespace cp) /\
       elements res = (elements nsList ++ pre)%list /\
       log = map listingOf (pre ++ [ns])).
Proof.
  induction l as [|ns rest IH]; intros nsList w w' res err log.
  - simpl. intros [= <- <- _ <-]. left. repeat split. now destruct nsList.
  - cbn [validateList]. rewrite run_bind.
    unfold ensureWatchNamespaceGrantsForNamespace at 1. simpl.
    destruct (h _ (ListWatchNamespaceGrants ns) w) as [[items | e] w1]; simpl.
    + destruct (hasMatchingGrant cp items); simpl.
      * destruct (run h (validateList cp rest (append_slice nsList ns)) w1)
          as [[[res1 err1] w2] log1] eqn:Hrest.
        intros [= <- <- _ <-].
        destruct (IH _ _ _ _ _ _ Hrest)
          as [(-> & -> & ->) | (pre & n & post & e & -> & -> & Hname & Hres & ->)].
        -- left. repeat split.
           destruct nsList as [l0|]; simpl; [now rewrite <- app_assoc | reflexivity].
        -- right. exists (ns :: pre), n, post, e. repeat split; trivial.
           rewrite Hres. destruct nsList as [l0|]; simpl;
             [now rewrite <- app_assoc | reflexivity].
      * intros [= <- <- _ <-]. right.
        exists [], ns, rest, (errGrantNotFound ns (CP.Namespace cp)).
        repeat split; [now left | now rewrite app_nil_r].
    + intros [= <- <- _ <-]. right.
      exists [], ns, rest, (errListingGrants ns e).
      repeat split; [right; now exists e | now rewrite app_nil_r].
Qed.

(** Whatever the cluster answers, and however its answers change during the
    pass, the validation in mode [List] either succeeds with every listed
    namespace followed by the own namespace, having listed the grants of each
    listed namespace once and in order, or fails at one listed namespace with
    an error that names it, returning exactly the namespaces before it and
    having listed no grants beyond it. *)
Theorem validateWatchNamespaceGrants_partial W (h : Handler ClientE W)
    (cp : CP.t) (wn : WatchNamespaces.t) (w w' : W)
    (res : slice string) (err : option error) (log : list (Call ClientE)) :
  ControlPlaneSpec.WatchNamespaces_ (CP.Spec cp) = Some wn ->
  WatchNamespaces.Type_ wn = WatchNamespacesTypeList ->
  run h (validateWatchNamespaceGrants cp) w = ((res, err), w', log) ->
  (err = None /\
   res = Some (WatchNamespaces.List_ wn ++ [CP.Namespace cp])%list /\
   log = map listingOf (WatchNamespaces.List_ wn)) \/
  (exists pre ns post e,
     WatchNamespaces.List_ wn = (pre ++ ns :: post)%list /\
     err = Some e /\
     NamesNamespace e ns (CP.Namespace cp) /\
     elements res = pre /\
     log = map listingOf (pre ++ [ns])).
Proof.
  intros Hwn Htype. unfold validateWatchNamespaceGrants. rewrite Hwn, Htype.
  cbn [String.eqb Ascii.eqb Bool.eqb WatchNamespacesTypeList
       WatchNamespacesTypeAll WatchNamespacesTypeOwn].
  intros Hrun. apply validateList_outcome in Hrun. exact Hrun.
Qed.

Lemma quoteBytes_plain (s : string) : plainText s = true -> GoStrings.quoteBytes s = s.
Proof.
  induction s as [|c s IH]; [reflexivity|].
  cbn [plainText GoStrings.quoteBytes]. intros H. apply andb_true_iff in H. destruct H as [H Hs].
  apply andb_true_iff in H. destruct H as [H Hbackslash].
  apply andb_true_iff in H. destruct H as [Hprintable Hquote].
  apply negb_true_iff in Hquote, Hbackslash.
  unfold GoStrings.quoteByte. cbv zeta. rewrite Hquote, Hbackslash, Hprintable.
  cbn [append]. now rewrite (IH Hs).
Qed.

(** A spec without watch namespaces, and one whose watch mode is none of
    [all], [own] and [list], are rejected before any call is made: no
    namespace is returned, the cluster is as it was, and the error is a plain
    error text.  For a mode made of printable bytes of ASCII other than the
    double quote and the backslash, that text is [unexpected
    watchNamespaces.type: ] followed by the mode between double quotes. *)
Theorem validateWatchNamespaceGrants_rejects W (h : Handler ClientE W) (cp : CP.t) (w : W) :
  (ControlPlaneSpec.WatchNamespaces_ (CP.Spec cp) = None ->
   run h (validateWatchNamespaceGrants cp) w =
   ((None, Some (ErrorString "spec.watchNamespaces cannot be empty")), w, [])) /\
  (forall wn,
     ControlPlaneSpec.WatchNamespaces_ (CP.Spec cp) = Some wn ->
     WatchNamespaces.Type_ wn <> "all" ->
     WatchNamespaces.Type_ wn <> "own" ->
     WatchNamespaces.Type_ wn <> "list" ->
     (exists text,
        run h (validateWatchNamespaceGrants cp) w = ((None, Some (ErrorString text)), w, [])) /\
     (plainText (WatchNamespaces.Type_ wn) = true ->
      run h (validateWatchNamespaceGrants cp) w =
      ((None,
        Some (ErrorString
                ("unexpected watchNamespaces.type: "
                   ++ String "034"%char
                        (WatchNamespaces.Type_ wn ++ String "034"%char EmptyString)))),
       w, []))).
Proof.
  unfold validateWatchNamespaceGrants. split.
  - intros ->. reflexivity.
  - intros wn -> Hall Hown Hlist.
    apply String.eqb_neq in Hall, Hown, Hlist.
    unfold WatchNamespacesTypeAll, WatchNamespacesTypeOwn, WatchNamespacesTypeList.
    rewrite Hall, Hown, Hlist. split.
    + eexists. reflexivity.
    + intros Hplain. unfold quoted, GoStrings.Quote. now rewrite (quoteBytes_plain _ Hplain).
Qed.

End WithDeps.

#[local] Existing Instance ControlPlaneExamples.deps.

(** The list [ns-a; ns-b; ns-c] with a grant in [ns-a] only: the pass fails
    at [ns-b], returns [ns-a] and never lists the grants of [ns-c]. *)
Lemma validateWatchNamespaceGrants_partial_witness :
  exists pre ns post e,
    ["ns-a"; "ns-b"; "ns-c"] = (pre ++ ns :: post)%list /\
    snd (value (ControlPlaneExamples.handlerWithGrants ControlPlaneExamples.grantsA)
           (validateWatchNamespaceGrants
              (ControlPlaneExamples.watching "list" ["ns-a"; "ns-b"; "ns-c"]))
           ControlPlaneExamples.emptyCluster) = Some e /\
    ns = "ns-b" /\
    NamesNamespace e ns "default" /\
    calls (ControlPlaneExamples.handlerWithGrants ControlPlaneExamples.grantsA)
      (validateWatchNamespaceGrants
         (ControlPlaneExamples.watching "list" ["ns-a"; "ns-b"; "ns-c"]))
      ControlPlaneExamples.emptyCluster = map listingOf (pre ++ [ns]).
Proof.
  destruct (@validateWatchNamespaceGrants_partial _
              (ControlPlaneExamples.handlerWithGrants ControlPlaneExamples.grantsA)
              (ControlPlaneExamples.watching "list" ["ns-a"; "ns-b"; "ns-c"])
              (WatchNamespaces.mk "list" ["ns-a"; "ns-b"; "ns-c"])
              ControlPlaneExamples.emptyCluster _ _ _ _ eq_refl eq_refl eq_refl)
    as [(Herr & _) | (pre & ns & post & e & Hl & Herr & Hname & _ & Hlog)].
  - discriminate Herr.
  - exists pre, ns, post, e. injection Herr as <-.
    assert (Hns : ns = "ns-b").
    { destruct pre as [|a [|b [|c pre]]]; simpl in Hlog.
      - discriminate Hlog.
      - now injection Hlog as _ <-.
      - discriminate Hlog.
      - discriminate Hlog. }
    repeat split; assumption.
Defined.

(** A control plane without watch namespaces and one with the mode
    [cluster]. *)
Lemma validateWatchNamespaceGrants_rejects_witness :
  value ControlPlaneExamples.handler
    (validateWatchNamespaceGrants (ControlPlaneExamples.controlPlane None None None))
    ControlPlaneExamples.emptyCluster
  = (None, Some (ErrorString "spec.watchNamespaces cannot be empty")) /\
  run ControlPlaneExamples.handler
    (validateWatchNamespaceGrants (ControlPlaneExamples.watching "cluster" ["ns-a"]))
    ControlPlaneExamples.emptyCluster
  = ((None,
      Some (ErrorString
              ("unexpected watchNamespaces.type: "
                 ++ String "034"%char ("cluster" ++ String "034"%char EmptyString)))),
     ControlPlaneExamples.emptyCluster, []).
Proof.
  destruct (@validateWatchNamespaceGrants_rejects _
              ControlPlaneExamples.handler
              (ControlPlaneExamples.controlPlane None None None)
              ControlPlaneExamples.emptyCluster) as [Hnil _].
  destruct (@validateWatchNamespaceGrants_rejects _
              ControlPlaneExamples.handler
              (ControlPlaneExamples.watching "cluster" ["ns-a"])
              ControlPlaneExamples.emptyCluster) as [_ Hmode].
  unfold value. split.
  - rewrite (Hnil eq_refl). reflexivity.
  - destruct (Hmode (WatchNamespaces.mk "cluster" ["ns-a"]) eq_refl) as [_ Hplain];
      [discriminate | discriminate | discriminate |].
    apply Hplain. reflexivity.
Defined.

End WatchNamespaceEdgeFacts.

(* ------------------------------------------------------------------------- *)
(** ** Owned objects: failures, creation, steady state, stale bindings *)
(* ------------------------------------------------------------------------- *)

Module OwnedObjectFacts.
Import Go K8s Prog ControlPlane ProgFacts Notions.
Local Open Scope string_scope.

(** Rewrites a call with its answer. *)
Ltac answered H := erewrite run_call_bind by exact H; cbv beta iota zeta.



Section WithDeps.
Context {deps : Deps}.
Context {W : Type}.
Implicit Type h : Handler ClientE W.

(** When the listing of the Deployments fails, or when at most one
    Deployment exists and the image or the manifest cannot be generated,
    [ensureDeployment] returns that error with [Noop] and makes no call after
    the listing: nothing is created or patched, also when the existing
    Deployment carries a matching hash. *)
Theorem ensureDeployment_fails_before_writing h (w w1 : W)
    (r : Reconciler.t) (params : ensureDeploymentParams.t) (e : error) :
  let cp := ensureDeploymentParams.ControlPlane params in
  (h _ (listDeployments cp) w = (Err e, w1) ->
   run h (ensureDeployment r params) w
   = ((Noop, None, Some e), w1, [MkCall (listDeployments cp)])) /\
  (forall ds,
     h _ (listDeployments cp) w = (Ok ds, w1) ->
     List.length ds <= 1 ->
     GenerateImage (CP.Spec cp) (versionValidationOptions r) = Err e \/
     (exists img,
        GenerateImage (CP.Spec cp) (versionValidationOptions r) = Ok img /\
        GenerateNewDeploymentForControlPlane (generateParams params img) = Err e) ->
     run h (ensureDeployment r params) w
     = ((Noop, None, Some e), w1, [MkCall (listDeployments cp)])).
Proof.
  intros cp. unfold listDeployments. split.
  - intros Hlist. unfold ensureDeployment. answered Hlist. reflexivity.
  - intros ds Hlist Hlen Hgen. unfold ensureDeployment. answered Hlist.
    fold cp. rewrite (proj2 (Nat.ltb_ge _ _) Hlen).
    destruct Hgen as [-> | (img & -> & ->)]; reflexivity.
Qed.

(** With no Deployment in the cluster and a generated manifest,
    [ensureDeployment] makes one create call.  If it succeeds the function
    returns [Created] with the created Deployment; if it fails the function
    returns [Noop], no Deployment, and the failure wrapped with the name of
    the Deployment. *)
Theorem ensureDeployment_create_outcome h (w w1 w2 : W)
    (r : Reconciler.t) (params : ensureDeploymentParams.t)
    (img : string) (generated : Deployment.t) (answer : option error) :
  let cp := ensureDeploymentParams.ControlPlane params in
  let d := created (CP.Spec cp) generated in
  h _ (listDeployments cp) w = (Ok [], w1) ->
  GenerateImage (CP.Spec cp) (versionValidationOptions r) = Ok img ->
  GenerateNewDeploymentForControlPlane (generateParams params img) = Ok generated ->
  h _ (Create (DeploymentObj d)) w1 = (answer, w2) ->
  run h (ensureDeployment r params) w =
  (match answer with
   | None => (Created, Some d, None)
   | Some err =>
       (Noop, None,
        Some (WrapError ("failed creating ControlPlane Deployment "
                           ++ ObjectMeta.Name (Deployment.Meta d) ++ ": ") err))
   end, w2, [MkCall (listDeployments cp); MkCall (Create (DeploymentObj d))]).
Proof.
  intros cp d Hlist Himg Hgen Hcreate. unfold ensureDeployment, listDeployments in *.
  answered Hlist. fold cp. cbn [List.length Nat.ltb Nat.leb Nat.eqb].
  rewrite Himg, Hgen. cbv beta iota zeta. fold (created (CP.Spec cp) generated). fold d.
  answered Hcreate. destruct answer; reflexivity.
Qed.

(** Steady state.  When exactly one ServiceAccount, RoleBinding or
    ClusterRoleBinding exists and it already is what the function wants (the
    metadata needs no update, and for a binding the role reference names the
    wanted role and the service account is among the subjects), the function
    makes no call after the listing: nothing is written, and the existing
    object is returned with [false] or [Noop] and no error. *)
Theorem owned_steady_state_writes_nothing h :
  (forall cp existing meta (w w1 : W),
     h _ (listServiceAccounts cp) w = (Ok [existing], w1) ->
     EnsureObjectMetaIsUpdated (ServiceAccount.Meta existing)
       (ServiceAccount.Meta (generatedServiceAccount cp)) = (false, meta) ->
     run h (ensureServiceAccount cp) w =
     ((false, Some (ServiceAccount.mk meta), None), w1,
      [MkCall (listServiceAccounts cp)])) /\
  (forall cp serviceAccountName roleNN existing meta (w w1 : W),
     h _ (ListRoleBindings (GetManagedByLabelSet cp) (ObjectKey.Namespace roleNN)) w
       = (Ok [existing], w1) ->
     CompareRoleName existing (ObjectKey.Name roleNN) = true ->
     EnsureObjectMetaIsUpdated (RoleBinding.Meta existing)
       (RoleBinding.Meta (generatedRoleBinding cp serviceAccountName roleNN)) = (false, meta) ->
     RoleBindingContainsServiceAccount
       (RoleBinding.mk meta (RoleBinding.Subjects existing) (RoleBinding.RoleRef_ existing))
       (CP.Namespace cp) serviceAccountName = true ->
     run h (ensureRoleBinding cp serviceAccountName roleNN) w =
     ((Noop,
       Some (RoleBinding.mk meta (RoleBinding.Subjects existing)
               (RoleBinding.RoleRef_ existing)), None), w1,
      [MkCall (ListRoleBindings (GetManagedByLabelSet cp) (ObjectKey.Namespace roleNN))])) /\
  (forall cp serviceAccountName clusterRoleName existing meta (w w1 : W),
     h _ (ListClusterRoleBindings (GetManagedByLabelSet cp)) w = (Ok [existing], w1) ->
     CompareClusterRoleName existing clusterRoleName = true ->
     EnsureObjectMetaIsUpdated (ClusterRoleBinding.Meta existing)
       (ClusterRoleBinding.Meta
          (generatedClusterRoleBinding cp serviceAccountName clusterRoleName))
       = (false, meta) ->
     ClusterRoleBindingContainsServiceAccount
       (ClusterRoleBinding.mk meta (ClusterRoleBinding.Subjects existing)
          (ClusterRoleBinding.RoleRef_ existing))
       (CP.Namespace cp) serviceAccountName = true ->
     run h (ensureClusterRoleBinding cp serviceAccountName clusterRoleName) w =
     ((false,
       Some (ClusterRoleBinding.mk meta (ClusterRoleBinding.Subjects existing)
               (ClusterRoleBinding.RoleRef_ existing)), None), w1,
      [MkCall (ListClusterRoleBindings (GetManagedByLabelSet cp))])).
Proof.
  unfold listServiceAccounts, generatedServiceAccount,
    generatedRoleBinding, generatedClusterRoleBinding.
  repeat split.
  - intros cp existing meta w w1 Hlist Hmeta. unfold ensureServiceAccount.
    answered Hlist. cbn [List.length Nat.ltb Nat.leb Nat.eqb ServiceAccount.Meta] in *.
    rewrite Hmeta. reflexivity.
  - intros cp sa roleNN existing meta w w1 Hlist Hname Hmeta Hsub.
    unfold ensureRoleBinding. answered Hlist.
    cbn [List.length Nat.ltb Nat.leb Nat.eqb RoleBinding.Meta] in *.
    rewrite Hname. cbn [negb]. rewrite Hmeta, Hsub. reflexivity.
  - intros cp sa crName existing meta w w1 Hlist Hname Hmeta Hsub.
    unfold ensureClusterRoleBinding. answered Hlist.
    cbn [List.length Nat.ltb Nat.leb Nat.eqb ClusterRoleBinding.Meta] in *.
    rewrite Hname. cbn [negb]. rewrite Hmeta, Hsub. reflexivity.
Qed.

(** Nothing exists.  When the listing of a kind answers with no object, the
    function makes one create call with the generated object.
    [ensureServiceAccount], [ensureClusterRole] and [ensureClusterRoleBinding]
    return [true], and [ensureRoleBinding] returns [Created], with the
    generated object and the answer of the create call as it is, also when
    that answer is an error; [ensureAdmissionWebhookService] returns
    [Created] only when the call succeeds and [Noop] with the wrapped failure
    otherwise. *)
Theorem owned_absent_is_created h :
  (forall cp answer (w w1 w2 : W),
     h _ (listServiceAccounts cp) w = (Ok [], w1) ->
     h _ (Create (ServiceAccountObj (generatedServiceAccount cp))) w1 = (answer, w2) ->
     run h (ensureServiceAccount cp) w =
     ((true, Some (generatedServiceAccount cp), answer), w2,
      [MkCall (listServiceAccounts cp);
       MkCall (Create (ServiceAccountObj (generatedServiceAccount cp)))])) /\
  (forall cp generated answer (w w1 w2 : W),
     h _ (ListClusterRoles (GetManagedByLabelSet cp)) w = (Ok [], w1) ->
     h _ (Create (ClusterRoleObj generated)) w1 = (answer, w2) ->
     run h (ensureClusterRole cp generated) w =
     ((true, Some generated, answer), w2,
      [MkCall (ListClusterRoles (GetManagedByLabelSet cp));
       MkCall (Create (ClusterRoleObj generated))])) /\
  (forall cp serviceAccountName roleNN answer (w w1 w2 : W),
     h _ (ListRoleBindings (GetManagedByLabelSet cp) (ObjectKey.Namespace roleNN)) w
       = (Ok [], w1) ->
     h _ (Create (RoleBindingObj (generatedRoleBinding cp serviceAccountName roleNN))) w1
       = (answer, w2) ->
     run h (ensureRoleBinding cp serviceAccountName roleNN) w =
     ((Created, Some (generatedRoleBinding cp serviceAccountName roleNN), answer), w2,
      [MkCall (ListRoleBindings (GetManagedByLabelSet cp) (ObjectKey.Namespace roleNN));
       MkCall (Create (RoleBindingObj (generatedRoleBinding cp serviceAccountName roleNN)))]))
  /\
  (forall cp serviceAccountName clusterRoleName answer (w w1 w2 : W),
     h _ (ListClusterRoleBindings (GetManagedByLabelSet cp)) w = (Ok [], w1) ->
     h _ (Create (ClusterRoleBindingObj
                    (generatedClusterRoleBinding cp serviceAccountName clusterRoleName))) w1
       = (answer, w2) ->
     run h (ensureClusterRoleBinding cp serviceAccountName clusterRoleName) w =
     ((true, Some (generatedClusterRoleBinding cp serviceAccountName clusterRoleName),
       answer), w2,
      [MkCall (ListClusterRoleBindings (GetManagedByLabelSet cp));
       MkCall (Create (ClusterRoleBindingObj
                         (generatedClusterRoleBinding cp serviceAccountName
                            clusterRoleName)))])) /\
  (forall cp generated answer (w w1 w2 w3 : W),
     h _ (listServices cp) w = (Ok [], w1) ->
     h _ (IsAdmissionWebhookEnabled cp) w1 = (true, w2) ->
     GenerateNewAdmissionWebhookServiceForControlPlane cp = Ok generated ->
     h _ (Create (ServiceObj generated)) w2 = (answer, w3) ->
     run h (ensureAdmissionWebhookService cp) w =
     (match answer with
      | None => (Created, Some generated, None)
      | Some err =>
          (Noop, None,
           Some (WrapError "failed creating ControlPlane admission webhook Service: " err))
      end, w3,
      [MkCall (listServices cp); MkCall (IsAdmissionWebhookEnabled cp);
       MkCall (Create (ServiceObj generated))])).
Proof.
  unfold listServiceAccounts, listServices, generatedServiceAccount,
    generatedRoleBinding, generatedClusterRoleBinding.
  repeat split.
  - intros cp answer w w1 w2 Hlist Hcreate. unfold ensureServiceAccount.
    answered Hlist. cbn [List.length Nat.ltb Nat.leb Nat.eqb].
    answered Hcreate. reflexivity.
  - intros cp generated answer w w1 w2 Hlist Hcreate. unfold ensureClusterRole.
    answered Hlist. cbn [List.length Nat.ltb Nat.leb Nat.eqb].
    answered Hcreate. reflexivity.
  - intros cp sa roleNN answer w w1 w2 Hlist Hcreate. unfold ensureRoleBinding.
    answered Hlist. cbn [List.length Nat.ltb Nat.leb Nat.eqb].
    answered Hcreate. reflexivity.
  - intros cp sa crName answer w w1 w2 Hlist Hcreate. unfold ensureClusterRoleBinding.
    answered Hlist. cbn [List.length Nat.ltb Nat.leb Nat.eqb].
    answered Hcreate. reflexivity.
  - intros cp generated answer w w1 w2 w3 Hlist Hen Hgen Hcreate.
    unfold ensureAdmissionWebhookService. answered Hlist. answered Hen.
    cbn [negb List.length Nat.ltb Nat.leb Nat.eqb]. rewrite Hgen.
    answered Hcreate. destruct answer; reflexivity.
Qed.

(** A binding whose role reference no longer names the wanted role is
    deleted, not patched: with one RoleBinding (ClusterRoleBinding) in place
    whose role name differs, the function makes one delete call and nothing
    else, and returns [Noop] ([false]) with no object and an error, the
    failure of the deletion or else the error that asks for another pass. *)
Theorem stale_binding_is_deleted h :
  (forall cp serviceAccountName roleNN existing answer (w w1 w2 : W),
     h _ (ListRoleBindings (GetManagedByLabelSet cp) (ObjectKey.Namespace roleNN)) w
       = (Ok [existing], w1) ->
     CompareRoleName existing (ObjectKey.Name roleNN) = false ->
     h _ (Delete (RoleBindingObj existing)) w1 = (answer, w2) ->
     run h (ensureRoleBinding cp serviceAccountName roleNN) w =
     ((Noop, None,
       Some (match answer with
             | Some err => err
             | None => ErrorString "name of Role changed, out of date RoleBinding deleted"
             end)), w2,
      [MkCall (ListRoleBindings (GetManagedByLabelSet cp) (ObjectKey.Namespace roleNN));
       MkCall (Delete (RoleBindingObj existing))])) /\
  (forall cp serviceAccountName clusterRoleName existing answer (w w1 w2 : W),
     h _ (ListClusterRoleBindings (GetManagedByLabelSet cp)) w = (Ok [existing], w1) ->
     CompareClusterRoleName existing clusterRoleName = false ->
     h _ (Delete (ClusterRoleBindingObj existing)) w1 = (answer, w2) ->
     run h (ensureClusterRoleBinding cp serviceAccountName clusterRoleName) w =
     ((false, None,
       Some (match answer with
             | Some err => err
             | None =>
                 ErrorString
                   "name of ClusterRole changed, out of date ClusterRoleBinding deleted"
             end)), w2,
      [MkCall (ListClusterRoleBindings (GetManagedByLabelSet cp));
       MkCall (Delete (ClusterRoleBindingObj existing))])).
Proof.
  split.
  - intros cp sa roleNN existing answer w w1 w2 Hlist Hname Hdel.
    unfold ensureRoleBinding. answered Hlist.
    cbn [List.length Nat.ltb Nat.leb Nat.eqb]. rewrite Hname. cbn [negb].
    answered Hdel. destruct answer; reflexivity.
  - intros cp sa crName existing answer w w1 w2 Hlist Hname Hdel.
    unfold ensureClusterRoleBinding. answered Hlist.
    cbn [List.length Nat.ltb Nat.leb Nat.eqb]. rewrite Hname. cbn [negb].
    answered Hdel. destruct answer; reflexivity.
Qed.

(** While the admission webhook is disabled, [ensureAdmissionWebhookService]
    never creates, updates or reduces a Service: after the listing and the
    test of the webhook it makes no call when no webhook Service exists, and
    one call that deletes all of them otherwise. *)
Theorem ensureAdmissionWebhookService_disabled_only_deletes h (cp : CP.t)
    (svcs : list Service.t) (answer : option error) (w w1 w2 w3 : W) :
  h _ (listServices cp) w = (Ok svcs, w1) ->
  h _ (IsAdmissionWebhookEnabled cp) w1 = (false, w2) ->
  h _ (DeleteAll (map ServiceObj svcs)) w2 = (answer, w3) ->
  run h (ensureAdmissionWebhookService cp) w =
  match svcs with
  | [] =>
      ((Noop, None, None), w2,
       [MkCall (listServices cp); MkCall (IsAdmissionWebhookEnabled cp)])
  | _ :: _ =>
      (match answer with
       | None => (Deleted, None, None)
       | Some err =>
           (Noop, None,
            Some (WrapError "failed deleting ControlPlane admission webhook Service: " err))
       end, w3,
       [MkCall (listServices cp); MkCall (IsAdmissionWebhookEnabled cp);
        MkCall (DeleteAll (map ServiceObj svcs))])
  end.
Proof.
  unfold listServices. intros Hlist Hen Hdel. unfold ensureAdmissionWebhookService.
  answered Hlist. answered Hen. cbn [negb].
  destruct svcs as [|svc0 svcs]; [reflexivity|].
  answered Hdel. destruct answer; reflexivity.
Qed.


End WithDeps.

(** The listing of the Deployments works and no image can be resolved: the
    pass returns the error of the image and only lists. *)
Lemma ensureDeployment_fails_before_writing_witness :
  run ControlPlaneExamples.handler
    (@ensureDeployment Scenarios.depsWithoutImage ControlPlaneExamples.recon
       (ControlPlaneExamples.params ControlPlaneExamples.cpDormant false))
    ControlPlaneExamples.clusterScaled
  = ((Noop, None,
      Some (ErrorString "ControlPlane requires an image to be set on controller container")),
     ControlPlaneExamples.clusterScaled,
     [MkCall (@listDeployments Scenarios.depsWithoutImage ControlPlaneExamples.cpDormant)]).
Proof.
  destruct (@ensureDeployment_fails_before_writing Scenarios.depsWithoutImage _
              ControlPlaneExamples.handler
              ControlPlaneExamples.clusterScaled ControlPlaneExamples.clusterScaled
              ControlPlaneExamples.recon
              (ControlPlaneExamples.params ControlPlaneExamples.cpDormant false)
              (ErrorString "ControlPlane requires an image to be set on controller container"))
    as [_ Hgen].
  apply (Hgen [ControlPlaneExamples.depScaled] eq_refl).
  - simpl. lia.
  - left. reflexivity.
Defined.

#[local] Existing Instance ControlPlaneExamples.deps.

(** An empty cluster and a control plane with a data plane: the Deployment is
    created as generated. *)
Lemma ensureDeployment_create_outcome_witness :
  value ControlPlaneExamples.handler
    (ensureDeployment ControlPlaneExamples.recon
       (ControlPlaneExamples.params ControlPlaneExamples.cpActive false))
    ControlPlaneExamples.emptyCluster
  = (Created,
     Some (Deployment.mk
             (ObjectMeta.mk "controlplane-cp" "default" EmptyString []
                [("spec-hash", "dp:dp")])
             (Some 2%Z) ControlPlaneExamples.template),
     None).
Proof.
  unfold value.
  rewrite (@ensureDeployment_create_outcome ControlPlaneExamples.deps _
             ControlPlaneExamples.handler
             ControlPlaneExamples.emptyCluster ControlPlaneExamples.emptyCluster
             (ControlPlaneExamples.store ControlPlaneExamples.emptyCluster
                (DeploymentObj
                   (Deployment.mk
                      (ObjectMeta.mk "controlplane-cp" "default" EmptyString []
                         [("spec-hash", "dp:dp")])
                      (Some 2%Z) ControlPlaneExamples.template)))
             ControlPlaneExamples.recon
             (ControlPlaneExamples.params ControlPlaneExamples.cpActive false)
             "kong/kubernetes-ingress-controller:3.4.1"
             (Deployment.mk
                (ObjectMeta.mk "controlplane-cp" "default" EmptyString []
                   [("spec-hash", "dp:dp")])
                (Some 2%Z) ControlPlaneExamples.template)
             None eq_refl eq_refl eq_refl eq_refl).
  reflexivity.
Defined.

(** A cluster that holds the ServiceAccount of the control plane, and one
    that holds the RoleBinding to the wanted Role. *)
Lemma owned_steady_state_writes_nothing_witness :
  run ControlPlaneExamples.handler (ensureServiceAccount ControlPlaneExamples.cpActive)
    Scenarios.clusterWithServiceAccount
  = ((false, Some (Scenarios.saOf ControlPlaneExamples.cpActive), None),
     Scenarios.clusterWithServiceAccount,
     [MkCall (listServiceAccounts ControlPlaneExamples.cpActive)]) /\
  calls ControlPlaneExamples.handler
    (ensureRoleBinding ControlPlaneExamples.cpActive "sa" (ObjectKey.mk "ns-a" "new"))
    (Scenarios.clusterWithBinding "new")
  = [MkCall (ListRoleBindings (GetManagedByLabelSet ControlPlaneExamples.cpActive) "ns-a")].
Proof.
  destruct (@owned_steady_state_writes_nothing ControlPlaneExamples.deps _
              ControlPlaneExamples.handler) as (Hsa & Hrb & _).
  split.
  - exact (Hsa ControlPlaneExamples.cpActive (Scenarios.saOf ControlPlaneExamples.cpActive)
             (ControlPlaneExamples.meta "cp" "default")
             Scenarios.clusterWithServiceAccount Scenarios.clusterWithServiceAccount
             eq_refl eq_refl).
  - unfold calls.
    rewrite (Hrb ControlPlaneExamples.cpActive "sa" (ObjectKey.mk "ns-a" "new")
               (Scenarios.bindingTo "ns-a" "new") (ControlPlaneExamples.meta "cp" "ns-a")
               (Scenarios.clusterWithBinding "new") (Scenarios.clusterWithBinding "new")
               eq_refl eq_refl eq_refl eq_refl).
    reflexivity.
Defined.

(** An empty cluster: the ServiceAccount is created. *)
Lemma owned_absent_is_created_witness :
  calls ControlPlaneExamples.handler (ensureServiceAccount ControlPlaneExamples.cpActive)
    ControlPlaneExamples.emptyCluster
  = [MkCall (listServiceAccounts ControlPlaneExamples.cpActive);
     MkCall (Create (ServiceAccountObj (Scenarios.saOf ControlPlaneExamples.cpActive)))].
Proof.
  destruct (@owned_absent_is_created ControlPlaneExamples.deps _
              ControlPlaneExamples.handler) as (Hsa & _).
  unfold calls.
  rewrite (Hsa ControlPlaneExamples.cpActive None
             ControlPlaneExamples.emptyCluster ControlPlaneExamples.emptyCluster
             Scenarios.clusterWithServiceAccount eq_refl eq_refl).
  reflexivity.
Defined.

(** The binding in [ns-a] refers to the role [old] and the role [new] is
    wanted. *)
Lemma stale_binding_is_deleted_witness :
  run ControlPlaneExamples.handler
    (ensureRoleBinding ControlPlaneExamples.cpActive "sa" (ObjectKey.mk "ns-a" "new"))
    (Scenarios.clusterWithBinding "old")
  = ((Noop, None,
      Some (ErrorString "name of Role changed, out of date RoleBinding deleted")),
     ControlPlaneExamples.emptyCluster,
     [MkCall (ListRoleBindings (GetManagedByLabelSet ControlPlaneExamples.cpActive) "ns-a");
      MkCall (Delete (RoleBindingObj (Scenarios.bindingTo "ns-a" "old")))]).
Proof.
  destruct (@stale_binding_is_deleted ControlPlaneExamples.deps _
              ControlPlaneExamples.handler) as (Hrb & _).
  exact (Hrb ControlPlaneExamples.cpActive "sa" (ObjectKey.mk "ns-a" "new")
           (Scenarios.bindingTo "ns-a" "old") None
           (Scenarios.clusterWithBinding "old") (Scenarios.clusterWithBinding "old")
           ControlPlaneExamples.emptyCluster eq_refl eq_refl eq_refl).
Defined.

(** Two webhook Services and the admission webhook disabled. *)
Lemma ensureAdmissionWebhookService_disabled_only_deletes_witness :
  value ControlPlaneExamples.handler
    (ensureAdmissionWebhookService ControlPlaneExamples.cpActive)
    (ControlPlaneExamples.clusterTwoServices false)
  = (Deleted, None, None).
Proof.
  unfold value.
  rewrite (@ensureAdmissionWebhookService_disabled_only_deletes
             ControlPlaneExamples.deps _ ControlPlaneExamples.handler
             ControlPlaneExamples.cpActive
             [ControlPlaneExamples.svc "webhook-a"; ControlPlaneExamples.svc "webhook-b"]
             None
             (ControlPlaneExamples.clusterTwoServices false)
             (ControlPlaneExamples.clusterTwoServices false)
             (ControlPlaneExamples.clusterTwoServices false)
             ControlPlaneExamples.emptyCluster eq_refl eq_refl eq_refl).
  reflexivity.
Defined.


End OwnedObjectFacts.

(* ------------------------------------------------------------------------- *)
(** ** [processClusterRole]: what holds for every input *)
(* ------------------------------------------------------------------------- *)

Module PartitionFacts.
Import Go K8s ControlPlane Notions.
Local Open Scope string_scope.
Local Open Scope list_scope.

Lemma sameButResources_narrow (a b : PolicyRule.t) (rs : list string) :
  sameButResources a b -> sameButResources (PolicyRule_withResources a rs) b.
Proof. intros H rs'. exact (H rs'). Qed.

Lemma resourceStep_keeps (gvl : APIResourceListMapping) (rules : list PolicyRule.t)
    (rule0 : PolicyRule.t) (apiGroup resource : string) (st : Split.t) :
  In rule0 rules ->
  In apiGroup (PolicyRule.APIGroups rule0) ->
  In resource (PolicyRule.Resources rule0) ->
  SplitInv gvl rules rule0 st ->
  SplitInv gvl rules rule0 (resourceStep gvl apiGroup st resource).
Proof.
  intros Hrule Hgroup Hres (Hsame & Hincl & Hrole & Hcluster).
  assert (Hsingle : incl [resource] (PolicyRule.Resources rule0)).
  { intros x [<- | []]. exact Hres. }
  unfold resourceStep, SplitInv.
  destruct (findAPIResource gvl apiGroup resource) as [apires|] eqn:Hfind.
  - destruct (APIResource.Namespaced apires) eqn:Hns;
      cbn [Split.rule Split.rolePolicyRules Split.clusterRolePolicyRules PolicyRule.Resources
           PolicyRule_withResources].
    + split; [now apply sameButResources_narrow|].
      split; [exact Hsingle|]. split; [|exact Hcluster].
      apply Forall_app. split; [exact Hrole|]. constructor; [|constructor].
      exists rule0, apiGroup, resource, apires.
      split; [exact Hrule|]. split; [exact Hgroup|]. split; [exact Hres|].
      split; [exact Hfind|]. split; [exact Hns|]. apply Hsame.
    + split; [now apply sameButResources_narrow|].
      split; [exact Hsingle|]. split; [exact Hrole|].
      apply Forall_app. split; [exact Hcluster|]. constructor; [|constructor].
      exists rule0. split; [exact Hrule|].
      split; [now apply sameButResources_narrow | exact Hsingle].
  - cbn [Split.rule Split.rolePolicyRules Split.clusterRolePolicyRules].
    split; [exact Hsame|]. split; [exact Hincl|]. split; [exact Hrole|].
    apply Forall_app. split; [exact Hcluster|]. constructor; [|constructor].
    exists rule0. split; [exact Hrule|]. split; [exact Hsame | exact Hincl].
Qed.

Lemma resources_keep (gvl : APIResourceListMapping) (rules : list PolicyRule.t)
    (rule0 : PolicyRule.t) (apiGroup : string) (rs : list string) (st : Split.t) :
  In rule0 rules ->
  In apiGroup (PolicyRule.APIGroups rule0) ->
  incl rs (PolicyRule.Resources rule0) ->
  SplitInv gvl rules rule0 st ->
  SplitInv gvl rules rule0 (fold_left (resourceStep gvl apiGroup) rs st).
Proof.
  intros Hrule Hgroup. revert st. induction rs as [|res rs IH]; intros st Hincl Hinv.
  - exact Hinv.
  - cbn [fold_left]. apply IH.
    + intros x Hx. apply Hincl. now right.
    + apply resourceStep_keeps; trivial. apply Hincl. now left.
Qed.

Lemma apiGroups_keep (gvl : APIResourceListMapping) (rules : list PolicyRule.t)
    (rule0 : PolicyRule.t) (groups : list string) (st : Split.t) :
  In rule0 rules ->
  incl groups (PolicyRule.APIGroups rule0) ->
  SplitInv gvl rules rule0 st ->
  SplitInv gvl rules rule0 (fold_left (apiGroupStep gvl) groups st).
Proof.
  intros Hrule. revert st. induction groups as [|g groups IH]; intros st Hincl Hinv.
  - exact Hinv.
  - cbn [fold_left]. apply IH.
    + intros x Hx. apply Hincl. now right.
    + unfold apiGroupStep. apply resources_keep; trivial.
      * apply Hincl. now left.
      * destruct Hinv as (_ & H & _). exact H.
Qed.

Lemma rules_keep (gvl : APIResourceListMapping) (rules : list PolicyRule.t)
    (todo : list PolicyRule.t) (acc : list PolicyRule.t * list PolicyRule.t) :
  incl todo rules ->
  Forall (NamespacedSingle gvl rules) (fst acc) ->
  Forall (Narrowed rules) (snd acc) ->
  Forall (NamespacedSingle gvl rules) (fst (fold_left (ruleStep gvl) todo acc)) /\
  Forall (Narrowed rules) (snd (fold_left (ruleStep gvl) todo acc)).
Proof.
  revert acc. induction todo as [|rule todo IH]; intros acc Hincl Hrole Hcluster.
  - now split.
  - cbn [fold_left].
    assert (Hinv : SplitInv gvl rules rule
                     (fold_left (apiGroupStep gvl) (PolicyRule.APIGroups rule)
                        (Split.mk rule (fst acc) (snd acc)))).
    { apply apiGroups_keep.
      - apply Hincl. now left.
      - apply incl_refl.
      - repeat split; cbn [Split.rule Split.rolePolicyRules Split.clusterRolePolicyRules];
          trivial. apply incl_refl. }
    destruct Hinv as (_ & _ & Hrole' & Hcluster').
    apply IH; [intros x Hx; apply Hincl; now right | exact Hrole' | exact Hcluster'].
Qed.

(** Whatever the rules and the discovery mapping, every rule of the Role set
    is the copy of an input rule restricted to one of its resources, and
    discovery knows that resource as namespaced under one of the API groups
    of the input rule.  The copy keeps every API group of the input rule;
    so it is for input rules with at most one API group each that every API
    group and resource named by a rule of the Role set is known to discovery
    as namespaced, and that no cluster-scoped or unknown resource reaches a
    Role. *)
Theorem processClusterRole_role_rules_namespaced (generated : ClusterRole.t)
    (gvl : APIResourceListMapping) :
  Forall (NamespacedSingle gvl (ClusterRole.Rules generated))
    (fst (processClusterRole generated gvl)) /\
  (Forall (fun rule => List.length (PolicyRule.APIGroups rule) <= 1)
     (ClusterRole.Rules generated) ->
   forall r apiGroup resource,
     In r (fst (processClusterRole generated gvl)) ->
     In apiGroup (PolicyRule.APIGroups r) ->
     In resource (PolicyRule.Resources r) ->
     exists apires,
       findAPIResource gvl apiGroup resource = Some apires /\
       APIResource.Namespaced apires = true).
Proof.
  assert (Hrole : Forall (NamespacedSingle gvl (ClusterRole.Rules generated))
                    (fst (processClusterRole generated gvl))).
  { unfold processClusterRole.
    apply rules_keep; [apply incl_refl | constructor | constructor]. }
  split; [exact Hrole|].
  intros Hsingle r apiGroup resource Hr Hgroup Hres.
  rewrite Forall_forall in Hrole, Hsingle.
  destruct (Hrole r Hr) as (rule & g & res & apires & Hin & Hg & _ & Hfind & Hns & ->).
  cbn [PolicyRule_withResources PolicyRule.APIGroups PolicyRule.Resources] in Hgroup, Hres.
  destruct Hres as [<- | []].
  specialize (Hsingle rule Hin).
  destruct (PolicyRule.APIGroups rule) as [|g0 [|g1 groups]]; simpl in *.
  - contradiction.
  - destruct Hg as [<- | []]. destruct Hgroup as [<- | []]. now exists apires.
  - lia.
Qed.

(** A rule over the core group on ConfigMaps and Namespaces: the rule of the
    Role set names ConfigMaps, which discovery knows as namespaced. *)
Lemma processClusterRole_role_rules_namespaced_witness :
  exists apires,
    findAPIResource ControlPlaneExamples.coreV1 EmptyString "configmaps" = Some apires /\
    APIResource.Namespaced apires = true.
Proof.
  apply (proj2 (processClusterRole_role_rules_namespaced
                  (ControlPlaneExamples.clusterRoleWith
                     [ControlPlaneExamples.ruleOn ["configmaps"; "namespaces"]])
                  ControlPlaneExamples.coreV1)
           ltac:(repeat constructor)
           (ControlPlaneExamples.ruleOn ["configmaps"]) EmptyString "configmaps").
  - left. reflexivity.
  - left. reflexivity.
  - left. reflexivity.
Defined.

(** Whatever the rules and the discovery mapping, every emitted rule, of
    either set, is an input rule with some of its resources left out: its
    verbs, API groups, resource names and non-resource URLs are those of the
    input rule, and it names no resource that the input rule does not
    name. *)
Theorem processClusterRole_never_widens (generated : ClusterRole.t)
    (gvl : APIResourceListMapping) :
  Forall (Narrowed (ClusterRole.Rules generated))
    (fst (processClusterRole generated gvl) ++ snd (processClusterRole generated gvl)).
Proof.
  unfold processClusterRole.
  destruct (@rules_keep gvl (ClusterRole.Rules generated) (ClusterRole.Rules generated)
              ([], []) (incl_refl _) (Forall_nil _) (Forall_nil _)) as [Hrole Hcluster].
  apply Forall_app. split; [|exact Hcluster].
  eapply Forall_impl; [|exact Hrole].
  intros r (rule & apiGroup & resource & apires & Hin & _ & Hres & _ & _ & ->).
  exists rule. repeat split; trivial.
  intros x [<- | []]. exact Hres.
Qed.

(** *** Rules without pairs *)

Lemma apiGroups_no_resources (gvl : APIResourceListMapping) (groups : list string)
    (st : Split.t) :
  PolicyRule.Resources (Split.rule st) = [] ->
  fold_left (apiGroupStep gvl) groups st = st.
Proof.
  intros Hnone. induction groups as [|g groups IH]; [reflexivity|].
  cbn [fold_left]. unfold apiGroupStep at 2. rewrite Hnone. exact IH.
Qed.

Lemma ruleStep_no_pairs (gvl : APIResourceListMapping) (rule : PolicyRule.t)
    (acc : list PolicyRule.t * list PolicyRule.t) :
  hasPairs rule = false -> ruleStep gvl acc rule = acc.
Proof.
  unfold hasPairs, ruleStep. intros H.
  destruct (PolicyRule.APIGroups rule) as [|g groups] eqn:Hg.
  - destruct acc; reflexivity.
  - destruct (PolicyRule.Resources rule) as [|res rs] eqn:Hr; [|discriminate].
    rewrite apiGroups_no_resources by exact Hr. destruct acc; reflexivity.
Qed.

Lemma rules_no_pairs (gvl : APIResourceListMapping) (rules : list PolicyRule.t)
    (acc : list PolicyRule.t * list PolicyRule.t) :
  fold_left (ruleStep gvl) rules acc = fold_left (ruleStep gvl) (filter hasPairs rules) acc.
Proof.
  revert acc. induction rules as [|rule rules IH]; intros acc; [reflexivity|].
  cbn [fold_left filter]. destruct (hasPairs rule) eqn:H.
  - cbn [fold_left]. apply IH.
  - rewrite ruleStep_no_pairs by exact H. apply IH.
Qed.

(** A rule without API group or without resource, such as a rule on
    non-resource URLs, adds nothing to either set: the split of a ClusterRole
    is the split of its rules that have both, and a ClusterRole with no such
    rule is split into two empty sets. *)
Theorem processClusterRole_skips_rules_without_pairs (generated : ClusterRole.t)
    (gvl : APIResourceListMapping) :
  processClusterRole generated gvl =
  processClusterRole
    (ClusterRole.mk (ClusterRole.Meta generated)
       (filter hasPairs (ClusterRole.Rules generated))
       (ClusterRole.AggregationRule generated)) gvl /\
  (forallb (fun rule => negb (hasPairs rule)) (ClusterRole.Rules generated) = true ->
   processClusterRole generated gvl = ([], [])).
Proof.
  unfold processClusterRole. cbn [ClusterRole.Rules]. split.
  - apply rules_no_pairs.
  - intros Hall. rewrite rules_no_pairs.
    replace (filter hasPairs (ClusterRole.Rules generated)) with (@nil PolicyRule.t);
      [reflexivity|].
    induction (ClusterRole.Rules generated) as [|rule rules IH]; [reflexivity|].
    cbn [forallb filter] in *. apply andb_true_iff in Hall. destruct Hall as [Hr Hrest].
    destruct (hasPairs rule); [discriminate | now apply IH].
Qed.

(** A ClusterRole with a rule on the non-resource URL [/metrics] only. *)
Lemma processClusterRole_skips_rules_without_pairs_witness :
  processClusterRole
    (ControlPlaneExamples.clusterRoleWith [PolicyRule.mk ["get"] [] [] [] ["/metrics"]])
    ControlPlaneExamples.coreV1 = ([], []).
Proof.
  apply (proj2 (processClusterRole_skips_rules_without_pairs
                  (ControlPlaneExamples.clusterRoleWith
                     [PolicyRule.mk ["get"] [] [] [] ["/metrics"]])
                  ControlPlaneExamples.coreV1)).
  reflexivity.
Defined.

(** *** Resources that discovery does not know *)

Lemma resources_unknown (gvl : APIResourceListMapping) (apiGroup : string)
    (rule : PolicyRule.t) (rs : list string)
    (role cluster : list PolicyRule.t) :
  (forall resource, In resource rs -> findAPIResource gvl apiGroup resource = None) ->
  fold_left (resourceStep gvl apiGroup) rs (Split.mk rule role cluster) =
  Split.mk rule role (cluster ++ repeat rule (List.length rs)).
Proof.
  revert cluster. induction rs as [|res rs IH]; intros cluster Hunknown.
  - simpl. now rewrite app_nil_r.
  - cbn [fold_left]. unfold resourceStep at 2.
    rewrite (Hunknown res (or_introl eq_refl)).
    cbn [Split.rule Split.rolePolicyRules Split.clusterRolePolicyRules].
    rewrite IH by (intros r Hr; apply Hunknown; now right).
    rewrite <- app_assoc. reflexivity.
Qed.

Lemma apiGroups_unknown (gvl : APIResourceListMapping) (rule : PolicyRule.t)
    (groups : list string) (role cluster : list PolicyRule.t) :
  (forall apiGroup resource,
     In apiGroup groups -> In resource (PolicyRule.Resources rule) ->
     findAPIResource gvl apiGroup resource = None) ->
  fold_left (apiGroupStep gvl) groups (Split.mk rule role cluster) =
  Split.mk rule role
    (cluster ++ repeat rule (List.length groups * List.length (PolicyRule.Resources rule))).
Proof.
  revert cluster. induction groups as [|g groups IH]; intros cluster Hunknown.
  - simpl. now rewrite app_nil_r.
  - cbn [fold_left]. unfold apiGroupStep at 2. cbn [Split.rule].
    rewrite resources_unknown by (intros r Hr; apply Hunknown; [now left | exact Hr]).
    rewrite IH by (intros a r Ha Hr; apply Hunknown; [now right | exact Hr]).
    cbn [List.length Nat.mul]. now rewrite repeat_app, app_assoc.
Qed.

Lemma rules_unknown (gvl : APIResourceListMapping) (rules : list PolicyRule.t)
    (acc : list PolicyRule.t * list PolicyRule.t) :
  (forall rule, In rule rules -> UnknownRule gvl rule) ->
  fold_left (ruleStep gvl) rules acc = (fst acc, snd acc ++ flat_map copies rules).
Proof.
  revert acc. induction rules as [|rule rules IH]; intros acc Hall.
  - simpl. rewrite app_nil_r. now destruct acc.
  - cbn [fold_left flat_map]. unfold ruleStep at 2.
    rewrite apiGroups_unknown by (apply Hall; now left).
    cbn [Split.rolePolicyRules Split.clusterRolePolicyRules].
    rewrite IH by (intros r Hr; apply Hall; now right).
    cbn [fst snd]. now rewrite <- app_assoc.
Qed.

(** When discovery knows none of the resources of the rules, as with an
    empty discovery mapping, the Role set is empty and the ClusterRole set
    holds the input rules unchanged, each once for every pair of one of its
    API groups and one of its resources: everything stays cluster-wide. *)
Theorem processClusterRole_unknown_stays_cluster_wide (generated : ClusterRole.t)
    (gvl : APIResourceListMapping) :
  (forall rule, In rule (ClusterRole.Rules generated) -> UnknownRule gvl rule) ->
  processClusterRole generated gvl = ([], flat_map copies (ClusterRole.Rules generated)).
Proof. intros Hall. unfold processClusterRole. now rewrite rules_unknown. Qed.

(** A rule on two resources and an empty discovery mapping. *)
Lemma processClusterRole_unknown_stays_cluster_wide_witness :
  processClusterRole
    (ControlPlaneExamples.clusterRoleWith [ControlPlaneExamples.ruleOn ["configmaps"; "widgets"]])
    []
  = ([], [ControlPlaneExamples.ruleOn ["configmaps"; "widgets"];
          ControlPlaneExamples.ruleOn ["configmaps"; "widgets"]]).
Proof.
  apply (@processClusterRole_unknown_stays_cluster_wide
           (ControlPlaneExamples.clusterRoleWith
              [ControlPlaneExamples.ruleOn ["configmaps"; "widgets"]]) []).
  intros rule _ apiGroup resource _ _. reflexivity.
Defined.

End PartitionFacts.

(* ------------------------------------------------------------------------- *)
(** ** [getGatewayKonnectControlPlane]: the other paths *)
(* ------------------------------------------------------------------------- *)

Module ControlPlaneRefPathFacts.
Import Go K8s Prog Konnect ProgFacts KonnectNotions.
Local Open Scope string_scope.
Local Open Scope list_scope.

Section WithDeps.
Context {deps : Deps}.

Lemma lookupControlPlane_log W (h : Handler KonnectE W) (w : W) (ext : KonnectExtension.t) :
  snd (run h (lookupControlPlane ext) w) = [lookupCall ext].
Proof.
  unfold lookupControlPlane, lookupCall.
  destruct (KonnectExtension.Ref ext) as [name | id]; simpl.
  - destruct (h _ (Get _) w) as [[kgcp | err] w0]; simpl;
      [|destruct (IsNotFound err)]; reflexivity.
  - destruct (h _ (ListByKonnectID _ _ _) w) as [[[|cp kgcps] | err] w0]; reflexivity.
Qed.

Lemma run_patchThen_cases W (h : Handler KonnectE W) (w : W) (ext : KonnectExtension.t)
    (conds : list Condition.t)
    (otherwise : option KonnectGatewayControlPlane.t * Result * option error) :
  exists res errPatch w1,
    run h (patchThen ext conds otherwise) w =
    (if patchSettled res errPatch then otherwise else (None, res, errPatch),
     w1, [MkCall (StatusWithConditions ext conds)]).
Proof.
  destruct (h _ (StatusWithConditions ext conds) w) as [[[res o] errPatch] w1] eqn:H.
  exists res, errPatch, w1. unfold patchThen, patchSettled. simpl. rewrite H.
  destruct errPatch as [e|]; simpl; [reflexivity|].
  destruct (IsZero res); reflexivity.
Qed.

(** Let the reference of the extension resolve to a control plane [cp] that
    reports [Programmed] as [True].  The function then submits the condition
    [ControlPlaneRefValid] with status [True] alone, without the depending
    conditions it was given, and makes no other call after the lookup; when
    that status patch goes through without asking for a requeue it returns
    [cp] with a zero result and no error, and otherwise it returns no control
    plane and the result and the error of the patch. *)
Theorem getGatewayKonnectControlPlane_valid W (h : Handler KonnectE W) (w w1 w2 : W)
    (ext : KonnectExtension.t) (dependingConditions : list Condition.t)
    (cp : KonnectGatewayControlPlane.t) (log1 : list (Call KonnectE))
    (res : Result) (o : opResult) (errPatch : option error) :
  run h (lookupControlPlane ext) w = (Found cp, w1, log1) ->
  HasConditionTrue KonnectEntityProgrammedConditionType cp = true ->
  h _ (StatusWithConditions ext [validCond]) w1 = ((res, o, errPatch), w2) ->
  run h (getGatewayKonnectControlPlane ext dependingConditions) w =
  (if patchSettled res errPatch then (Some cp, ResultZero, None) else (None, res, errPatch),
   w2, log1 ++ [MkCall (StatusWithConditions ext [validCond])]).
Proof.
  intros Hlook Hprog Hpatch.
  unfold getGatewayKonnectControlPlane. rewrite run_bind, Hlook.
  cbv beta iota. rewrite Hprog. cbn [negb]. fold validCond.
  unfold patchThen, patchSettled. simpl. rewrite Hpatch.
  destruct errPatch as [e|]; simpl; [reflexivity|].
  destruct (IsZero res); reflexivity.
Qed.

(** Whatever the cluster answers, a control plane that the function returns
    is the one the reference resolves to, and it reports [Programmed] as
    [True]; it comes with a zero result and no error, after exactly two
    calls: the lookup and the status patch that submits the condition
    [ControlPlaneRefValid] with status [True]. *)
Theorem getGatewayKonnectControlPlane_returns_only_programmed W (h : Handler KonnectE W)
    (w : W) (ext : KonnectExtension.t) (dependingConditions : list Condition.t)
    (cp : KonnectGatewayControlPlane.t) (res : Result) (err : option error) :
  value h (getGatewayKonnectControlPlane ext dependingConditions) w = (Some cp, res, err) ->
  res = ResultZero /\ err = None /\
  value h (lookupControlPlane ext) w = Found cp /\
  HasConditionTrue KonnectEntityProgrammedConditionType cp = true /\
  calls h (getGatewayKonnectControlPlane ext dependingConditions) w =
  [lookupCall ext; MkCall (StatusWithConditions ext [validCond])].
Proof.
  unfold value, calls, getGatewayKonnectControlPlane. rewrite run_bind.
  pose proof (lookupControlPlane_log h w ext) as Hlog.
  destruct (run h (lookupControlPlane ext) w) as [[l w1] log1]. simpl in Hlog. subst log1.
  cbv beta iota. destruct l as [e | cp' | e].
  - simpl. discriminate.
  - destruct (HasConditionTrue KonnectEntityProgrammedConditionType cp') eqn:Hprog;
      cbn [negb].
    + fold validCond.
      destruct (run_patchThen_cases h w1 ext [validCond] (Some cp', ResultZero, None))
        as (res' & errPatch & w2 & ->).
      cbv beta iota. cbn [fst snd].
      destruct (patchSettled res' errPatch); [|discriminate].
      intros [= -> <- <-]. repeat split. exact Hprog.
    + match goal with
      | |- context [patchThen ext ?conds ?other] =>
          destruct (run_patchThen_cases h w1 ext conds other) as (res' & errPatch & w2 & ->)
      end.
      cbv beta iota. cbn [fst snd].
      destruct (patchSettled res' errPatch); discriminate.
  - match goal with
    | |- context [patchThen ext ?conds ?other] =>
        destruct (run_patchThen_cases h w1 ext conds other) as (res' & errPatch & w2 & ->)
    end.
    cbv beta iota. cbn [fst snd].
    destruct (patchSettled res' errPatch); discriminate.
Qed.

(** A lookup that fails is returned as it is, with a zero result, and no
    status patch is made: for a reference by name when the read fails with
    another error than not-found, and for a reference by Konnect ID when the
    listing fails with any error, a not-found error included. *)
Theorem getGatewayKonnectControlPlane_lookup_failure W (h : Handler KonnectE W) (w w1 : W)
    (ext : KonnectExtension.t) (dependingConditions : list Condition.t) (err : error) :
  (forall name,
     KonnectExtension.Ref ext = KonnectNamespacedRef name ->
     h _ (Get (ObjectKey.mk (KonnectExtension.Namespace ext) name)) w = (Err err, w1) ->
     IsNotFound err = false ->
     run h (getGatewayKonnectControlPlane ext dependingConditions) w =
     ((None, ResultZero, Some err), w1, [lookupCall ext])) /\
  (forall id,
     KonnectExtension.Ref ext = KonnectID id ->
     h _ (ListByKonnectID (KonnectExtension.Namespace ext)
            IndexFieldKonnectGatewayControlPlaneOnKonnectID id) w = (Err err, w1) ->
     run h (getGatewayKonnectControlPlane ext dependingConditions) w =
     ((None, ResultZero, Some err), w1, [lookupCall ext])).
Proof.
  unfold getGatewayKonnectControlPlane, lookupControlPlane, lookupCall. split.
  - intros name -> H Hnf. simpl. rewrite H. simpl. rewrite Hnf. reflexivity.
  - intros id -> H. simpl. rewrite H. reflexivity.
Qed.

End WithDeps.

#[local] Existing Instance KonnectExamples.deps.

(** The control plane of the extension is programmed and the patch goes
    through; the depending condition is not submitted. *)
Lemma getGatewayKonnectControlPlane_valid_witness :
  run KonnectExamples.handler
    (getGatewayKonnectControlPlane KonnectExamples.ext1 [invalidCond "not ready"])
    KonnectScenarios.clusterProgrammed
  = ((Some KonnectScenarios.cpProgrammed, ResultZero, None),
     KonnectScenarios.clusterProgrammed,
     [MkCall (Get (ObjectKey.mk "default" "cp"));
      MkCall (StatusWithConditions KonnectExamples.ext1 [validCond])]).
Proof.
  apply (@getGatewayKonnectControlPlane_valid _ _ KonnectExamples.handler
           KonnectScenarios.clusterProgrammed KonnectScenarios.clusterProgrammed
           KonnectScenarios.clusterProgrammed KonnectExamples.ext1
           [invalidCond "not ready"] KonnectScenarios.cpProgrammed
           [MkCall (Get (ObjectKey.mk "default" "cp"))] ResultZero Updated None);
    reflexivity.
Defined.

Lemma getGatewayKonnectControlPlane_returns_only_programmed_witness :
  HasConditionTrue KonnectEntityProgrammedConditionType KonnectScenarios.cpProgrammed = true.
Proof.
  apply (@getGatewayKonnectControlPlane_returns_only_programmed _ _ KonnectExamples.handler
           KonnectScenarios.clusterProgrammed KonnectExamples.ext1 []
           KonnectScenarios.cpProgrammed ResultZero None).
  reflexivity.
Defined.

(** The API server times out: by name, and by Konnect ID. *)
Lemma getGatewayKonnectControlPlane_lookup_failure_witness :
  run KonnectScenarios.unreachable
    (getGatewayKonnectControlPlane KonnectExamples.ext1 []) tt
  = ((None, ResultZero, Some KonnectScenarios.timeout), tt,
     [MkCall (Get (ObjectKey.mk "default" "cp"))]) /\
  value KonnectScenarios.unreachable
    (getGatewayKonnectControlPlane KonnectScenarios.extByID []) tt
  = (None, ResultZero, Some KonnectScenarios.timeout).
Proof.
  split.
  - destruct (@getGatewayKonnectControlPlane_lookup_failure _ _ KonnectScenarios.unreachable
                tt tt KonnectExamples.ext1 [] KonnectScenarios.timeout) as [Hname _].
    apply (Hname "cp"); reflexivity.
  - destruct (@getGatewayKonnectControlPlane_lookup_failure _ _ KonnectScenarios.unreachable
                tt tt KonnectScenarios.extByID [] KonnectScenarios.timeout) as [_ Hid].
    unfold value. rewrite (Hid "7f3c"); reflexivity.
Defined.

End ControlPlaneRefPathFacts.

(* ------------------------------------------------------------------------- *)
(** ** [ensureExtendablesReferencesInStatus]: repeated and reordered passes *)
(* ------------------------------------------------------------------------- *)

Module StatusRefsPassFacts.
Import Go K8s Prog Konnect ProgFacts KonnectNotions.
Local Open Scope list_scope.
Local Open Scope string_scope.

Lemma withRefs_withRefs (ext : KonnectExtension.t) (a b c d : slice NamespacedRef.t) :
  withRefs (withRefs ext a b) c d = withRefs ext c d.
Proof. reflexivity. Qed.

(** A pass over the extension that an earlier pass over the same DataPlanes
    and ControlPlanes returned makes no call, whatever the cluster answered
    in the earlier pass and would answer now: it returns the extension
    unchanged with a zero result and no error. *)
Theorem ensureExtendablesReferencesInStatus_second_pass W W' (h : Handler KonnectE W)
    (h' : Handler KonnectE W') (w : W) (w' : W')
    (ext : KonnectExtension.t) (dps cps : list Extendable.t) :
  let ext' := fst (fst (value h (ensureExtendablesReferencesInStatus ext dps cps) w)) in
  run h' (ensureExtendablesReferencesInStatus ext' dps cps) w' =
  ((ext', ResultZero, None), w', []).
Proof.
  cbv zeta. rewrite StatusRefsFacts.ensureExtendablesReferencesInStatus_ext.
  unfold ensureExtendablesReferencesInStatus.
  replace (withRefs (recomputed ext dps cps) (sortRefs (collectRefs dps))
             (sortRefs (collectRefs cps)))
    with (recomputed ext dps cps) by reflexivity.
  assert (E : cmpEqual (KonnectExtension.Status (recomputed ext dps cps))
                (KonnectExtension.Status (recomputed ext dps cps)) = true)
    by now apply StatusRefsFacts.cmpEqual_true.
  rewrite E. reflexivity.
Qed.

(** *** The order of the listed items *)

Lemma Permutation_filter_map (A B : Type) (f : A -> bool) (g : A -> B) (l l' : list A) :
  Permutation l l' -> Permutation (map g (filter f l)) (map g (filter f l')).
Proof.
  induction 1 as [|x l l' _ IH|x y l|l l' l'' _ IH1 _ IH2]; simpl.
  - constructor.
  - destruct (f x); simpl; [now constructor | exact IH].
  - destruct (f x), (f y); simpl; try reflexivity. apply perm_swap.
  - now transitivity (map g (filter f l')).
Qed.

Lemma leb_antisym (s1 s2 : string) :
  String.leb s1 s2 = true -> String.leb s2 s1 = true -> s1 = s2.
Proof.
  unfold String.leb. rewrite (String.compare_antisym s2 s1).
  destruct (String.compare s1 s2) eqn:E; simpl; try discriminate.
  intros _ _. now apply String.compare_eq_iff.
Qed.

Lemma first_slash (n1 n2 m1 m2 : string) :
  hasSlash n1 = false -> hasSlash n2 = false ->
  n1 ++ "/" ++ m1 = n2 ++ "/" ++ m2 -> n1 = n2 /\ m1 = m2.
Proof.
  revert n2. induction n1 as [|c n1 IH]; intros [|c2 n2]; simpl.
  - intros _ _ [= ->]. now split.
  - intros _ H [= <- _]. discriminate H.
  - intros H _ [= -> _]. discriminate H.
  - intros H1 H2 [= -> E].
    apply orb_false_iff in H1, H2. destruct H1 as [_ H1], H2 as [_ H2].
    destruct (IH n2 H1 H2 E) as [-> ->]. now split.
Qed.

(** Among such references the text [namespace/name] tells the reference. *)
Lemma refToStr_inj (a b : NamespacedRef.t) :
  Plain a -> Plain b -> refToStr a = refToStr b -> a = b.
Proof.
  intros (nsa & Ha & Hsa) (nsb & Hb & Hsb). unfold refToStr. rewrite Ha, Hb.
  intros E. destruct (first_slash _ _ _ _ Hsa Hsb E) as [-> En].
  destruct a as [na oa], b as [nb ob]. simpl in *. congruence.
Qed.

Lemma sorted_unique (l1 l2 : list NamespacedRef.t) :
  Forall Plain l1 ->
  StronglySorted refLe l1 -> StronglySorted refLe l2 -> Permutation l1 l2 -> l1 = l2.
Proof.
  intros Hplain Hs1. revert l2. induction Hs1 as [|a t1 Hs1 IH Ha]; intros l2 Hs2 Hperm.
  - apply Permutation_nil in Hperm. now subst.
  - destruct Hs2 as [|b t2 Hs2 Hb].
    + apply Permutation_sym, Permutation_nil in Hperm. discriminate.
    + assert (Hplain2 : Forall Plain (b :: t2)).
      { rewrite Forall_forall in *. intros x Hx. apply Hplain.
        eapply Permutation_in; [apply Permutation_sym; exact Hperm | exact Hx]. }
      assert (a = b) as <-.
      { assert (Hin1 : In a (b :: t2))
          by (eapply Permutation_in; [exact Hperm | now left]).
        assert (Hin2 : In b (a :: t1))
          by (eapply Permutation_in; [apply Permutation_sym; exact Hperm | now left]).
        destruct Hin1 as [-> | Hin1]; [reflexivity|].
        destruct Hin2 as [-> | Hin2]; [reflexivity|].
        rewrite Forall_forall in Ha, Hb.
        apply refToStr_inj.
        - now inversion Hplain.
        - now inversion Hplain2.
        - rewrite !StatusRefsFacts.refToStr_namespaceSlashName.
          apply leb_antisym; [exact (Ha _ Hin2) | exact (Hb _ Hin1)]. }
      f_equal. apply IH.
      * now inversion Hplain.
      * exact Hs2.
      * eapply Permutation_cons_inv. exact Hperm.
Qed.

Lemma collectRefs_not_empty (items : list Extendable.t) : collectRefs items <> Some [].
Proof.
  unfold collectRefs.
  assert (H : forall acc : slice NamespacedRef.t, acc <> Some [] ->
           fold_left
             (fun refs item =>
                if negb (hasExtensionAppliedCondition (Extendable.Conditions item))
                then refs
                else append_slice refs
                       (NamespacedRef.mk (Extendable.Name item)
                          (Some (Extendable.Namespace item))))
             items acc <> Some []).
  { induction items as [|item items IH]; intros acc Hacc; simpl; [exact Hacc|].
    apply IH. destruct (hasExtensionAppliedCondition _); simpl; [|exact Hacc].
    destruct acc as [l|]; simpl; [|discriminate].
    intros [= E]. now destruct l. }
  apply H. discriminate.
Qed.

Lemma slice_by_elements (A : Type) (s1 s2 : slice A) :
  s1 <> Some [] -> s2 <> Some [] -> elements s1 = elements s2 -> s1 = s2.
Proof.
  destruct s1 as [l1|], s2 as [l2|]; simpl; intros H1 H2 E; subst; try reflexivity;
    contradiction.
Qed.

Lemma sortRefs_not_empty (s : slice NamespacedRef.t) : s <> Some [] -> sortRefs s <> Some [].
Proof.
  destruct s as [l|]; simpl; [|discriminate].
  intros H [= E]. apply H. f_equal.
  apply Permutation_nil. rewrite <- E. apply StatusRefsFacts.sortList_perm.
Qed.

Lemma sorted_refs_of_permutation (items items' : list Extendable.t) :
  Permutation items items' ->
  Forall (fun i => hasSlash (Extendable.Namespace i) = false) items ->
  sortRefs (collectRefs items) = sortRefs (collectRefs items').
Proof.
  intros Hperm Hplain.
  apply slice_by_elements; try (apply sortRefs_not_empty, collectRefs_not_empty).
  rewrite !StatusRefsFacts.elements_sortRefs, !StatusRefsFacts.elements_collectRefs.
  apply sorted_unique; try apply StatusRefsFacts.sortList_sorted.
  - rewrite Forall_forall in *. intros ref Href.
    apply (Permutation_in _ (StatusRefsFacts.sortList_perm _)) in Href.
    apply in_map_iff in Href. destruct Href as (item & <- & Hin).
    apply filter_In in Hin. destruct Hin as [Hin _].
    exists (Extendable.Namespace item). split; [reflexivity | now apply Hplain].
  - rewrite !StatusRefsFacts.sortList_perm. now apply Permutation_filter_map.
Qed.

(** The order in which the DataPlanes and the ControlPlanes are listed does
    not matter: when no namespace has a slash in it, as Kubernetes
    guarantees, two listings of the same items lead to the same references
    in the status and to the same calls. *)
Theorem ensureExtendablesReferencesInStatus_order_irrelevant
    (ext : KonnectExtension.t) (dps dps' cps cps' : list Extendable.t) :
  Permutation dps dps' -> Permutation cps cps' ->
  Forall (fun i => hasSlash (Extendable.Namespace i) = false) (dps ++ cps)%list ->
  ensureExtendablesReferencesInStatus ext dps cps =
  ensureExtendablesReferencesInStatus ext dps' cps'.
Proof.
  intros Hd Hc Hplain. apply Forall_app in Hplain. destruct Hplain as [Hpd Hpc].
  unfold ensureExtendablesReferencesInStatus.
  rewrite (sorted_refs_of_permutation Hd Hpd), (sorted_refs_of_permutation Hc Hpc).
  reflexivity.
Qed.

(** The three DataPlanes of the examples, listed in two orders. *)
Lemma ensureExtendablesReferencesInStatus_order_irrelevant_witness :
  ensureExtendablesReferencesInStatus KonnectExamples.ext1
    [KonnectExamples.d1; KonnectExamples.d2; KonnectExamples.d3] [] =
  ensureExtendablesReferencesInStatus KonnectExamples.ext1
    [KonnectExamples.d2; KonnectExamples.d1; KonnectExamples.d3] [].
Proof.
  apply (@ensureExtendablesReferencesInStatus_order_irrelevant KonnectExamples.ext1
           [KonnectExamples.d1; KonnectExamples.d2; KonnectExamples.d3]
           [KonnectExamples.d2; KonnectExamples.d1; KonnectExamples.d3] [] []).
  - apply perm_swap.
  - apply perm_nil.
  - repeat constructor.
Defined.

End StatusRefsPassFacts.

(* ------------------------------------------------------------------------- *)
(** ** The cleanup of owned ClusterRoles and ClusterRoleBindings *)
(* ------------------------------------------------------------------------- *)

Module OwnedCleanupFacts.
Import Go K8s Prog ControlPlane ControlPlaneRbac ProgFacts RbacNotions.
Local Open Scope string_scope.
Local Open Scope list_scope.

Section WithHandler.
Context {W : Type}.
Implicit Type h : Handler ClientE W.

(** The loop calls [Delete] on every object, in order. *)
Lemma deleteEach_calls h (objs : list Object) (deleted : bool) (errs : list error) (w : W) :
  snd (run h (deleteEach objs deleted errs) w) = map (fun obj => MkCall (Delete obj)) objs.
Proof.
  revert deleted errs w. induction objs as [|obj rest IH]; intros deleted errs w.
  - reflexivity.
  - cbn [deleteEach]. rewrite run_bind, run_call. cbv beta iota zeta.
    destruct (IgnoreNotFound (fst (h _ (Delete obj) w))) as [e|].
    + specialize (IH deleted (errs ++ [e]) (snd (h _ (Delete obj) w))).
      destruct (run h (deleteEach rest deleted (errs ++ [e])) _) as [[r w2] t].
      simpl in *. now rewrite IH.
    + specialize (IH true errs (snd (h _ (Delete obj) w))).
      destruct (run h (deleteEach rest true errs) _) as [[r w2] t].
      simpl in *. now rewrite IH.
Qed.

(** When the answer to a delete depends on the object only, the loop
    collects the failures in order and reports a deletion for every other
    answer. *)
Lemma deleteEach_value h (answer : Object -> option error) (objs : list Object)
    (deleted : bool) (errs : list error) (w : W) :
  (forall obj w0, fst (h _ (Delete obj) w0) = answer obj) ->
  fst (fst (run h (deleteEach objs deleted errs) w)) =
  (deleted || existsb (fun obj => gone (answer obj)) objs, errs ++ failures answer objs).
Proof.
  intros Hanswer. revert deleted errs w.
  induction objs as [|obj rest IH]; intros deleted errs w.
  - simpl. now rewrite orb_false_r, app_nil_r.
  - cbn [deleteEach]. rewrite run_bind, run_call. cbv beta iota zeta.
    rewrite Hanswer. unfold failures, gone. cbn [existsb flat_map].
    destruct (IgnoreNotFound (answer obj)) as [e|].
    + specialize (IH deleted (errs ++ [e]) (snd (h _ (Delete obj) w))).
      destruct (run h (deleteEach rest deleted (errs ++ [e])) _) as [[r w2] t].
      simpl in *. rewrite IH. unfold failures, gone. now rewrite <- app_assoc.
    + specialize (IH true errs (snd (h _ (Delete obj) w))).
      destruct (run h (deleteEach rest true errs) _) as [[r w2] t].
      simpl in *. rewrite IH. unfold failures, gone. now rewrite orb_true_r.
Qed.

Lemma failures_map (A : Type) (f : A -> Object) (answer : Object -> option error)
    (items : list A) :
  failures answer (map f items) = failures (fun x => answer (f x)) items.
Proof.
  unfold failures. induction items as [|x items IH]; simpl; [reflexivity | now rewrite IH].
Qed.

Lemma existsb_map (A B : Type) (f : A -> B) (p : B -> bool) (items : list A) :
  existsb p (map f items) = existsb (fun x => p (f x)) items.
Proof. induction items as [|x items IH]; simpl; [reflexivity | now rewrite IH]. Qed.

End WithHandler.

Section WithDeps.
Context {deps : Deps}.
Context {W : Type}.
Implicit Type h : Handler ClientE W.

(** Whatever the cluster answers to the deletions, every listed ClusterRole
    and every listed ClusterRoleBinding is handed to [Delete] once, in the
    order of the listing: a failed deletion does not stop the cleanup.  When
    the listing itself fails, its error is returned with no deletion reported
    and nothing is deleted. *)
Theorem ensureOwnedDeleted_tries_every_object h (cp : CP.t) (w w1 : W) :
  (forall items,
     h _ (ListClusterRoles (GetManagedByLabelSet cp)) w = (Ok items, w1) ->
     calls h (ensureOwnedClusterRolesDeleted cp) w =
     MkCall (ListClusterRoles (GetManagedByLabelSet cp)) :: map deleteClusterRole items) /\
  (forall items,
     h _ (ListClusterRoleBindings (GetManagedByLabelSet cp)) w = (Ok items, w1) ->
     calls h (ensureOwnedClusterRoleBindingsDeleted cp) w =
     MkCall (ListClusterRoleBindings (GetManagedByLabelSet cp))
       :: map deleteClusterRoleBinding items) /\
  (forall e,
     h _ (ListClusterRoles (GetManagedByLabelSet cp)) w = (Err e, w1) ->
     run h (ensureOwnedClusterRolesDeleted cp) w =
     ((false, Some (One e)), w1, [MkCall (ListClusterRoles (GetManagedByLabelSet cp))])) /\
  (forall e,
     h _ (ListClusterRoleBindings (GetManagedByLabelSet cp)) w = (Err e, w1) ->
     run h (ensureOwnedClusterRoleBindingsDeleted cp) w =
     ((false, Some (One e)), w1,
      [MkCall (ListClusterRoleBindings (GetManagedByLabelSet cp))])).
Proof.
  unfold calls, ensureOwnedClusterRolesDeleted, ensureOwnedClusterRoleBindingsDeleted.
  split; [|split; [|split]].
  - intros items Hlist. erewrite run_call_bind by exact Hlist. cbv beta iota.
    rewrite run_bind.
    pose proof (deleteEach_calls h (map ClusterRoleObj items) false [] w1) as Hlog.
    destruct (run h (deleteEach (map ClusterRoleObj items) false []) w1) as [[r w2] t].
    simpl in *. rewrite Hlog, app_nil_r, map_map. reflexivity.
  - intros items Hlist. erewrite run_call_bind by exact Hlist. cbv beta iota.
    rewrite run_bind.
    pose proof (deleteEach_calls h (map ClusterRoleBindingObj items) false [] w1) as Hlog.
    destruct (run h (deleteEach (map ClusterRoleBindingObj items) false []) w1)
      as [[r w2] t].
    simpl in *. rewrite Hlog, app_nil_r, map_map. reflexivity.
  - intros e Hlist. erewrite run_call_bind by exact Hlist. reflexivity.
  - intros e Hlist. erewrite run_call_bind by exact Hlist. reflexivity.
Qed.

(** Let the answer of the cluster to the deletion of an object depend on the
    object only.  Then the error returned is the join of the failed
    deletions, in the order of the listing, where a not-found answer is no
    failure; it is nil exactly when no deletion failed.  A deletion is
    reported exactly when some listed object was deleted or was gone
    already, also when other deletions failed. *)
Theorem ensureOwnedDeleted_result h (answer : Object -> option error) (cp : CP.t)
    (w w1 : W) :
  (forall obj w0, fst (h _ (Delete obj) w0) = answer obj) ->
  (forall items,
     h _ (ListClusterRoles (GetManagedByLabelSet cp)) w = (Ok items, w1) ->
     value h (ensureOwnedClusterRolesDeleted cp) w =
     (existsb (fun cr => gone (answer (ClusterRoleObj cr))) items,
      Join (failures (fun cr => answer (ClusterRoleObj cr)) items))) /\
  (forall items,
     h _ (ListClusterRoleBindings (GetManagedByLabelSet cp)) w = (Ok items, w1) ->
     value h (ensureOwnedClusterRoleBindingsDeleted cp) w =
     (existsb (fun crb => gone (answer (ClusterRoleBindingObj crb))) items,
      Join (failures (fun crb => answer (ClusterRoleBindingObj crb)) items))).
Proof.
  intros Hanswer.
  unfold value, ensureOwnedClusterRolesDeleted, ensureOwnedClusterRoleBindingsDeleted.
  split.
  - intros items Hlist. erewrite run_call_bind by exact Hlist. cbv beta iota.
    rewrite run_bind.
    pose proof (deleteEach_value h answer (map ClusterRoleObj items) false [] w1 Hanswer)
      as Hval.
    destruct (run h (deleteEach (map ClusterRoleObj items) false []) w1) as [[r w2] t].
    simpl in *. rewrite Hval. simpl. now rewrite existsb_map, failures_map.
  - intros items Hlist. erewrite run_call_bind by exact Hlist. cbv beta iota.
    rewrite run_bind.
    pose proof (deleteEach_value h answer (map ClusterRoleBindingObj items) false [] w1
                  Hanswer) as Hval.
    destruct (run h (deleteEach (map ClusterRoleBindingObj items) false []) w1)
      as [[r w2] t].
    simpl in *. rewrite Hval. simpl. now rewrite existsb_map, failures_map.
Qed.

End WithDeps.

End OwnedCleanupFacts.

(* ------------------------------------------------------------------------- *)
(** ** Pruning Roles and RoleBindings outside the watched namespaces *)
(* ------------------------------------------------------------------------- *)

Module PruneFacts.
Import Go K8s Prog ControlPlane ControlPlaneRbac ProgFacts RbacNotions.
Local Open Scope string_scope.
Local Open Scope list_scope.

Section Loop.
Context {E : Type -> Type} {A W : Type}.
Variable delete : A -> E (option error).
Variable metaOf : A -> ObjectMeta.t.
Implicit Type h : Handler E W.

Lemma pruneEach_run h (namespaces : list string) (msg : string) (objs : list A) :
  forall (deleted : bool) (w : W) d err w' log,
    run h (pruneEach delete metaOf objs namespaces msg deleted) w = ((d, err), w', log) ->
    match err with
    | None =>
        log = map (fun obj => MkCall (delete obj)) (outside metaOf namespaces objs) /\
        d = deleted || nonEmpty (outside metaOf namespaces objs)
    | Some e =>
        d = false /\
        exists pre obj post e0,
          outside metaOf namespaces objs = pre ++ obj :: post /\
          log = map (fun obj => MkCall (delete obj)) (pre ++ [obj]) /\
          e = failedDeleting msg (metaOf obj) e0
    end.
Proof.
  induction objs as [|obj rest IH]; intros deleted w d err w' log.
  - simpl. intros [= <- <- _ <-]. split; [reflexivity | now rewrite orb_false_r].
  - cbn [pruneEach]. rewrite run_bind. unfold deleteIfNotInNamespaceSet, outside.
    cbn [filter].
    destruct (Has namespaces (ObjectMeta.Namespace (metaOf obj))) eqn:Hin; cbn [negb].
    + rewrite run_ret. cbv beta iota zeta. cbn [negb].
      destruct (run h (pruneEach delete metaOf rest namespaces msg deleted) w)
        as [[[d1 err1] w1] log1] eqn:Hrest.
      intros [= <- <- _ <-]. exact (IH _ _ _ _ _ _ Hrest).
    + simpl run. destruct (h _ (delete obj) w) as [[e0|] w1].
      * simpl. intros [= <- <- _ <-]. split; [reflexivity|].
        exists [], obj, (outside metaOf namespaces rest), e0. repeat split.
      * simpl.
        destruct (run h (pruneEach delete metaOf rest namespaces msg true) w1)
          as [[[d1 err1] w2] log1] eqn:Hrest.
        intros [= <- <- _ <-]. apply IH in Hrest. destruct err1 as [e|].
        -- destruct Hrest as (Hd & pre & o & post & e0 & Hout & Hlog & He).
           split; [exact Hd|]. exists (obj :: pre), o, post, e0.
           unfold outside in Hout. rewrite Hout, Hlog. repeat split. exact He.
        -- destruct Hrest as [Hlog Hd]. rewrite Hlog, Hd. split; [reflexivity|].
           now rewrite orb_true_r.
Qed.

End Loop.

Section WithDeps.
Context {deps : Deps}.
Context {W W' : Type}.

(** A pruning that returns no error has handed to [Delete], after the
    listing, exactly the listed Roles (RoleBindings) whose namespace is not
    among the validated watch namespaces, in the order of the listing: an
    object in a watched namespace is never deleted.  It reports a deletion
    exactly when there was such an object. *)
Theorem prune_deletes_exactly_the_unwatched (hr : Handler RoleE W) (hc : Handler ClientE W')
    (cp : CP.t) (validatedWatchNamespaces : list string) :
  (forall items w w1 w2 deleted log,
     hr _ (listAllRoles cp) w = (Ok items, w1) ->
     run hr (pruneOutdatedRoles cp validatedWatchNamespaces) w = ((deleted, None), w2, log) ->
     log = MkCall (listAllRoles cp)
             :: map deleteRole (outside Role.Meta validatedWatchNamespaces items) /\
     deleted = nonEmpty (outside Role.Meta validatedWatchNamespaces items)) /\
  (forall items w w1 w2 deleted log,
     hc _ (listAllRoleBindings cp) w = (Ok items, w1) ->
     run hc (pruneOutdatedRoleBindings cp validatedWatchNamespaces) w
       = ((deleted, None), w2, log) ->
     log = MkCall (listAllRoleBindings cp)
             :: map deleteRoleBinding (outside RoleBinding.Meta validatedWatchNamespaces items) /\
     deleted = nonEmpty (outside RoleBinding.Meta validatedWatchNamespaces items)).
Proof.
  unfold listAllRoles, listAllRoleBindings, pruneOutdatedRoles, pruneOutdatedRoleBindings.
  split.
  - intros items w w1 w2 deleted log Hlist. erewrite run_call_bind by exact Hlist.
    cbv beta iota.
    destruct (run hr (pruneEach DeleteRole Role.Meta items validatedWatchNamespaces
                        "ControlPlane's Role" false) w1) as [[[d err] w3] t] eqn:Hrun.
    intros [= -> -> _ <-]. apply pruneEach_run in Hrun. destruct Hrun as [-> ->].
    split; reflexivity.
  - intros items w w1 w2 deleted log Hlist. erewrite run_call_bind by exact Hlist.
    cbv beta iota.
    destruct (run hc (pruneEach (fun rb => Delete (RoleBindingObj rb)) RoleBinding.Meta items
                        validatedWatchNamespaces "ControlPlane's RoleBinding" false) w1)
      as [[[d err] w3] t] eqn:Hrun.
    intros [= -> -> _ <-]. apply pruneEach_run in Hrun. destruct Hrun as [-> ->].
    split; reflexivity.
Qed.

(** A pruning stops at the first deletion that fails: the unwatched objects
    before it have been deleted, those after it are not touched, the error
    names the object whose deletion failed, and no deletion is reported,
    although some may have been made. *)
Theorem prune_stops_at_first_failure (hr : Handler RoleE W) (hc : Handler ClientE W')
    (cp : CP.t) (validatedWatchNamespaces : list string) :
  (forall items w w1 w2 deleted e log,
     hr _ (listAllRoles cp) w = (Ok items, w1) ->
     run hr (pruneOutdatedRoles cp validatedWatchNamespaces) w
       = ((deleted, Some e), w2, log) ->
     deleted = false /\
     exists pre role post e0,
       outside Role.Meta validatedWatchNamespaces items = pre ++ role :: post /\
       log = MkCall (listAllRoles cp) :: map deleteRole (pre ++ [role]) /\
       e = failedDeleting "ControlPlane's Role" (Role.Meta role) e0) /\
  (forall items w w1 w2 deleted e log,
     hc _ (listAllRoleBindings cp) w = (Ok items, w1) ->
     run hc (pruneOutdatedRoleBindings cp validatedWatchNamespaces) w
       = ((deleted, Some e), w2, log) ->
     deleted = false /\
     exists pre rb post e0,
       outside RoleBinding.Meta validatedWatchNamespaces items = pre ++ rb :: post /\
       log = MkCall (listAllRoleBindings cp) :: map deleteRoleBinding (pre ++ [rb]) /\
       e = failedDeleting "ControlPlane's RoleBinding" (RoleBinding.Meta rb) e0).
Proof.
  unfold listAllRoles, listAllRoleBindings, pruneOutdatedRoles, pruneOutdatedRoleBindings.
  split.
  - intros items w w1 w2 deleted e log Hlist. erewrite run_call_bind by exact Hlist.
    cbv beta iota.
    destruct (run hr (pruneEach DeleteRole Role.Meta items validatedWatchNamespaces
                        "ControlPlane's Role" false) w1) as [[[d err] w3] t] eqn:Hrun.
    intros [= -> -> _ <-]. apply pruneEach_run in Hrun.
    destruct Hrun as (Hd & pre & role & post & e0 & Hout & Hlog & He).
    split; [exact Hd|]. exists pre, role, post, e0. rewrite Hlog. now repeat split.
  - intros items w w1 w2 deleted e log Hlist. erewrite run_call_bind by exact Hlist.
    cbv beta iota.
    destruct (run hc (pruneEach (fun rb => Delete (RoleBindingObj rb)) RoleBinding.Meta items
                        validatedWatchNamespaces "ControlPlane's RoleBinding" false) w1)
      as [[[d err] w3] t] eqn:Hrun.
    intros [= -> -> _ <-]. apply pruneEach_run in Hrun.
    destruct Hrun as (Hd & pre & rb & post & e0 & Hout & Hlog & He).
    split; [exact Hd|]. exists pre, rb, post, e0. rewrite Hlog. now repeat split.
Qed.

End WithDeps.

End PruneFacts.

(* ------------------------------------------------------------------------- *)
(** ** [ensureRoleBindings] and [ensureRoles] *)
(* ------------------------------------------------------------------------- *)

Module RoleLoopFacts.
Import Go K8s Prog ControlPlane ControlPlaneRbac ProgFacts ProgNotions RbacNotions.
Local Open Scope string_scope.
Local Open Scope list_scope.

Section WithDeps.
Context {deps : Deps}.

Section RoleBindings.
Context {W : Type}.
Implicit Type h : Handler ClientE W.

(** The result carried into the loop matters only when no later binding
    changes. *)
Lemma ensureRoleBindingsFrom_acc h (cp : CP.t) (sa : string) (roles : list Role.t) :
  forall (res : opResult) (w : W),
    run h (ensureRoleBindingsFrom cp sa roles res) w =
    let '((r, e), w', log) := run h (ensureRoleBindingsFrom cp sa roles Noop) w in
    ((match e with
      | Some _ => Noop
      | None => match r with Noop => res | _ => r end
      end, e), w', log).
Proof.
  induction roles as [|role rest IH]; intros res w.
  - reflexivity.
  - cbn [ensureRoleBindingsFrom]. rewrite !run_bind.
    destruct (run h (ensureRoleBinding cp sa (ObjectKeyFromObject (Role.Meta role))) w)
      as [[[[resEnsure rb] err] w1] log1].
    destruct err as [e|]; [reflexivity|].
    rewrite (IH (match resEnsure with Noop => res | _ => resEnsure end)).
    rewrite (IH (match resEnsure with Noop => Noop | _ => resEnsure end)).
    destruct (run h (ensureRoleBindingsFrom cp sa rest Noop) w1) as [[[r e] w2] log2].
    destruct e as [e|]; [reflexivity|].
    destruct resEnsure, r; reflexivity.
Qed.

Lemma ensureRoleBindingsFrom_app h (cp : CP.t) (sa : string) (roles1 roles2 : list Role.t) :
  forall (res : opResult) (w : W),
    run h (ensureRoleBindingsFrom cp sa (roles1 ++ roles2) res) w =
    let '((r1, e1), w1, log1) := run h (ensureRoleBindingsFrom cp sa roles1 res) w in
    match e1 with
    | Some _ => ((r1, e1), w1, log1)
    | None =>
        let '((r2, e2), w2, log2) := run h (ensureRoleBindingsFrom cp sa roles2 r1) w1 in
        ((r2, e2), w2, log1 ++ log2)
    end.
Proof.
  induction roles1 as [|role rest IH]; intros res w.
  - simpl. destruct (run h (ensureRoleBindingsFrom cp sa roles2 res) w) as [[[r e] w2] log2].
    reflexivity.
  - cbn [app ensureRoleBindingsFrom]. rewrite !run_bind.
    destruct (run h (ensureRoleBinding cp sa (ObjectKeyFromObject (Role.Meta role))) w)
      as [[[[resEnsure rb] err] w1] log1].
    destruct err as [e|]; [reflexivity|].
    rewrite IH.
    destruct (run h (ensureRoleBindingsFrom cp sa rest
                       (match resEnsure with Noop => res | _ => resEnsure end)) w1)
      as [[[r1 e1] w2] log2].
    destruct e1 as [e|]; [reflexivity|].
    destruct (run h (ensureRoleBindingsFrom cp sa roles2 r1) w2) as [[[r2 e2] w3] log3].
    now rewrite app_assoc.
Qed.

(** The RoleBindings of a list of Roles are ensured one after the other.
    When the pass over a first part of the Roles fails, the function returns
    [Noop] with that error and makes no call for the Roles after it.
    Otherwise the pass over the rest follows on the cluster as the first part
    left it: its error, if any, is returned with [Noop], and without error
    the result is that of the last binding that was created or updated,
    [Noop] if there was none. *)
Theorem ensureRoleBindings_in_sequence h (cp : CP.t) (sa : ServiceAccount.t)
    (roles1 roles2 : list Role.t) (w w1 : W) (res1 : opResult) (err1 : option error)
    (log1 : list (Call ClientE)) :
  run h (ensureRoleBindings cp sa roles1) w = ((res1, err1), w1, log1) ->
  match err1 with
  | Some _ =>
      res1 = Noop /\
      run h (ensureRoleBindings cp sa (roles1 ++ roles2)) w = ((Noop, err1), w1, log1)
  | None =>
      forall res2 err2 w2 log2,
        run h (ensureRoleBindings cp sa roles2) w1 = ((res2, err2), w2, log2) ->
        run h (ensureRoleBindings cp sa (roles1 ++ roles2)) w =
        ((match err2 with
          | Some _ => Noop
          | None => match res2 with Noop => res1 | _ => res2 end
          end, err2), w2, log1 ++ log2)
  end.
Proof.
  unfold ensureRoleBindings. intros H1.
  pose proof (ensureRoleBindingsFrom_app h cp
                (ObjectMeta.Name (ServiceAccount.Meta sa)) roles1 roles2 Noop w) as Happ.
  rewrite H1 in Happ. destruct err1 as [e|].
  - assert (Hres : res1 = Noop).
    { pose proof (ensureRoleBindingsFrom_acc h cp
                    (ObjectMeta.Name (ServiceAccount.Meta sa)) roles1 Noop w) as Hacc.
      rewrite H1 in Hacc. now injection Hacc. }
    split; [exact Hres|]. rewrite Happ, Hres. reflexivity.
  - intros res2 err2 w2 log2 H2. rewrite Happ, ensureRoleBindingsFrom_acc, H2.
    reflexivity.
Qed.

End RoleBindings.

Section Roles.
Context {W : Type}.
Implicit Type h : Handler RoleE W.

Lemma elements_append_slice (A : Type) (s : slice A) (x : A) :
  elements (append_slice s x) = elements s ++ [x].
Proof. destruct s; reflexivity. Qed.

Lemma ensureRolesFrom_outcome h (cp : CP.t) (generatedRoles : list Role.t) :
  forall (c0 : bool) (roles0 : slice Role.t) (w : W) c roles err w' log,
    run h (ensureRolesFrom cp generatedRoles c0 roles0) w = ((c, roles, err), w', log) ->
    match err with
    | Some _ => c = false /\ roles = None
    | None =>
        c = c0 || existsb (recorded writesRole) log /\
        existsb (recorded removesRoles) log = false /\
        List.length (elements roles) =
        List.length (elements roles0) + List.length generatedRoles
    end.
Proof.
  induction generatedRoles as [|g rest IH]; intros c0 roles0 w c roles err w' log.
  - simpl. intros [= <- <- <- _ <-]. simpl. rewrite orb_false_r. repeat split. lia.
  - cbn [ensureRolesFrom]. simpl run.
    destruct (h _ (ListRoles (GetManagedByLabelSet cp) (ObjectMeta.Namespace (Role.Meta g))) w)
      as [[existingRoles | e] w1]; [|simpl; intros [= <- <- <- _ _]; now split].
    destruct existingRoles as [|existing [|second more]].
    + simpl run. destruct (h _ (CreateRole g) w1) as [[e|] w2];
        [simpl; intros [= <- <- <- _ _]; now split|].
      destruct (run h (ensureRolesFrom cp rest true (append_slice roles0 g)) w2)
        as [[[[c1 roles1] err1] w3] log1] eqn:Hrest.
      intros [= <- <- <- _ <-]. apply IH in Hrest. destruct err1 as [e|]; [exact Hrest|].
      destruct Hrest as (Hc & Hrem & Hlen). rewrite elements_append_slice, length_app in Hlen.
      cbn [existsb recorded writesRole removesRoles orb List.length] in *.
      rewrite Hc, orb_true_r. repeat split; [exact Hrem | lia].
    + cbv zeta.
      destruct (EnsureObjectMetaIsUpdated (Role.Meta existing) (Role.Meta g))
        as [updated meta].
      cbn [Role.Rules].
      destruct (updated || negb (Rules_eqb (Role.Rules existing) (Role.Rules g))).
      * simpl run.
        destruct (h _ (PatchRole (Role.mk meta (Role.Rules g)) existing) w1) as [[e|] w2];
          [simpl; intros [= <- <- <- _ _]; now split|].
        destruct (run h (ensureRolesFrom cp rest true
                           (append_slice roles0 (Role.mk meta (Role.Rules g)))) w2)
          as [[[[c1 roles1] err1] w3] log1] eqn:Hrest.
        intros [= <- <- <- _ <-]. apply IH in Hrest. destruct err1 as [e|]; [exact Hrest|].
        destruct Hrest as (Hc & Hrem & Hlen).
        rewrite elements_append_slice, length_app in Hlen.
        cbn [existsb recorded writesRole removesRoles orb List.length] in *.
        rewrite Hc, orb_true_r. repeat split; [exact Hrem | lia].
      * destruct (run h (ensureRolesFrom cp rest c0
                           (append_slice roles0 (Role.mk meta (Role.Rules existing)))) w1)
          as [[[[c1 roles1] err1] w3] log1] eqn:Hrest.
        intros [= <- <- <- _ <-]. apply IH in Hrest. destruct err1 as [e|]; [exact Hrest|].
        destruct Hrest as (Hc & Hrem & Hlen).
        rewrite elements_append_slice, length_app in Hlen.
        cbn [existsb recorded writesRole removesRoles orb List.length] in *.
        repeat split; [exact Hc | exact Hrem | lia].
    + simpl run. destruct (h _ (ReduceRoles _) w1) as [[e|] w2];
        simpl; intros [= <- <- <- _ _]; now split.
Qed.

(** Whatever the cluster answers: when [ensureRoles] returns an error it
    reports no change and returns no Role, also when it has created or
    patched Roles before the failure.  When it returns no error it returns
    one Role for each generated Role, it reports a change exactly when it
    has created or patched a Role, and it has removed no Role. *)
Theorem ensureRoles_outcome h (cp : CP.t) (generatedRoles : list Role.t) (w w' : W)
    (createdOrUpdated : bool) (roles : slice Role.t) (err : option error)
    (log : list (Call RoleE)) :
  run h (ensureRoles cp generatedRoles) w = ((createdOrUpdated, roles, err), w', log) ->
  match err with
  | Some _ => createdOrUpdated = false /\ roles = None
  | None =>
      List.length (elements roles) = List.length generatedRoles /\
      createdOrUpdated = existsb (recorded writesRole) log /\
      existsb (recorded removesRoles) log = false
  end.
Proof.
  unfold ensureRoles. intros Hrun. apply ensureRolesFrom_outcome in Hrun.
  destruct err as [e|]; [exact Hrun|].
  destruct Hrun as (Hc & Hrem & Hlen). simpl in *. now repeat split.
Qed.

End Roles.

End WithDeps.

End RoleLoopFacts.

(* ------------------------------------------------------------------------- *)
(** ** The properties of the cleanup, the pruning and the two loops on
       concrete clusters *)
(* ------------------------------------------------------------------------- *)

Module RbacExamples.
Import Go K8s Prog ControlPlane ControlPlaneRbac ProgFacts RbacNotions RbacScenarios.
Import OwnedCleanupFacts PruneFacts RoleLoopFacts.
Local Open Scope string_scope.
Local Open Scope list_scope.

#[local] Existing Instance ControlPlaneExamples.deps.

(** Three ClusterRoles, the second gone already and the third locked: all
    three are handed to [Delete]. *)
Lemma ensureOwnedDeleted_tries_every_object_witness :
  calls (guarded [clusterRole "a"; clusterRole "gone"; clusterRole "locked"] [] [])
    (ensureOwnedClusterRolesDeleted cp) tt
  = [MkCall (ListClusterRoles (GetManagedByLabelSet cp));
     deleteClusterRole (clusterRole "a");
     deleteClusterRole (clusterRole "gone");
     deleteClusterRole (clusterRole "locked")].
Proof.
  destruct (@ensureOwnedDeleted_tries_every_object _ _
              (guarded [clusterRole "a"; clusterRole "gone"; clusterRole "locked"] [] [])
              cp tt tt) as [Hroles _].
  apply (Hroles [clusterRole "a"; clusterRole "gone"; clusterRole "locked"]).
  reflexivity.
Defined.

(** The same cluster: a deletion is reported and the one failure is
    returned; with the locked ClusterRoleBinding alone no deletion is
    reported. *)
Lemma ensureOwnedDeleted_result_witness :
  value (guarded [clusterRole "a"; clusterRole "gone"; clusterRole "locked"]
           [clusterRoleBinding "locked"] [])
    (ensureOwnedClusterRolesDeleted cp) tt
  = (true, Some (Joined [forbidden])) /\
  value (guarded [clusterRole "a"; clusterRole "gone"; clusterRole "locked"]
           [clusterRoleBinding "locked"] [])
    (ensureOwnedClusterRoleBindingsDeleted cp) tt
  = (false, Some (Joined [forbidden])).
Proof.
  destruct (@ensureOwnedDeleted_result _ _
              (guarded [clusterRole "a"; clusterRole "gone"; clusterRole "locked"]
                 [clusterRoleBinding "locked"] [])
              (fun obj => deletion (ObjectMeta.Name (metaOf obj))) cp tt tt
              (fun obj w0 => eq_refl)) as [Hroles Hbindings].
  split.
  - apply (Hroles [clusterRole "a"; clusterRole "gone"; clusterRole "locked"]). reflexivity.
  - apply (Hbindings [clusterRoleBinding "locked"]). reflexivity.
Defined.

(** Roles and RoleBindings in a watched and in a formerly watched
    namespace: the latter are deleted. *)
Lemma prune_deletes_exactly_the_unwatched_witness :
  calls roleStore (pruneOutdatedRoles cp ["ns-a"]) [role "cp" "ns-a"; role "cp" "ns-old"]
  = [MkCall (listAllRoles cp); deleteRole (role "cp" "ns-old")] /\
  calls (guarded [] [] [roleBinding "cp" "ns-a"; roleBinding "cp" "ns-old"])
    (pruneOutdatedRoleBindings cp ["ns-a"]) tt
  = [MkCall (listAllRoleBindings cp); deleteRoleBinding (roleBinding "cp" "ns-old")].
Proof.
  destruct (@prune_deletes_exactly_the_unwatched _ _ _ roleStore
              (guarded [] [] [roleBinding "cp" "ns-a"; roleBinding "cp" "ns-old"])
              cp ["ns-a"]) as [Hroles Hbindings].
  split.
  - unfold calls.
    apply (Hroles [role "cp" "ns-a"; role "cp" "ns-old"]
             [role "cp" "ns-a"; role "cp" "ns-old"] [role "cp" "ns-a"; role "cp" "ns-old"]
             [role "cp" "ns-a"] true); reflexivity.
  - unfold calls.
    apply (Hbindings [roleBinding "cp" "ns-a"; roleBinding "cp" "ns-old"] tt tt tt true);
      reflexivity.
Defined.

(** Three Roles outside the watched namespaces, the second locked: the
    first is deleted, the third is left, and no deletion is reported. *)
Lemma prune_stops_at_first_failure_witness :
  run roleStore (pruneOutdatedRoles cp ["ns-a"])
    [role "a" "ns-1"; role "locked" "ns-2"; role "c" "ns-3"]
  = ((false, Some (failedDeleting "ControlPlane's Role" (ControlPlaneExamples.meta "locked" "ns-2")
                     forbidden)),
     [role "locked" "ns-2"; role "c" "ns-3"],
     [MkCall (listAllRoles cp); deleteRole (role "a" "ns-1");
      deleteRole (role "locked" "ns-2")]) /\
  fst (fst (fst (run roleStore (pruneOutdatedRoles cp ["ns-a"])
                   [role "a" "ns-1"; role "locked" "ns-2"; role "c" "ns-3"]))) = false.
Proof.
  split; [reflexivity|].
  destruct (@prune_stops_at_first_failure _ _ unit roleStore (guarded [] [] [])
              cp ["ns-a"]) as [Hroles _].
  apply (Hroles [role "a" "ns-1"; role "locked" "ns-2"; role "c" "ns-3"]
           [role "a" "ns-1"; role "locked" "ns-2"; role "c" "ns-3"]
           [role "a" "ns-1"; role "locked" "ns-2"; role "c" "ns-3"]
           [role "locked" "ns-2"; role "c" "ns-3"] false
           (failedDeleting "ControlPlane's Role" (ControlPlaneExamples.meta "locked" "ns-2")
              forbidden)
           [MkCall (listAllRoles cp); deleteRole (role "a" "ns-1");
            deleteRole (role "locked" "ns-2")]); reflexivity.
Defined.

(** On an empty cluster the binding of the first Role is created and that
    of the second is found in place: the result is [Created]. *)
Lemma ensureRoleBindings_in_sequence_witness :
  fst (fst (run ControlPlaneExamples.handler
              (ensureRoleBindings cp sa ([role "cp" "ns-a"] ++ [role "cp" "ns-b"]))
              ControlPlaneExamples.emptyCluster))
  = (Created, None).
Proof.
  pose proof (@ensureRoleBindings_in_sequence _ _ ControlPlaneExamples.handler cp sa
                [role "cp" "ns-a"] [role "cp" "ns-b"] ControlPlaneExamples.emptyCluster
                _ _ _ _ eq_refl) as Hseq.
  cbv beta iota in Hseq. erewrite Hseq by reflexivity. reflexivity.
Defined.

(** On a cluster without Roles both generated Roles are created and a change
    is reported. *)
Lemma ensureRoles_outcome_witness :
  List.length
    (elements (snd (fst (value roleStore
                           (ensureRoles cp [role "cp" "ns-a"; role "cp" "ns-b"]) [])))) = 2.
Proof.
  apply (@ensureRoles_outcome _ _ roleStore cp [role "cp" "ns-a"; role "cp" "ns-b"] []
           [role "cp" "ns-a"; role "cp" "ns-b"] true
           (Some [role "cp" "ns-a"; role "cp" "ns-b"]) None
           [MkCall (listRolesFor cp (role "cp" "ns-a")); MkCall (CreateRole (role "cp" "ns-a"));
            MkCall (listRolesFor cp (role "cp" "ns-b")); MkCall (CreateRole (role "cp" "ns-b"))]).
  reflexivity.
Defined.

End RbacExamples.

(* ------------------------------------------------------------------------- *)
(** ** [ensureRolesAndClusterRoles] *)
(* ------------------------------------------------------------------------- *)

Module RolesAndClusterRolesFacts.
Import Go K8s Prog ControlPlane ControlPlaneRbac ControlPlaneRoles.
Import ProgFacts ProgNotions Notions RbacNotions RolesNotions.
Local Open Scope string_scope.
Local Open Scope list_scope.

(** Case analysis on everything that a program or a run inspects. *)
Ltac cases :=
  repeat first
    [ exact I
    | reflexivity
    | progress simpl
    | split
    | intro
    | match goal with
      | |- context [match ?x with _ => _ end] => destruct x
      | |- context [if ?b then _ else _] => destruct b
      end ].

Section Programs.
Context {E : Type -> Type}.

Lemma Within_run (R W : Type) (P : forall X, E X -> bool) (p : Prog E R) :
  Within P p -> forall (h : Handler E W) (w : W), forallb (recorded P) (snd (run h p w)) = true.
Proof.
  induction p as [r | X e k IH]; intros Hin h w; [reflexivity|].
  destruct Hin as [He Hk]. simpl. destruct (h X e w) as [x w1].
  specialize (IH x (Hk x) h w1). destruct (run h (k x) w1) as [[r w2] t].
  simpl in *. now rewrite He, IH.
Qed.

Lemma Within_bind (A B : Type) (P : forall X, E X -> bool) (m : Prog E A) (f : A -> Prog E B) :
  Within P m -> (forall a, Within P (f a)) -> Within P (bind m f).
Proof.
  intros Hm Hf. induction m as [a | X e k IH]; simpl; [apply Hf|].
  destruct Hm as [He Hk]. split; [exact He|]. intros x. apply IH, Hk.
Qed.

Lemma Within_translate (F : Type -> Type) (R : Type) (f : forall X, E X -> F X)
    (P : forall X, F X -> bool) (p : Prog E R) :
  Within (fun X e => P X (f X e)) p -> Within P (translate f p).
Proof.
  induction p as [r | X e k IH]; simpl; [trivial|].
  intros [He Hk]. split; [exact He|]. intros x. apply IH, Hk.
Qed.

Lemma run_translate (F : Type -> Type) (R W : Type) (f : forall X, E X -> F X)
    (h : Handler F W) (p : Prog E R) (w : W) :
  run h (translate f p) w =
  let '(r, w', log) := run (fun X e => h X (f X e)) p w in (r, w', map (liftCall f) log).
Proof.
  revert w. induction p as [r | X e k IH]; intros w; [reflexivity|].
  simpl. destruct (h X (f X e) w) as [x w1]. rewrite IH.
  destruct (run (fun X e => h X (f X e)) (k x) w1) as [[r w2] t]. reflexivity.
Qed.

Lemma existsb_liftCall (F : Type -> Type) (f : forall X, E X -> F X)
    (Q : forall X, F X -> bool) (log : list (Call E)) :
  existsb (recorded Q) (map (liftCall f) log) =
  existsb (recorded (fun X e => Q X (f X e))) log.
Proof.
  induction log as [|[X e] log IH]; simpl; [reflexivity | now rewrite IH].
Qed.

End Programs.

Section WithDeps.
Context {deps : Deps} {roleDeps : RoleDeps}.

Lemma Within_ensureClusterRole (cp : CP.t) (generated : ClusterRole.t) :
  Within clusterWideClient (ensureClusterRole cp generated).
Proof. unfold ensureClusterRole. cases. Qed.

Lemma Within_ensureClusterRoleBinding (cp : CP.t) (sa name : string) :
  Within clusterWideClient (ensureClusterRoleBinding cp sa name).
Proof. unfold ensureClusterRoleBinding. cases. Qed.

(** Without validated watch namespaces, as for a ControlPlane that watches
    all namespaces, every call of [ensureRolesAndClusterRoles] reads or
    changes ClusterRoles or ClusterRoleBindings, whatever the cluster
    answers: the API resources are not discovered, and no Role and no
    RoleBinding is listed, written or pruned, so that those left from an
    earlier list of watch namespaces stay in the cluster. *)
Theorem ensureRolesAndClusterRoles_without_watch_namespaces W (h : Handler RbacE W) (w : W)
    (r : Reconciler.t) (cp : CP.t) (sa : ServiceAccount.t) :
  forallb (recorded clusterWide) (calls h (ensureRolesAndClusterRoles r cp sa []) w) = true.
Proof.
  unfold calls. apply Within_run.
  unfold ensureRolesAndClusterRoles, generateRoleAndClusterRole.
  destruct (ControlPlaneSpec.PodTemplateSpec_ (CP.Spec cp)) as [tpl|]; [|exact I].
  destruct (GetPodContainerByName tpl ControlPlaneControllerContainerName) as [c|];
    [|exact I].
  destruct (GenerateNewClusterRoleForControlPlane _ _ _) as [clusterRole | err]; [|exact I].
  cbn [List.length Nat.ltb Nat.leb bind].
  apply Within_bind.
  - apply Within_translate. apply Within_ensureClusterRole.
  - intros [[createdOrUpdated [cr|]] [e|]]; try exact I;
      destruct createdOrUpdated; try exact I.
    apply Within_bind.
    + apply Within_translate. apply Within_ensureClusterRoleBinding.
    + intros [[createdOrUpdated [crb|]] [e|]]; try exact I;
        destruct createdOrUpdated; exact I.
Qed.

(** With validated watch namespaces, a controller container to read the
    image from, a generated ClusterRole and a discovery that answers,
    [generateRoleAndClusterRole] makes the discovery call and nothing else
    and returns one Role for each namespace together with the generated
    ClusterRole, marked as owned, whose rules are replaced by rules that are
    each a generated rule with some of its resources left out: restricting a
    ControlPlane to namespaces never adds a permission to its ClusterRole. *)
Theorem generateRoleAndClusterRole_restricts W (h : Handler RbacE W) (w w1 : W)
    (r : Reconciler.t) (cp : CP.t) (namespaces : list string)
    (podTemplateSpec : PodTemplateSpec.t) (container : Container.t)
    (generated : ClusterRole.t) (m : APIResourceListMapping) :
  ControlPlaneSpec.PodTemplateSpec_ (CP.Spec cp) = Some podTemplateSpec ->
  GetPodContainerByName podTemplateSpec ControlPlaneControllerContainerName = Some container ->
  GenerateNewClusterRoleForControlPlane (CP.Name cp) (Container.Image container)
    (Reconciler.ValidateControlPlaneImage r) = Ok generated ->
  namespaces <> [] ->
  h _ GetAPIResourceListMapping w = (Ok m, w1) ->
  exists roles clusterRole,
    run h (generateRoleAndClusterRole r cp namespaces) w =
    (Returns (Some roles, Some clusterRole, None), w1, [MkCall GetAPIResourceListMapping]) /\
    List.length roles = List.length namespaces /\
    ClusterRole.Meta clusterRole
    = SetOwnerForObjectThroughLabels (ClusterRole.Meta generated) cp /\
    ClusterRole.AggregationRule clusterRole = ClusterRole.AggregationRule generated /\
    Forall (Narrowed (ClusterRole.Rules generated)) (ClusterRole.Rules clusterRole).
Proof.
  intros Htpl Hcontainer Hgen Hns Hdisc. unfold generateRoleAndClusterRole.
  rewrite Htpl, Hcontainer, Hgen.
  destruct namespaces as [|ns namespaces]; [now contradiction Hns|].
  cbn [List.length Nat.ltb Nat.leb]. erewrite run_call_bind by exact Hdisc.
  cbv beta iota zeta.
  pose proof (@PartitionFacts.rules_keep m (ClusterRole.Rules generated)
                (ClusterRole.Rules generated) ([], []) (incl_refl _) (Forall_nil _)
                (Forall_nil _)) as [_ Hcluster].
  unfold processClusterRole. cbn [ClusterRole.Rules].
  destruct (fold_left (ruleStep m) (ClusterRole.Rules generated) ([], []))
    as [roleRules clusterRolesRules].
  eexists _, _. split; [reflexivity|].
  split; [now rewrite length_map|]. repeat split. exact Hcluster.
Qed.

(** *** What the result says about the calls made *)

Lemma writes_onClient (log : list (Call ClientE)) :
  existsb (recorded writes) (map (liftCall (@OnClient)) log)
  = existsb (recorded writesClient) log.
Proof. exact (@existsb_liftCall _ _ (@OnClient) writes log). Qed.

Lemma writes_onRoles (log : list (Call RoleE)) :
  existsb (recorded writes) (map (liftCall (@OnRoles)) log)
  = existsb (recorded writesRole) log.
Proof. exact (@existsb_liftCall _ _ (@OnRoles) writes log). Qed.

Lemma removes_onClient (log : list (Call ClientE)) :
  existsb (recorded removes) (map (liftCall (@OnClient)) log)
  = existsb (recorded removesClient) log.
Proof. exact (@existsb_liftCall _ _ (@OnClient) removes log). Qed.

Lemma removes_onRoles (log : list (Call RoleE)) :
  existsb (recorded removes) (map (liftCall (@OnRoles)) log)
  = existsb (recorded removesRoles) log.
Proof. exact (@existsb_liftCall _ _ (@OnRoles) removes log). Qed.

Section Client.
Context {W : Type}.
Implicit Type h : Handler ClientE W.

Ltac report :=
  repeat first
    [ progress simpl
    | match goal with
      | |- context [match ?x with _ => _ end] =>
          lazymatch x with
          | context [match _ with _ => _ end] => fail
          | _ => destruct x
          end
      end ];
  intros; repeat split; intros; try reflexivity; try congruence; try discriminate.

Lemma ensureClusterRole_report h (cp : CP.t) (generated : ClusterRole.t) (w : W) :
  let '((c, x, err), _, log) := run h (ensureClusterRole cp generated) w in
  err = None ->
  existsb (recorded removesClient) log = false /\
  existsb (recorded writesClient) log = c /\
  (c = false -> x <> None).
Proof. unfold ensureClusterRole. report. Qed.

Lemma ensureClusterRoleBinding_report h (cp : CP.t) (sa name : string) (w : W) :
  let '((c, x, err), _, log) := run h (ensureClusterRoleBinding cp sa name) w in
  err = None ->
  existsb (recorded removesClient) log = false /\
  existsb (recorded writesClient) log = c.
Proof. unfold ensureClusterRoleBinding. report. Qed.

Lemma ensureRoleBinding_report h (cp : CP.t) (sa : string) (key : ObjectKey.t) (w : W) :
  let '((res, x, err), _, log) := run h (ensureRoleBinding cp sa key) w in
  err = None ->
  existsb (recorded removesClient) log = false /\
  existsb (recorded writesClient) log = negb (isNoop res).
Proof. unfold ensureRoleBinding. report. Qed.

Lemma ensureRoleBindingsFrom_report h (cp : CP.t) (sa : string) (roles : list Role.t) :
  forall (res0 : opResult) (w : W),
    let '((res, err), _, log) := run h (ensureRoleBindingsFrom cp sa roles res0) w in
    err = None ->
    existsb (recorded removesClient) log = false /\
    negb (isNoop res) = negb (isNoop res0) || existsb (recorded writesClient) log.
Proof.
  induction roles as [|role rest IH]; intros res0 w.
  - simpl. intros _. now rewrite orb_false_r.
  - cbn [ensureRoleBindingsFrom]. rewrite run_bind.
    pose proof (ensureRoleBinding_report h cp sa (ObjectKeyFromObject (Role.Meta role)) w)
      as Hone.
    destruct (run h (ensureRoleBinding cp sa (ObjectKeyFromObject (Role.Meta role))) w)
      as [[[[resEnsure rb] err] w1] log1].
    destruct err as [e|]; [simpl; discriminate|].
    destruct (Hone eq_refl) as [Hrem Hwr].
    specialize (IH (match resEnsure with Noop => res0 | _ => resEnsure end) w1).
    destruct (run h (ensureRoleBindingsFrom cp sa rest _) w1) as [[[res err] w2] log2].
    intros Herr. destruct (IH Herr) as [Hrem2 Hres].
    rewrite !existsb_app, Hrem, Hrem2, Hwr, Hres. split; [reflexivity|].
    destruct resEnsure, res0; simpl; reflexivity.
Qed.

End Client.

Section Pruning.
Context {E : Type -> Type} {A W : Type}.
Variable delete : A -> E (option error).
Variable metaOf : A -> ObjectMeta.t.
Variable Q : forall X, E X -> bool.
Hypothesis Qdelete : forall obj, Q (delete obj) = false.

Lemma pruneEach_quiet (h : Handler E W) (namespaces : list string) (msg : string)
    (objs : list A) :
  forall (deleted : bool) (w : W),
    existsb (recorded Q) (snd (run h (pruneEach delete metaOf objs namespaces msg deleted) w))
    = false.
Proof.
  induction objs as [|obj rest IH]; intros deleted w; [reflexivity|].
  cbn [pruneEach]. rewrite run_bind. unfold deleteIfNotInNamespaceSet.
  destruct (Has namespaces (ObjectMeta.Namespace (metaOf obj))).
  - rewrite run_ret. cbv beta iota zeta. cbn [negb].
    specialize (IH deleted w).
    destruct (run h (pruneEach delete metaOf rest namespaces msg deleted) w) as [[r w1] t].
    exact IH.
  - simpl run. destruct (h _ (delete obj) w) as [[e0|] w1]; simpl.
    + now rewrite Qdelete.
    + specialize (IH true w1).
      destruct (run h (pruneEach delete metaOf rest namespaces msg true) w1) as [[r w2] t].
      simpl in *. now rewrite Qdelete.
Qed.

End Pruning.

Lemma pruneOutdatedRoles_quiet W (h : Handler RoleE W) (cp : CP.t) (namespaces : list string)
    (w : W) :
  existsb (recorded writesRole) (snd (run h (pruneOutdatedRoles cp namespaces) w)) = false.
Proof.
  unfold pruneOutdatedRoles. simpl run.
  destruct (h _ (ListRoles (GetManagedByLabelSet cp) NamespaceAll) w) as [[roles | e] w1];
    [|reflexivity].
  pose proof (pruneEach_quiet DeleteRole Role.Meta writesRole (fun _ => eq_refl) h namespaces
                "ControlPlane's Role" roles false w1) as Hq.
  destruct (run h (pruneEach DeleteRole Role.Meta roles namespaces _ false) w1) as [[r w2] t].
  exact Hq.
Qed.

Lemma pruneOutdatedRoleBindings_quiet W (h : Handler ClientE W) (cp : CP.t)
    (namespaces : list string) (w : W) :
  existsb (recorded writesClient) (snd (run h (pruneOutdatedRoleBindings cp namespaces) w))
  = false.
Proof.
  unfold pruneOutdatedRoleBindings. simpl run.
  destruct (h _ (ListRoleBindings (GetManagedByLabelSet cp) NamespaceAll) w)
    as [[rbs | e] w1]; [|reflexivity].
  pose proof (pruneEach_quiet (fun rb => Delete (RoleBindingObj rb)) RoleBinding.Meta
                writesClient (fun _ => eq_refl) h namespaces "ControlPlane's RoleBinding"
                rbs false w1) as Hq.
  destruct (run h (pruneEach _ RoleBinding.Meta rbs namespaces _ false) w1) as [[r w2] t].
  exact Hq.
Qed.

Section Composition.
Context {W : Type}.
Variable h : Handler RbacE W.

Lemma ensureNamespacedRoles_report (cp : CP.t) (sa : ServiceAccount.t)
    (namespaces : list string) (generatedRoles : list Role.t) (w : W) :
  let '((res, err), _, log) :=
    run h (ensureNamespacedRoles cp sa namespaces generatedRoles) w in
  match err with
  | Some _ => res = Noop
  | None =>
      existsb (recorded writes) log = negb (isNoop res) /\
      (res <> Noop -> existsb (recorded removes) log = false)
  end.
Proof.
  unfold ensureNamespacedRoles, onRoles, onClient, ensureRoles, ensureRoleBindings.
  rewrite run_bind, run_translate.
  destruct (run (fun X e => h (OnRoles e)) (ensureRolesFrom cp generatedRoles false None) w)
    as [[[[c roles] err] w1] log1] eqn:H1.
  apply RoleLoopFacts.ensureRolesFrom_outcome in H1.
  destruct err as [e|]; [reflexivity|]. destruct H1 as (Hc & Hrem1 & _).
  cbn [orb] in Hc. destruct c.
  - simpl. rewrite app_nil_r, writes_onRoles, removes_onRoles, <- Hc, Hrem1. now split.
  - rewrite run_bind, run_translate.
    pose proof (ensureRoleBindingsFrom_report (fun X e => h (OnClient e)) cp
                  (ObjectMeta.Name (ServiceAccount.Meta sa)) (elements roles) Noop w1) as H2.
    destruct (run (fun X e => h (OnClient e))
                (ensureRoleBindingsFrom cp (ObjectMeta.Name (ServiceAccount.Meta sa))
                   (elements roles) Noop) w1) as [[[res2 err2] w2] log2].
    destruct err2 as [e|]; [reflexivity|]. destruct (H2 eq_refl) as [Hrem2 Hres2].
    cbn [isNoop negb orb] in Hres2.
    assert (Hquiet : forall res,
              res <> Noop ->
              existsb (recorded writes)
                (map (liftCall (@OnRoles)) log1 ++ map (liftCall (@OnClient)) log2 ++ [])
              = negb (isNoop res2) /\
              existsb (recorded removes)
                (map (liftCall (@OnRoles)) log1 ++ map (liftCall (@OnClient)) log2 ++ [])
              = false).
    { intros res _.
      rewrite app_nil_r, !existsb_app, writes_onRoles, writes_onClient, removes_onRoles,
        removes_onClient, <- Hc, <- Hres2, Hrem1, Hrem2. now split. }
    destruct res2.
    + rewrite run_bind, run_translate.
      pose proof (pruneOutdatedRoles_quiet (fun X e => h (OnRoles e)) cp namespaces w2) as H3.
      destruct (run (fun X e => h (OnRoles e)) (pruneOutdatedRoles cp namespaces) w2)
        as [[[d3 err3] w3] log3].
      cbn [snd] in *. destruct err3 as [e|]; [reflexivity|].
      rewrite run_bind, run_translate.
      pose proof (pruneOutdatedRoleBindings_quiet (fun X e => h (OnClient e)) cp namespaces w3)
        as H4.
      destruct (run (fun X e => h (OnClient e)) (pruneOutdatedRoleBindings cp namespaces) w3)
        as [[[d4 err4] w4] log4].
      cbn [snd] in *. destruct err4 as [e|]; [reflexivity|].
      simpl run. split; [|intros Hne; now contradiction Hne].
      rewrite app_nil_r, !existsb_app, !writes_onRoles, !writes_onClient, <- Hc, <- Hres2,
        H3, H4. reflexivity.
    + simpl run. destruct (Hquiet Created) as [Hw Hr]; [discriminate|]. now split.
    + simpl run. destruct (Hquiet Updated) as [Hw Hr]; [discriminate|]. now split.
    + simpl run. destruct (Hquiet Deleted) as [Hw Hr]; [discriminate|]. now split.
Qed.

(** Whatever the cluster answers, the result of a pass that returns tells
    what the pass did.  With an error the result is [Noop].  Without error
    the result differs from [Noop] exactly when the pass has created or
    patched an object, and then it has deleted nothing; so a pass that
    returns [Noop] without error has written nothing, though it may have
    pruned Roles and RoleBindings outside the watch namespaces. *)
Theorem ensureRolesAndClusterRoles_report (r : Reconciler.t) (cp : CP.t)
    (sa : ServiceAccount.t) (namespaces : list string) (w w' : W)
    (res : opResult) (err : option error) (log : list (Call RbacE)) :
  run h (ensureRolesAndClusterRoles r cp sa namespaces) w = (Returns (res, err), w', log) ->
  match err with
  | Some _ => res = Noop
  | None =>
      existsb (recorded writes) log = negb (isNoop res) /\
      (res <> Noop -> existsb (recorded removes) log = false)
  end.
Proof.
  unfold ensureRolesAndClusterRoles. rewrite run_bind.
  destruct (run h (generateRoleAndClusterRole r cp namespaces) w)
    as [[[[[generatedRoles [generatedClusterRole|]] [e|]] | ] w0] log0] eqn:Hgen;
    try (simpl; intros [= <- <- _ _]; reflexivity); try (simpl; discriminate).
  assert (Hlog0 : existsb (recorded writes) log0 = false /\
                  existsb (recorded removes) log0 = false).
  { revert Hgen. unfold generateRoleAndClusterRole.
    destruct (ControlPlaneSpec.PodTemplateSpec_ (CP.Spec cp)) as [tpl|]; [|discriminate].
    destruct (GetPodContainerByName tpl ControlPlaneControllerContainerName) as [c|];
      [|discriminate].
    destruct (GenerateNewClusterRoleForControlPlane _ _ _) as [clusterRole | e];
      [|discriminate].
    destruct (Nat.ltb 0 (List.length namespaces)).
    - simpl run. destruct (h GetAPIResourceListMapping w) as [[m | e] w1];
        [|discriminate].
      destruct (processClusterRole _ m) as [roleRules clusterRolesRules].
      simpl. intros [= _ _ _ <-]. now split.
    - simpl. intros [= _ _ _ <-]. now split. }
  destruct Hlog0 as [Hw0 Hr0]. clear Hgen.
  unfold onClient. rewrite run_bind, run_translate.
  pose proof (ensureClusterRole_report (fun X e => h (OnClient e)) cp generatedClusterRole w0)
    as H1.
  destruct (run (fun X e => h (OnClient e)) (ensureClusterRole cp generatedClusterRole) w0)
    as [[[[c1 cr] err1] w1] log1].
  destruct err1 as [e|]; [simpl; intros [= <- <- _ _]; reflexivity|].
  destruct (H1 eq_refl) as (Hr1 & Hw1 & Hcr).
  destruct c1.
  - simpl. intros [= <- <- _ <-].
    rewrite app_nil_r, !existsb_app, writes_onClient, removes_onClient, Hw0, Hr0, Hw1, Hr1.
    now split.
  - destruct cr as [cr|]; [|now contradiction (Hcr eq_refl)].
    rewrite run_bind, run_translate.
    pose proof (ensureClusterRoleBinding_report (fun X e => h (OnClient e)) cp
                  (ObjectMeta.Name (ServiceAccount.Meta sa))
                  (ObjectMeta.Name (ClusterRole.Meta cr)) w1) as H2.
    destruct (run (fun X e => h (OnClient e))
                (ensureClusterRoleBinding cp (ObjectMeta.Name (ServiceAccount.Meta sa))
                   (ObjectMeta.Name (ClusterRole.Meta cr))) w1)
      as [[[[c2 crb] err2] w2] log2].
    destruct err2 as [e|]; [simpl; intros [= <- <- _ _]; reflexivity|].
    destruct (H2 eq_refl) as (Hr2 & Hw2).
    destruct c2.
    + simpl. intros [= <- <- _ <-].
      rewrite app_nil_r, !existsb_app, !writes_onClient, !removes_onClient,
        Hw0, Hr0, Hw1, Hr1, Hw2, Hr2.
      now split.
    + destruct (Nat.ltb 0 (List.length (elements generatedRoles))).
      * rewrite run_bind.
        pose proof (ensureNamespacedRoles_report cp sa namespaces (elements generatedRoles) w2)
          as H3.
        destruct (run h (ensureNamespacedRoles cp sa namespaces (elements generatedRoles)) w2)
          as [[[res3 err3] w3] log3].
        simpl. intros [= <- <- _ <-].
        rewrite app_nil_r, !existsb_app, !writes_onClient, !removes_onClient,
          Hw0, Hr0, Hw1, Hr1, Hw2, Hr2.
        exact H3.
      * simpl. intros [= <- <- _ <-].
        rewrite app_nil_r, !existsb_app, !writes_onClient, !removes_onClient,
          Hw0, Hr0, Hw1, Hr1, Hw2, Hr2.
        split; [reflexivity | intros Hne; now contradiction Hne].
Qed.

End Composition.

End WithDeps.

#[local] Existing Instance ControlPlaneExamples.deps.
#[local] Existing Instance RolesScenarios.roleDeps.

(** The ClusterRole over ConfigMaps and Namespaces, restricted to one
    namespace, keeps the rule on Namespaces only. *)
Lemma generateRoleAndClusterRole_restricts_witness :
  exists roles clusterRole,
    value RolesScenarios.cluster
      (generateRoleAndClusterRole ControlPlaneExamples.recon RbacScenarios.cp ["ns-a"])
      (ControlPlaneExamples.emptyCluster, [])
    = Returns (Some roles, Some clusterRole, None) /\
    ClusterRole.Rules clusterRole = [ControlPlaneExamples.ruleOn ["namespaces"]].
Proof.
  destruct (@generateRoleAndClusterRole_restricts ControlPlaneExamples.deps
              RolesScenarios.roleDeps _ RolesScenarios.cluster
              (ControlPlaneExamples.emptyCluster, []) (ControlPlaneExamples.emptyCluster, [])
              ControlPlaneExamples.recon RbacScenarios.cp ["ns-a"]
              ControlPlaneExamples.template
              (Container.mk "controller" "kong/kubernetes-ingress-controller:3.4.1" [])
              (ClusterRole.mk (ControlPlaneExamples.meta "cp" EmptyString)
                 [ControlPlaneExamples.ruleOn ["configmaps"; "namespaces"]] None)
              ControlPlaneExamples.coreV1 eq_refl eq_refl eq_refl
              ltac:(discriminate) eq_refl)
    as (roles & clusterRole & Hrun & _).
  exists roles, clusterRole. unfold value. rewrite Hrun. split; [reflexivity|].
  injection Hrun as _ <-. reflexivity.
Defined.

(** On an empty cluster the pass creates the ClusterRole and reports
    [Updated]: it has deleted nothing. *)
Lemma ensureRolesAndClusterRoles_report_witness :
  existsb (recorded removes)
    (calls RolesScenarios.cluster
       (ensureRolesAndClusterRoles ControlPlaneExamples.recon RbacScenarios.cp
          RbacScenarios.sa ["ns-a"])
       (ControlPlaneExamples.emptyCluster, [])) = false.
Proof.
  destruct (@ensureRolesAndClusterRoles_report _ _ _ RolesScenarios.cluster
              ControlPlaneExamples.recon RbacScenarios.cp RbacScenarios.sa ["ns-a"]
              (ControlPlaneExamples.emptyCluster, [])
              (snd (fst (run RolesScenarios.cluster
                           (ensureRolesAndClusterRoles ControlPlaneExamples.recon
                              RbacScenarios.cp RbacScenarios.sa ["ns-a"])
                           (ControlPlaneExamples.emptyCluster, []))))
              Updated None
              (calls RolesScenarios.cluster
                 (ensureRolesAndClusterRoles ControlPlaneExamples.recon RbacScenarios.cp
                    RbacScenarios.sa ["ns-a"])
                 (ControlPlaneExamples.emptyCluster, []))) as [_ Hrem].
  - reflexivity.
  - apply Hrem. discriminate.
Defined.

End RolesAndClusterRolesFacts.
